(** * Monad wallet utilities: provider selection, network handshake and
      transfer dispatch

    A shallow embedding of the wallet utility module of the repository
    (the TypeScript module that exports [connectWallet], [sendPayment],
    [sendBulkPayment], ...) and of the decision of the Phantom warning
    component, followed by the properties of the specification and by
    further properties of the code.

    Modelling conventions.
    - JavaScript numbers are IEEE doubles.  Where a value depends on
      rounding they are Rocq's primitive binary64 floats: the fixed
      on-chain amount and its running total, balances, and the fee
      arithmetic of [Binary64].  The displayed amounts, which the
      module only compares with zero and passes through the fee
      formulas for reporting, are rationals ([Q]), and the fees
      reported for them are the exact values of the formulas.
    - Strings are [string] (sequences of 8-bit code units).
    - The module-level variable [connectedAccount], the browser's
      [localStorage] and the sequence of requests issued to the wallet
      form an explicit [State], threaded by a state-and-exception
      monad [M].
    - A wallet provider is an oracle: its answer to a request is a
      function of the events issued so far.
    - The answer to a request has the shape its JSON-RPC method
      returns; [None] stands for [null] where the source guards
      against it.
    - The module runs in a browser: [window] and [localStorage] exist.
      Writing to [localStorage] can fail; the host decides.
    - [console.log]/[warn]/[error] have no effect on the state and are
      left out.  [await] is sequencing in [M]; the module is modelled
      without interleaving of other callers. *)

From Stdlib Require Import ZArith QArith Qround List Ascii String Bool Lia Lqa.
From Stdlib Require Import Floats Uint63.
From Stdlib Require HexadecimalString.
From stdpp Require Import base option gmap strings.

#[local] Set Warnings "-inexact-float".

Local Open Scope Z_scope.
Local Open Scope string_scope.
Local Open Scope list_scope.

(** ** Regular expressions

    The source tests addresses with two regular-expression literals.
    They are embedded as regular expressions and matched with
    derivatives; both literals are anchored with [^] and [$], so a
    test is a match of the whole string. *)

Module Regex.

Inductive regex : Type :=
| Void : regex
| Eps : regex
| Class (p : ascii -> bool) : regex
| Seq (r1 r2 : regex) : regex
| Alt (r1 r2 : regex) : regex
| Star (r : regex) : regex.

Fixpoint nullable (r : regex) : bool :=
  match r with
  | Void => false
  | Eps => true
  | Class _ => false
  | Seq r1 r2 => nullable r1 && nullable r2
  | Alt r1 r2 => nullable r1 || nullable r2
  | Star _ => true
  end.

Fixpoint deriv (c : ascii) (r : regex) : regex :=
  match r with
  | Void => Void
  | Eps => Void
  | Class p => if p c then Eps else Void
  | Seq r1 r2 =>
      if nullable r1
      then Alt (Seq (deriv c r1) r2) (deriv c r2)
      else Seq (deriv c r1) r2
  | Alt r1 r2 => Alt (deriv c r1) (deriv c r2)
  | Star r0 => Seq (deriv c r0) (Star r0)
  end.

(** Smart constructors keep derivatives small. *)
Fixpoint simp (r : regex) : regex :=
  match r with
  | Seq r1 r2 =>
      match simp r1, simp r2 with
      | Void, _ => Void
      | _, Void => Void
      | Eps, r2' => r2'
      | r1', r2' => Seq r1' r2'
      end
  | Alt r1 r2 =>
      match simp r1, simp r2 with
      | Void, r2' => r2'
      | r1', Void => r1'
      | r1', r2' => Alt r1' r2'
      end
  | _ => r
  end.

Fixpoint matches (r : regex) (s : string) : bool :=
  match s with
  | EmptyString => nullable r
  | String c s' => matches (simp (deriv c r)) s'
  end.

Definition Plus (r : regex) : regex := Seq r (Star r).

Fixpoint Repeat (n : nat) (r : regex) : regex :=
  match n with
  | O => Eps
  | S n' => Seq r (Repeat n' r)
  end.

Definition in_range (lo hi c : ascii) : bool :=
  (N.leb (N_of_ascii lo) (N_of_ascii c)
   && N.leb (N_of_ascii c) (N_of_ascii hi))%bool.

(** A literal character. *)
Definition Lit (a : ascii) : regex := Class (Ascii.eqb a).

(** ASCII case folding, for the [i] flag. *)
Definition to_lower (c : ascii) : ascii :=
  if in_range "A" "Z" c then ascii_of_N (N_of_ascii c + 32) else c.

(** A class under the [i] flag accepts a character when the class
    accepts one of its two cases. *)
Definition to_upper (c : ascii) : ascii :=
  if in_range "a" "z" c then ascii_of_N (N_of_ascii c - 32) else c.

Definition ClassI (p : ascii -> bool) : regex :=
  Class (fun c => p (to_lower c) || p (to_upper c)).

Definition LitI (a : ascii) : regex := ClassI (Ascii.eqb a).

End Regex.

Import Regex.

(** [[a-fA-F0-9]] *)
Definition hex_class (c : ascii) : bool :=
  in_range "a" "f" c || in_range "A" "F" c || in_range "0" "9" c.

(** [[0-9a-f]] *)
Definition lower_hex_class (c : ascii) : bool :=
  in_range "0" "9" c || in_range "a" "f" c.

(** [/^0x[a-fA-F0-9]{40}$/] *)
Definition address_regex : regex :=
  Seq (Lit "0") (Seq (Lit "x") (Repeat 40 (Class hex_class))).

(** [/^0x0+[0-9a-f]$/i] *)
Definition placeholder_regex : regex :=
  Seq (LitI "0") (Seq (LitI "x") (Seq (Plus (LitI "0")) (ClassI lower_hex_class))).

(** ** Platform and chain configuration *)

Record PlatformConfig := mkPlatformConfig {
  feePercentage : Q;
  platformWallet : string;
  vatRefundPercentage : Q
}.

Definition PLATFORM_CONFIG : PlatformConfig := {|
  feePercentage := 1 # 2;
  platformWallet := "0x742d35Cc6634C0532925a3b844Bc9e7595f0bEb";
  vatRefundPercentage := 85 # 1
|}.

Record NativeCurrency := mkNativeCurrency {
  nc_name : string;
  nc_symbol : string;
  nc_decimals : Z
}.

Record MonadConfig := mkMonadConfig {
  rpcUrl : string;
  chainId : Z;
  chainIdHex : string;
  faucetUrl : string;
  explorers : list string;
  nativeCurrency : NativeCurrency
}.

Definition MONAD_CONFIG : MonadConfig := {|
  rpcUrl := "https://testnet-rpc.monad.xyz";
  chainId := 10143;
  chainIdHex := "0x279F";
  faucetUrl := "https://testnet.monad.xyz";
  explorers := [ "https://testnet.monadexplorer.com/";
                 "https://monad-testnet.socialscan.io/" ];
  nativeCurrency := {| nc_name := "Monad"; nc_symbol := "MON"; nc_decimals := 18 |}
|}.

(** ** Fee arithmetic *)

Definition calculatePlatformFee (amount : Q) : Q :=
  ((amount * feePercentage PLATFORM_CONFIG) / (100 # 1))%Q.

Definition calculateNetAmount (amount : Q) : Q :=
  let fee := calculatePlatformFee amount in
  (amount - fee)%Q.

(** The double nearest to an integer (ties to even). *)
Definition Number_of_Z (z : Z) : float :=
  SF2Prim (binary_normalize prec emax z 0 false).

(** The fee and VAT formulas in the arithmetic of the source: every
    operation rounds to the nearest double. *)
Module Binary64.

(** [PLATFORM_CONFIG.feePercentage] and
    [PLATFORM_CONFIG.vatRefundPercentage] *)
Definition feePercentage : float := 0.5.
Definition vatRefundPercentage : float := 85.

Definition calculatePlatformFee (amount : float) : float :=
  (amount * feePercentage / 100)%float.

Definition calculateNetAmount (amount : float) : float :=
  let fee := calculatePlatformFee amount in
  (amount - fee)%float.

Definition calculateVATRefund (vatAmount refundPercentage : float) : float :=
  let grossRefund := (vatAmount * refundPercentage / 100)%float in
  calculateNetAmount grossRefund.

Definition calculateVATAmount (billAmount vatRate : float) : float :=
  (billAmount * vatRate / (100 + vatRate))%float.

(** [calculatePlatformFee(a) + calculateNetAmount(a) === a] *)
Definition partitions (a : float) : bool :=
  PrimFloat.eqb (calculatePlatformFee a + calculateNetAmount a) a.

(** [0 <= calculateVATRefund(v) && calculateVATRefund(v) <= v], at the
    default percentage. *)
Definition refund_within (vatAmount : float) : bool :=
  let refund := calculateVATRefund vatAmount vatRefundPercentage in
  PrimFloat.leb 0 refund && PrimFloat.leb refund vatAmount.

(** The whole amount [n], and the amount of [n] cents ([n / 100]),
    for [n] below [2 ^ 53]. *)
Definition whole (n : N) : float := PrimFloat.of_uint63 (Uint63.of_Z (Z.of_N n)).
Definition cents (n : N) : float := (whole n / 100)%float.

End Binary64.

(** [P] at each of the [2 ^ d] numbers from [start] on. *)
Fixpoint holds_on (P : N -> bool) (d : nat) (start : N) : bool :=
  match d with
  | O => P start
  | S d' => holds_on P d' start && holds_on P d' (start + 2 ^ N.of_nat d')
  end.

(** ** Address validation *)

(** [!address] is true of the empty string only; the regular
    expression rejects it as well. *)
Definition isValidAddress (address : string) : bool :=
  if String.eqb address "" then false else matches address_regex address.

Definition isPlaceholder (recipient : string) : bool :=
  matches placeholder_regex recipient.

Definition TEST_ADDRESS : string := "0x70c573979F61710D3284120261B562e524ad3763".

(** ** Thrown values and results

    The source inspects a caught value in three ways: [instanceof
    Error], [.message] and [.code]. *)

Record Thrown := mkThrown {
  instanceofError : bool;
  message : string;
  code : option Z
}.

Definition new_Error (msg : string) : Thrown :=
  {| instanceofError := true; message := msg; code := None |}.

Inductive Result (A : Type) : Type :=
| Ok (a : A)
| Throw (e : Thrown).

Arguments Ok {A} a.
Arguments Throw {A} e.

(** ** Requests to a wallet provider *)

Record Transaction := mkTransaction {
  tx_from : option string;
  tx_to : string;
  tx_value : string;
  tx_gas : string
}.

Record AddChainParams := mkAddChainParams {
  ac_chainId : string;
  ac_chainName : string;
  ac_nativeCurrency : NativeCurrency;
  ac_rpcUrls : list string;
  ac_blockExplorerUrls : list string
}.

Inductive Request : Type :=
| eth_requestAccounts
| eth_accounts
| eth_getBalance (address tag : string)
| eth_sendTransaction (tx : Transaction)
| eth_getTransactionByHash (txHash : string)
| eth_getTransactionReceipt (txHash : string)
| wallet_switchEthereumChain (chain : string)
| wallet_addEthereumChain (params : AddChainParams).

Record TxInfo := mkTxInfo { gasPrice : option string }.

Record Receipt := mkReceipt {
  status : option string;
  gasUsed : option string
}.

(** The shape of a successful answer, by method.  [None] stands for
    [null]/[undefined] where the source guards against it. *)
Definition Reply (r : Request) : Type :=
  match r with
  | eth_requestAccounts | eth_accounts => option (list string)
  | eth_getBalance _ _ => string
  | eth_sendTransaction _ => string
  | eth_getTransactionByHash _ => option TxInfo
  | eth_getTransactionReceipt _ => option Receipt
  | wallet_switchEthereumChain _ | wallet_addEthereumChain _ => unit
  end.

(** What the module does to the outside world, in order. *)
Inductive Event : Type :=
| EvRequest (r : Request)
| EvDelay (ms : Z).

(** A provider object: its identity flag, whether [typeof p.request]
    is ["function"], and its answers as a function of the events so
    far. *)
Record Provider := mkProvider {
  isMetaMask : bool;
  has_request : bool;
  respond : list Event -> forall r : Request, Result (Reply r)
}.

(** [window.ethereum]: the object itself seen as a provider, and its
    [providers] property ([None] when it is not an array; an entry is
    [None] when it is [null]). *)
Record Ethereum := mkEthereum {
  eth_self : Provider;
  eth_providers : option (list (option Provider))
}.

Record Solana := mkSolana { isPhantom : bool }.

(** [window]: the injected wallet objects, and what
    [localStorage.setItem] does on this host: given the events so far,
    the stored contents, a key and a value, [None] when the write goes
    through and the exception when it is refused (a full or disabled
    store). *)
Record Window := mkWindow {
  ethereum : option Ethereum;
  solana : option Solana;
  setItem_raises : list Event -> gmap string string -> string -> string -> option Thrown
}.

(** ** State *)

Record State := mkState {
  connectedAccount : option string;
  localStorage : gmap string string;
  trace : list Event
}.

Definition STORAGE_KEY : string := "monad_connected_account".

(** A string-or-null is truthy when it is a non-empty string. *)
Definition truthy (v : option string) : bool :=
  match v with
  | Some s => negb (String.eqb s "")
  | None => false
  end.

(** Module load: hydrate [connectedAccount] from [localStorage]. *)
Definition init (storage : gmap string string) : State :=
  {| connectedAccount :=
       (let stored := storage !! STORAGE_KEY in
        if truthy stored then stored else None);
     localStorage := storage;
     trace := [] |}.

(** ** The state-and-exception monad *)

Definition M (A : Type) : Type := State -> State * Result A.

Definition ret {A} (a : A) : M A := fun s => (s, Ok a).

Definition throw {A} (e : Thrown) : M A := fun s => (s, Throw e).

Definition bind {A B} (m : M A) (k : A -> M B) : M B :=
  fun s =>
    match m s with
    | (s', Ok a) => k a s'
    | (s', Throw e) => (s', Throw e)
    end.

(** [try { m } catch (e) { h e }]: effects of [m] up to the throw
    stay. *)
Definition try_catch {A} (m : M A) (h : Thrown -> M A) : M A :=
  fun s =>
    match m s with
    | (s', Ok a) => (s', Ok a)
    | (s', Throw e) => h e s'
    end.

Definition lift {A} (r : Result A) : M A := fun s => (s, r).

Notation "x <- c1 ;; c2" := (bind c1 (fun x => c2))
  (at level 100, c1 at next level, right associativity).
Notation "c1 ;; c2" := (bind c1 (fun _ => c2))
  (at level 100, right associativity).

Definition get_connectedAccount : M (option string) :=
  fun s => (s, Ok (connectedAccount s)).

Definition set_connectedAccount (v : option string) : M unit :=
  fun s => ({| connectedAccount := v;
               localStorage := localStorage s;
               trace := trace s |}, Ok tt).

(** [localStorage.setItem(k, v)]: nothing is written when the host
    refuses. *)
Definition localStorage_setItem (win : Window) (k v : string) : M unit :=
  fun s =>
    match setItem_raises win (trace s) (localStorage s) k v with
    | Some e => (s, Throw e)
    | None => ({| connectedAccount := connectedAccount s;
                  localStorage := <[k := v]> (localStorage s);
                  trace := trace s |}, Ok tt)
    end.

Definition localStorage_removeItem (k : string) : M unit :=
  fun s => ({| connectedAccount := connectedAccount s;
               localStorage := delete k (localStorage s);
               trace := trace s |}, Ok tt).

Definition log (ev : Event) (s : State) : State :=
  {| connectedAccount := connectedAccount s;
     localStorage := localStorage s;
     trace := trace s ++ [ev] |}.

(** [await ethereum.request({ method, params })].  Calling [request]
    on an object that has no such function is a [TypeError], raised
    before anything reaches the wallet. *)
Definition request (p : Provider) (r : Request) : M (Reply r) :=
  fun s =>
    if has_request p
    then (log (EvRequest r) s, respond p (trace s) r)
    else (s, Throw (new_Error "ethereum.request is not a function")).

(** [await new Promise((resolve) => setTimeout(resolve, ms))] *)
Definition delay (ms : Z) : M unit := fun s => (log (EvDelay ms) s, Ok tt).

(** ** [parseInt(s, 16)] and number formatting *)

Definition is_white_space (c : ascii) : bool :=
  let n := N_of_ascii c in
  (N.leb 9 n && N.leb n 13)%bool || N.eqb n 32 || N.eqb n 160.

Definition hex_digit_value (c : ascii) : option Z :=
  let n := Z.of_N (N_of_ascii c) in
  if in_range "0" "9" c then Some (n - 48)
  else if in_range "a" "f" c then Some (n - 87)
  else if in_range "A" "F" c then Some (n - 55)
  else None.

Fixpoint skip_white_space (s : string) : string :=
  match s with
  | String c s' => if is_white_space c then skip_white_space s' else s
  | EmptyString => s
  end.

(** The longest prefix of hexadecimal digits; [None] when it is empty. *)
Fixpoint parse_hex_digits (s : string) (acc : option Z) : option Z :=
  match s with
  | String c s' =>
      match hex_digit_value c with
      | Some d => parse_hex_digits s' (Some (16 * default 0 acc + d))
      | None => acc
      end
  | EmptyString => acc
  end.

(** [parseInt(s, 16)]: the integer the digits spell, as a double;
    [NaN] without digits. *)
Definition parseInt16 (s : string) : float :=
  let s1 := skip_white_space s in
  let '(negative, s2) :=
    match s1 with
    | String "-" r => (true, r)
    | String "+" r => (false, r)
    | _ => (false, s1)
    end in
  let s3 :=
    match s2 with
    | String "0" (String x r) =>
        if (Ascii.eqb x "x" || Ascii.eqb x "X")%bool then r else s2
    | _ => s2
    end in
  match parse_hex_digits s3 None with
  | Some z => if negative : bool then (- Number_of_Z z)%float else Number_of_Z z
  | None => nan
  end.

(** [parseInt(balanceHex, 16) / 1e18] *)
Definition balance_of_hex (balanceHex : string) : float :=
  (parseInt16 balanceHex / 1e18)%float.

(** [n.toString(16)] for a non-negative integer. *)
Definition toString16 (n : Z) : string :=
  HexadecimalString.NilZero.string_of_uint (N.to_hex_uint (Z.to_N n)).

(** [Math.floor(x).toString(16)] for a double [x]. *)
Definition floor_toString16 (x : float) : string :=
  match Prim2SF x with
  | S754_nan => "NaN"
  | S754_infinity false => "Infinity"
  | S754_infinity true => "-Infinity"
  | S754_zero _ => "0"
  | S754_finite negative m e =>
      let magnitude := (Z.pos m * 2 ^ Z.max e 0)%Z in
      let floor :=
        ((if negative then - magnitude else magnitude) / 2 ^ Z.max (- e) 0)%Z in
      if Z.ltb floor 0 then "-" ++ toString16 (Z.opp floor) else toString16 floor
  end.

(** ** Provider resolution *)

Definition isWalletInstalled (win : Window) : bool :=
  match ethereum win with
  | Some _ => true
  | None => false
  end.

Definition hasSolana (win : Window) : bool :=
  match solana win with
  | Some sol => isPhantom sol
  | None => false
  end.

Definition PHANTOM_ONLY_MESSAGE : string :=
  "Detected Phantom (Solana) wallet but no EVM provider. Please install MetaMask or disable Phantom as the Default App Wallet and refresh.".

Definition NO_WALLET_MESSAGE : string :=
  "No EVM-compatible wallet found. Please install MetaMask or another Web3 wallet that supports Ethereum RPC.".

Definition PHANTOM_DEFAULT_MESSAGE : string :=
  "Multiple wallets detected and Phantom may be the Default App Wallet. Please set MetaMask as the handler or disable Phantom's Default App Wallet in its settings, then refresh.".

Definition NO_USABLE_MESSAGE : string :=
  "No usable EVM provider found. Install MetaMask and try again.".

(** [p && p.isMetaMask] *)
Definition flagged_MetaMask (p : option Provider) : bool :=
  match p with
  | Some p' => isMetaMask p'
  | None => false
  end.

(** The part of [getProvider] after the [providers] block: the
    [ethereum] object itself. *)
Definition resolve_self (win : Window) (eth : Ethereum) : Result Provider :=
  if isMetaMask (eth_self eth) then Ok (eth_self eth)
  else if has_request (eth_self eth) then
    if hasSolana win then Throw (new_Error PHANTOM_DEFAULT_MESSAGE)
    else Ok (eth_self eth)
  else Throw (new_Error NO_USABLE_MESSAGE).

Definition getProvider (win : Window) : Result Provider :=
  match ethereum win with
  | None =>
      if hasSolana win then Throw (new_Error PHANTOM_ONLY_MESSAGE)
      else Throw (new_Error NO_WALLET_MESSAGE)
  | Some eth =>
      match eth_providers eth with
      | Some ((first :: _) as providers) =>
          match List.find flagged_MetaMask providers with
          | Some (Some preferred) => Ok preferred
          | _ =>
              match first with
              | Some f => if has_request f then Ok f else resolve_self win eth
              | None => resolve_self win eth
              end
          end
      | _ => resolve_self win eth
      end
  end.

(** ** Network handshake *)

Definition ADD_CHAIN_PARAMS : AddChainParams := {|
  ac_chainId := chainIdHex MONAD_CONFIG;
  ac_chainName := "Monad Testnet";
  ac_nativeCurrency := nativeCurrency MONAD_CONFIG;
  ac_rpcUrls := [ rpcUrl MONAD_CONFIG ];
  ac_blockExplorerUrls :=
    match explorers MONAD_CONFIG with
    | first :: _ => [ first ]
    | [] => []
    end
|}.

(** [error.code === n] *)
Definition code_is (error : Thrown) (n : Z) : bool :=
  match code error with
  | Some c => Z.eqb c n
  | None => false
  end.

(** The switch-then-add block shared by [connectWallet] and
    [ensureMonadNetwork]. *)
Definition switch_or_add (ethereum : Provider) : M unit :=
  try_catch
    (request ethereum (wallet_switchEthereumChain (chainIdHex MONAD_CONFIG)))
    (fun switchError =>
       if code_is switchError 4902
       then request ethereum (wallet_addEthereumChain ADD_CHAIN_PARAMS)
       else throw switchError).

Definition ensureMonadNetwork (win : Window) : M unit :=
  if negb (isWalletInstalled win) then ret tt
  else
    ethereum <- lift (getProvider win) ;;
    switch_or_add ethereum.

(** ** Connection session *)

Record Connection := mkConnection {
  conn_address : string;
  conn_balance : float
}.

Definition connect_body (win : Window) : M Connection :=
  if negb (isWalletInstalled win)
  then throw (new_Error "Please install MetaMask or another Web3 wallet to continue.")
  else
    ethereum <- lift (getProvider win) ;;
    accounts <- request ethereum eth_requestAccounts ;;
    match accounts with
    | None | Some [] => throw (new_Error "No accounts found")
    | Some (account0 :: _) =>
        set_connectedAccount (Some account0) ;;
        localStorage_setItem win STORAGE_KEY account0 ;;
        switch_or_add ethereum ;;
        balanceHex <- request ethereum (eth_getBalance account0 "latest") ;;
        ret {| conn_address := account0; conn_balance := balance_of_hex balanceHex |}
    end.

Definition connectWallet (win : Window) : M Connection :=
  try_catch (connect_body win)
    (fun error =>
       throw (new_Error (if instanceofError error then message error
                         else "Failed to connect to wallet."))).

Definition disconnectWallet : M unit :=
  set_connectedAccount None ;;
  localStorage_removeItem STORAGE_KEY.

Definition reconnect_body (win : Window) : M (option Connection) :=
  if negb (isWalletInstalled win) then ret None
  else
    ethereum <- lift (getProvider win) ;;
    accounts <- request ethereum eth_accounts ;;
    match accounts with
    | None | Some [] => ret None
    | Some (account0 :: _) =>
        set_connectedAccount (Some account0) ;;
        localStorage_setItem win STORAGE_KEY account0 ;;
        balanceHex <- request ethereum (eth_getBalance account0 "latest") ;;
        ret (Some {| conn_address := account0;
                     conn_balance := balance_of_hex balanceHex |})
    end.

Definition reconnectWallet (win : Window) : M (option Connection) :=
  try_catch (reconnect_body win) (fun _ => ret None).

Definition isWalletConnected (s : State) : bool :=
  match connectedAccount s with
  | Some _ => true
  | None => false
  end.

Definition getConnectedAccount (s : State) : option string := connectedAccount s.

(** ** Transfers *)

Definition hardcodedAmount : float := 0.1.

(** ["0x" + Math.floor(hardcodedAmount * 1e18).toString(16)] *)
Definition amountWei : string :=
  "0x" ++ floor_toString16 (hardcodedAmount * 1e18).

Definition GAS_LIMIT : string := "0x5208".

(** The testing-mode substitution of a recipient address. *)
Definition validate_recipient (recipient : string) : string :=
  if isPlaceholder recipient || negb (isValidAddress recipient)
  then TEST_ADDRESS
  else recipient.

Definition error_message (error : Thrown) : string :=
  if instanceofError error then message error else "Unknown error".

Record PaymentResult := mkPaymentResult {
  pay_success : bool;
  pay_txHash : option string;
  pay_error : option string;
  pay_platformFee : option Q;
  pay_netAmount : option Q
}.

Definition payment_failure (error : Thrown) : PaymentResult :=
  {| pay_success := false;
     pay_txHash := None;
     pay_error := Some (error_message error);
     pay_platformFee := None;
     pay_netAmount := None |}.

Definition sendPayment_body (win : Window) (recipient : string) (amount : Q)
    (includePlatformFee : bool) : M PaymentResult :=
  ensureMonadNetwork win ;;
  let validatedRecipient := validate_recipient recipient in
  if negb (isValidAddress validatedRecipient)
  then throw (new_Error "Invalid Monad address")
  else if Qle_bool amount 0
  then throw (new_Error "Amount must be greater than 0")
  else
    account <- get_connectedAccount ;;
    if negb (truthy account) then throw (new_Error "No wallet connected")
    else
      ethereum <- lift (getProvider win) ;;
      let platformFee := if includePlatformFee then calculatePlatformFee amount else 0%Q in
      let netAmount := if includePlatformFee then (amount - platformFee)%Q else amount in
      account' <- get_connectedAccount ;;
      txHash <- request ethereum
                  (eth_sendTransaction {| tx_from := account';
                                          tx_to := validatedRecipient;
                                          tx_value := amountWei;
                                          tx_gas := GAS_LIMIT |}) ;;
      ret {| pay_success := true;
             pay_txHash := Some txHash;
             pay_error := None;
             pay_platformFee := if includePlatformFee then Some platformFee else None;
             pay_netAmount := if includePlatformFee then Some netAmount else None |}.

Definition sendPayment (win : Window) (recipient : string) (amount : Q)
    (includePlatformFee : bool) : M PaymentResult :=
  try_catch (sendPayment_body win recipient amount includePlatformFee)
    (fun error => ret (payment_failure error)).

Record Recipient := mkRecipient {
  address : string;
  amount : Q
}.

Record BulkResult := mkBulkResult {
  bulk_success : bool;
  bulk_txHash : option string;
  bulk_error : option string;
  bulk_totalPlatformFee : option Q;
  bulk_totalNetAmount : option float;
  bulk_failedTransactions : option nat
}.

Definition bulk_failure (error : Thrown) : BulkResult :=
  {| bulk_success := false;
     bulk_txHash := None;
     bulk_error := Some (error_message error);
     bulk_totalPlatformFee := None;
     bulk_totalNetAmount := None;
     bulk_failedTransactions := None |}.

(** [recipients.map(...)]: the substitution, entry by entry. *)
Definition validate_entry (recipient : Recipient) : Recipient :=
  if isPlaceholder (address recipient) || negb (isValidAddress (address recipient))
  then {| address := TEST_ADDRESS; amount := amount recipient |}
  else recipient.

(** The first loop: checks only, in order. *)
Fixpoint prevalidate (validatedRecipients : list Recipient) : M unit :=
  match validatedRecipients with
  | [] => ret tt
  | recipient :: rest =>
      if negb (isValidAddress (address recipient))
      then throw (new_Error ("Invalid Monad address: " ++ address recipient))
      else if Qle_bool (amount recipient) 0
      then throw (new_Error "Amount must be greater than 0")
      else prevalidate rest
  end.

(** The variables the second loop updates. *)
Record Totals := mkTotals {
  lastTxHash : string;
  totalNetAmount : float;
  failedTransactions : nat
}.

Definition bulk_transaction (account : option string) (recipient : Recipient) : Transaction :=
  {| tx_from := account;
     tx_to := address recipient;
     tx_value := amountWei;
     tx_gas := GAS_LIMIT |}.

(** One iteration of the second loop: the addition to
    [totalNetAmount] precedes the request, so it stays when the
    request throws. *)
Definition send_one (ethereum : Provider) (recipient : Recipient) (t : Totals) : M Totals :=
  let netAmount := hardcodedAmount in
  let t1 := {| lastTxHash := lastTxHash t;
               totalNetAmount := (totalNetAmount t + netAmount)%float;
               failedTransactions := failedTransactions t |} in
  t2 <- try_catch
          (account <- get_connectedAccount ;;
           txHash <- request ethereum (eth_sendTransaction (bulk_transaction account recipient)) ;;
           ret {| lastTxHash := txHash;
                  totalNetAmount := totalNetAmount t1;
                  failedTransactions := failedTransactions t1 |})
          (fun _ =>
             ret {| lastTxHash := lastTxHash t1;
                    totalNetAmount := totalNetAmount t1;
                    failedTransactions := S (failedTransactions t1) |}) ;;
  delay 1000 ;;
  ret t2.

Fixpoint send_loop (ethereum : Provider) (validatedRecipients : list Recipient)
    (t : Totals) : M Totals :=
  match validatedRecipients with
  | [] => ret t
  | recipient :: rest =>
      t' <- send_one ethereum recipient t ;;
      send_loop ethereum rest t'
  end.

Definition sendBulkPayment_body (win : Window) (recipients : list Recipient)
    (includePlatformFee : bool) : M BulkResult :=
  ensureMonadNetwork win ;;
  if Nat.eqb (List.length recipients) 0
  then throw (new_Error "No recipients provided")
  else
    account <- get_connectedAccount ;;
    if negb (truthy account) then throw (new_Error "No wallet connected")
    else
      let validatedRecipients := List.map validate_entry recipients in
      prevalidate validatedRecipients ;;
      ethereum <- lift (getProvider win) ;;
      let totalPlatformFee :=
        if includePlatformFee
        then fold_left (fun sum r => (sum + calculatePlatformFee (amount r))%Q) recipients 0%Q
        else 0%Q in
      t <- send_loop ethereum validatedRecipients
             {| lastTxHash := ""; totalNetAmount := 0%float; failedTransactions := 0%nat |} ;;
      ret {| bulk_success := Nat.ltb (failedTransactions t) (List.length recipients);
             bulk_txHash := Some (lastTxHash t);
             bulk_error := None;
             bulk_totalPlatformFee :=
               if includePlatformFee then Some totalPlatformFee else None;
             bulk_totalNetAmount :=
               if includePlatformFee then Some (totalNetAmount t) else None;
             bulk_failedTransactions :=
               if Nat.ltb 0 (failedTransactions t) then Some (failedTransactions t) else None |}.

Definition sendBulkPayment (win : Window) (recipients : list Recipient)
    (includePlatformFee : bool) : M BulkResult :=
  try_catch (sendBulkPayment_body win recipients includePlatformFee)
    (fun error => ret (bulk_failure error)).

(** ** Transaction details *)

Record TransactionDetails := mkTransactionDetails {
  td_hash : string;
  td_success : bool;
  td_timestamp : Z;
  td_gasUsed : string;
  td_gasPrice : string
}.

(** [v || "0x0"] for an optional string [v]. *)
Definition or_zero (v : option string) : string :=
  if truthy v then default "0x0" v else "0x0".

(** [now] is the value [Date.now()] returns. *)
Definition getTransactionDetails (win : Window) (now : Z) (txHash : string)
    : M TransactionDetails :=
  try_catch
    (ethereum <- lift (getProvider win) ;;
     tx <- request ethereum (eth_getTransactionByHash txHash) ;;
     receipt <- request ethereum (eth_getTransactionReceipt txHash) ;;
     ret {| td_hash := txHash;
            td_success :=
              match receipt ≫= status with
              | Some st => String.eqb st "0x1"
              | None => false
              end;
            td_timestamp := now;
            td_gasUsed := or_zero (receipt ≫= gasUsed);
            td_gasPrice := or_zero (tx ≫= gasPrice) |})
    (fun _ =>
       ret {| td_hash := txHash;
              td_success := true;
              td_timestamp := now;
              td_gasUsed := "0x0";
              td_gasPrice := "0x0" |}).

(** ** Vocabulary of the properties

    Observations on a trace and on the answers of a provider, used to
    state what the operations above do. *)

(** The transfers submitted by a sequence of events. *)
Fixpoint transfers (evs : list Event) : list Transaction :=
  match evs with
  | [] => []
  | EvRequest (eth_sendTransaction tx) :: rest => tx :: transfers rest
  | _ :: rest => transfers rest
  end.

(** The events of the second loop of [sendBulkPayment]: one
    submission and one pause per recipient, in order. *)
Definition submission_events (account : option string)
    (validatedRecipients : list Recipient) : list Event :=
  flat_map (fun r => [ EvRequest (eth_sendTransaction (bulk_transaction account r));
                       EvDelay 1000 ])
           validatedRecipients.

(** What the provider answers to each submission of the loop, started
    after events [t]. *)
Fixpoint outcomes (ethereum : Provider) (account : option string)
    (validatedRecipients : list Recipient) (t : list Event) : list (Result string) :=
  match validatedRecipients with
  | [] => []
  | r :: rest =>
      let req := eth_sendTransaction (bulk_transaction account r) in
      respond ethereum t req
        :: outcomes ethereum account rest (t ++ [EvRequest req; EvDelay 1000])
  end.

Definition is_Throw {A} (r : Result A) : bool :=
  match r with
  | Ok _ => false
  | Throw _ => true
  end.

(** The number of submissions that failed. *)
Definition failures (os : list (Result string)) : nat :=
  List.length (List.filter is_Throw os).

(** The hashes of the submissions that succeeded, in order. *)
Fixpoint hashes (os : list (Result string)) : list string :=
  match os with
  | [] => []
  | Ok h :: rest => h :: hashes rest
  | Throw _ :: rest => hashes rest
  end.

(** The account a prompting or non-prompting account query grants:
    the first entry of a non-empty answer of the resolved provider. *)
Definition granted_account (answer : Result (option (list string))) : option string :=
  match answer with
  | Ok (Some (account0 :: _)) => Some account0
  | _ => None
  end.

Definition switch_request : Request :=
  wallet_switchEthereumChain (chainIdHex MONAD_CONFIG).

Definition add_request : Request := wallet_addEthereumChain ADD_CHAIN_PARAMS.

(** A computation that leaves the session alone and submits no
    transfer. *)
Definition quiet {A} (m : M A) : Prop :=
  forall s s' r, m s = (s', r) ->
    connectedAccount s' = connectedAccount s /\
    localStorage s' = localStorage s /\
    exists evs, trace s' = trace s ++ evs /\ transfers evs = [].

(** [s] with more events. *)
Definition extend (s : State) (evs : list Event) : State :=
  {| connectedAccount := connectedAccount s;
     localStorage := localStorage s;
     trace := trace s ++ evs |}.

Definition transfer_request (account : option string) (r : Recipient) : Request :=
  eth_sendTransaction (bulk_transaction account r).

(** The variables after one iteration, from the provider's answer. *)
Definition totals_after (t : Totals) (answer : Result string) : Totals :=
  match answer with
  | Ok txHash =>
      {| lastTxHash := txHash;
         totalNetAmount := (totalNetAmount t + hardcodedAmount)%float;
         failedTransactions := failedTransactions t |}
  | Throw _ =>
      {| lastTxHash := lastTxHash t;
         totalNetAmount := (totalNetAmount t + hardcodedAmount)%float;
         failedTransactions := S (failedTransactions t) |}
  end.

(** The sum the loop accumulates: one [hardcodedAmount] per
    recipient, whatever the recipient. *)
Definition accumulate_hardcoded (rs : list Recipient) (start : float) : float :=
  fold_left (fun acc _ => (acc + hardcodedAmount)%float) rs start.

(** [hardcodedAmount] added [n] times to zero, one addition after the
    other, each rounded. *)
Definition hardcoded_total (n : nat) : float :=
  Nat.iter n (fun acc => (acc + hardcodedAmount)%float) 0%float.

(** The sum of the platform fees of the displayed amounts, as
    [recipients.reduce] computes it. *)
Definition sum_platform_fees (recipients : list Recipient) : Q :=
  fold_left (fun sum r => (sum + calculatePlatformFee (amount r))%Q) recipients 0%Q.


(** The chain description with every explorer URL of the
    configuration. *)
Definition FULL_CHAIN_PARAMS : AddChainParams := {|
  ac_chainId := chainIdHex MONAD_CONFIG;
  ac_chainName := "Monad Testnet";
  ac_nativeCurrency := nativeCurrency MONAD_CONFIG;
  ac_rpcUrls := [ rpcUrl MONAD_CONFIG ];
  ac_blockExplorerUrls := explorers MONAD_CONFIG
|}.

(** The account the resolved provider grants to an account query
    issued in state [s]; [None] when no provider resolves, when it has
    no [request] function, when the query fails and when it returns no
    account. *)
Definition prompted_account (win : Window) (s : State) : option string :=
  match getProvider win with
  | Ok p =>
      if has_request p
      then granted_account (respond p (trace s) eth_requestAccounts)
      else None
  | Throw _ => None
  end.

Definition silent_account (win : Window) (s : State) : option string :=
  match getProvider win with
  | Ok p =>
      if has_request p
      then granted_account (respond p (trace s) eth_accounts)
      else None
  | Throw _ => None
  end.

(** The session after [account0] has been recorded. *)
Definition session_set (s s' : State) (account0 : string) : Prop :=
  connectedAccount s' = Some account0 /\
  localStorage s' = <[STORAGE_KEY := account0]> (localStorage s).

Definition session_unchanged (s s' : State) : Prop :=
  connectedAccount s' = connectedAccount s /\
  localStorage s' = localStorage s.

(** The session after [account0] has been recorded in memory and the
    write to [localStorage] was refused. *)
Definition session_in_memory_only (s s' : State) (account0 : string) : Prop :=
  connectedAccount s' = Some account0 /\
  localStorage s' = localStorage s.

(** What the host answers to the write of the granted account, in
    [connectWallet] and in [reconnectWallet]: the write comes right
    after the account query. *)
Definition prompted_write (win : Window) (s : State) (account0 : string) : option Thrown :=
  setItem_raises win (trace s ++ [EvRequest eth_requestAccounts]) (localStorage s)
                 STORAGE_KEY account0.

Definition silent_write (win : Window) (s : State) (account0 : string) : option Thrown :=
  setItem_raises win (trace s ++ [EvRequest eth_accounts]) (localStorage s)
                 STORAGE_KEY account0.


(** A host whose store accepts every write. *)
Definition accepts_writes (win : Window) : Prop :=
  forall t contents k v, setItem_raises win t contents k v = None.

(** The answer to the balance query of [reconnectWallet]. *)
Definition silent_balance (win : Window) (s : State) (account0 : string) : Result string :=
  match getProvider win with
  | Ok p => respond p (trace s ++ [EvRequest eth_accounts]) (eth_getBalance account0 "latest")
  | Throw e => Throw e
  end.

Definition optimistic_details (now : Z) (txHash : string) : TransactionDetails :=
  {| td_hash := txHash;
     td_success := true;
     td_timestamp := now;
     td_gasUsed := "0x0";
     td_gasPrice := "0x0" |}.

(** The answers to the two fetches of [getTransactionDetails]. *)
Definition tx_answer (p : Provider) (s : State) (txHash : string)
    : Result (option TxInfo) :=
  respond p (trace s) (eth_getTransactionByHash txHash).

Definition receipt_answer (p : Provider) (s : State) (txHash : string)
    : Result (option Receipt) :=
  respond p (trace s ++ [EvRequest (eth_getTransactionByHash txHash)])
          (eth_getTransactionReceipt txHash).

(** ** Example hosts *)

Module Examples.

Definition unrecognized_chain : Thrown :=
  {| instanceofError := true; message := "Unrecognized chain ID"; code := Some 4902 |}.

Definition user_rejected : Thrown :=
  {| instanceofError := true; message := "User rejected the request."; code := Some 4001 |}.

Definition rpc_failure : Thrown :=
  {| instanceofError := true; message := "Internal JSON-RPC error."; code := Some (-32603) |}.

Definition alice : string := "0x1111111111111111111111111111111111111111".
Definition bob : string := "0x2222222222222222222222222222222222222222".
Definition carol : string := "0x3333333333333333333333333333333333333333".
Definition placeholder1 : string := "0x0000000000000000000000000000000000000001".

(** A wallet whose answers are fixed per method; the answer to a
    transfer depends on how many transfers came before. *)
Definition scripted (accounts : Result (option (list string)))
    (switch add : Result unit) (balance : Result string)
    (send : nat -> Result string)
    (tx : Result (option TxInfo)) (receipt : Result (option Receipt))
    (t : list Event) (r : Request) : Result (Reply r) :=
  match r with
  | eth_requestAccounts | eth_accounts => accounts
  | eth_getBalance _ _ => balance
  | eth_sendTransaction _ => send (List.length (transfers t))
  | eth_getTransactionByHash _ => tx
  | eth_getTransactionReceipt _ => receipt
  | wallet_switchEthereumChain _ => switch
  | wallet_addEthereumChain _ => add
  end.

Definition mined_tx : Result (option TxInfo) :=
  Ok (Some {| gasPrice := Some "0x3b9aca00" |}).

Definition mined_receipt : Result (option Receipt) :=
  Ok (Some {| status := Some "0x1"; gasUsed := Some "0x5208" |}).

Definition reverted_receipt : Result (option Receipt) :=
  Ok (Some {| status := Some "0x0"; gasUsed := Some "0x5208" |}).

Definition nth_hash (n : nat) : Result string :=
  Ok (nth n ["0xaaa"; "0xbbb"; "0xccc"] "0xddd").

(** A well-behaved MetaMask on the right chain, holding one MON. *)
Definition metamask : Provider :=
  {| isMetaMask := true;
     has_request := true;
     respond := scripted (Ok (Some [alice])) (Ok tt) (Ok tt)
                         (Ok "0xde0b6b3a7640000") nth_hash mined_tx mined_receipt |}.

(** The same wallet, failing the second transfer it is asked for. *)
Definition metamask_second_fails : Provider :=
  {| isMetaMask := true;
     has_request := true;
     respond := scripted (Ok (Some [alice])) (Ok tt) (Ok tt)
                         (Ok "0xde0b6b3a7640000")
                         (fun n => if Nat.eqb n 1 then Throw user_rejected else nth_hash n)
                         mined_tx mined_receipt |}.

(** A wallet that does not know the chain yet and accepts adding it. *)
Definition metamask_new_chain : Provider :=
  {| isMetaMask := true;
     has_request := true;
     respond := scripted (Ok (Some [alice])) (Throw unrecognized_chain) (Ok tt)
                         (Ok "0xde0b6b3a7640000") nth_hash mined_tx mined_receipt |}.


(** A wallet whose balance query fails. *)
Definition metamask_no_balance : Provider :=
  {| isMetaMask := true;
     has_request := true;
     respond := scripted (Ok (Some [alice])) (Ok tt) (Ok tt)
                         (Throw rpc_failure) nth_hash mined_tx mined_receipt |}.

(** A wallet with no account to offer. *)
Definition metamask_locked : Provider :=
  {| isMetaMask := true;
     has_request := true;
     respond := scripted (Ok (Some [])) (Ok tt) (Ok tt)
                         (Ok "0x0") nth_hash mined_tx mined_receipt |}.

(** A wallet whose receipt query fails. *)
Definition metamask_no_receipt : Provider :=
  {| isMetaMask := true;
     has_request := true;
     respond := scripted (Ok (Some [alice])) (Ok tt) (Ok tt)
                         (Ok "0x0") nth_hash mined_tx (Throw rpc_failure) |}.

(** A wallet reporting a reverted transaction. *)
Definition metamask_reverted : Provider :=
  {| isMetaMask := true;
     has_request := true;
     respond := scripted (Ok (Some [alice])) (Ok tt) (Ok tt)
                         (Ok "0x0") nth_hash mined_tx reverted_receipt |}.

(** Two unbranded objects: one without [request], one with it. *)
Definition stub_without_request : Provider :=
  {| isMetaMask := false;
     has_request := false;
     respond := respond metamask |}.

Definition other_wallet : Provider :=
  {| isMetaMask := false;
     has_request := true;
     respond := respond metamask |}.

(** A store that accepts every write, and one that refuses every
    write. *)
Definition storage_accepts : list Event -> gmap string string -> string -> string
                             -> option Thrown :=
  fun _ _ _ _ => None.

Definition quota_exceeded : Thrown :=
  {| instanceofError := true;
     message := "The quota has been exceeded.";
     code := Some 22 |}.

Definition storage_full : list Event -> gmap string string -> string -> string
                          -> option Thrown :=
  fun _ _ _ _ => Some quota_exceeded.

Definition host (p : Provider) : Window :=
  {| ethereum := Some {| eth_self := p; eth_providers := None |};
     solana := None;
     setItem_raises := storage_accepts |}.

(** The same host with a full store. *)
Definition host_storage_full (p : Provider) : Window :=
  {| ethereum := Some {| eth_self := p; eth_providers := None |};
     solana := None;
     setItem_raises := storage_full |}.

Definition host_with_providers (self : Provider) (ps : list (option Provider)) : Window :=
  {| ethereum := Some {| eth_self := self; eth_providers := Some ps |};
     solana := None;
     setItem_raises := storage_accepts |}.

Definition host_without_wallet : Window :=
  {| ethereum := None; solana := None; setItem_raises := storage_accepts |}.

Definition host_phantom_only : Window :=
  {| ethereum := None; solana := Some {| isPhantom := true |};
     setItem_raises := storage_accepts |}.

Definition disconnected : State := init ∅.

Definition connected_as (account : string) : State :=
  init (<[STORAGE_KEY := account]> ∅).

(** A wallet that does not know the chain and whose user declines
    adding it. *)
Definition metamask_add_rejected : Provider :=
  {| isMetaMask := true;
     has_request := true;
     respond := scripted (Ok (Some [alice])) (Throw unrecognized_chain)
                         (Throw user_rejected)
                         (Ok "0xde0b6b3a7640000") nth_hash mined_tx mined_receipt |}.

Definition three_recipients : list Recipient :=
  [ {| address := alice; amount := 10 |};
    {| address := bob; amount := 20 |};
    {| address := carol; amount := 30 |} ].

End Examples.

Import Examples.

(** * Further operations of the module *)

(** ** Display helpers *)

(** [s.substring(n)]: from index [n] to the end. *)
Definition substring_from (n : nat) (s : string) : string :=
  String.substring n (String.length s - n) s.

(** [formatAddress]: the first six and the last four characters.  The
    start index [address.length - 4] is clamped at zero, as
    [substring] does with a negative argument. *)
Definition formatAddress (address : string) : string :=
  if String.eqb address "" then ""
  else String.substring 0 6 address
         ++ "..."
         ++ substring_from (String.length address - 4) address.

(** ** Account balance *)

Record Asset := mkAsset {
  assetId : string;
  asset_amount : float;
  asset_name : string;
  asset_symbol : string
}.

Record AccountBalance := mkAccountBalance {
  mon : float;
  totalCoins : Z;
  assets : list Asset
}.

(** [getAccountBalance] has no handler of its own: its failures reach
    the caller. *)
Definition getAccountBalance (win : Window) : M AccountBalance :=
  account <- get_connectedAccount ;;
  match account with
  | Some connected =>
      if String.eqb connected "" then throw (new_Error "No wallet connected")
      else
        ethereum <- lift (getProvider win) ;;
        balanceHex <- request ethereum (eth_getBalance connected "latest") ;;
        let monBalance := balance_of_hex balanceHex in
        ret {| mon := monBalance;
               totalCoins := 2;
               assets :=
                 [ {| assetId := "MON"; asset_amount := monBalance;
                      asset_name := "Monad"; asset_symbol := "MON" |};
                   {| assetId := "USDC"; asset_amount := 0%float;
                      asset_name := "USD Coin"; asset_symbol := "USDC" |} ] |}
  | None => throw (new_Error "No wallet connected")
  end.

(** ** Assets (nothing to do on an EVM chain) *)

Record OptInResult := mkOptInResult {
  opt_success : bool;
  opt_error : option string
}.

Definition optInToAsset (_assetId : string) : M OptInResult :=
  ret {| opt_success := true; opt_error := None |}.

Definition isOptedInToAsset (_assetId : string) : M bool := ret true.

(** ** VAT refunds *)

Record VATRefundResult := mkVATRefundResult {
  vat_success : bool;
  vat_txHash : option string;
  vat_error : option string
}.

Definition VAT_POSITIVE_MESSAGE : string :=
  "Bill amount and VAT amount must be greater than 0".

Definition VAT_EXCEEDS_MESSAGE : string :=
  "VAT amount cannot be greater than bill amount".

Definition VAT_NOT_DEPLOYED_MESSAGE : string :=
  "VAT refund smart contract not deployed. Please deploy the contract first.".

(** The [try] block of [submitVATRefund]: every path ends in a
    [throw]. *)
Definition submitVATRefund_body (vatRegNo receiptNo : string) (billAmount vatAmount : Q)
    (currency documentHash : string) : M VATRefundResult :=
  if Qle_bool billAmount 0 || Qle_bool vatAmount 0
  then throw (new_Error VAT_POSITIVE_MESSAGE)
  else if negb (Qle_bool vatAmount billAmount)
  then throw (new_Error VAT_EXCEEDS_MESSAGE)
  else throw (new_Error VAT_NOT_DEPLOYED_MESSAGE).

Definition submitVATRefund (vatRegNo receiptNo : string) (billAmount vatAmount : Q)
    (currency documentHash : string) : M VATRefundResult :=
  try_catch
    (submitVATRefund_body vatRegNo receiptNo billAmount vatAmount currency documentHash)
    (fun error =>
       ret {| vat_success := false;
              vat_txHash := None;
              vat_error := Some (error_message error) |}).

Record VATRefundEntry := mkVATRefundEntry {
  vr_id : Z;
  vr_vatRegNo : string;
  vr_receiptNo : string;
  vr_billAmount : Q;
  vr_vatAmount : Q;
  vr_refundAmount : Q;
  vr_status : string;
  vr_timestamp : Z;
  vr_transactionHash : string
}.

(** [now] is the value [Date.now()] returns. *)
Definition getVATRefundHistory (now : Z) : M (list VATRefundEntry) :=
  account <- get_connectedAccount ;;
  if negb (truthy account) then ret []
  else
    ret [ {| vr_id := 1; vr_vatRegNo := "VAT123456"; vr_receiptNo := "INV001";
             vr_billAmount := 100; vr_vatAmount := 20; vr_refundAmount := 20;
             vr_status := "completed"; vr_timestamp := now - 86400000;
             vr_transactionHash := "0xabc123..." |};
          {| vr_id := 2; vr_vatRegNo := "VAT789012"; vr_receiptNo := "INV002";
             vr_billAmount := 250; vr_vatAmount := 50; vr_refundAmount := 50;
             vr_status := "pending"; vr_timestamp := now - 172800000;
             vr_transactionHash := "" |} ].

(** ** The Phantom warning component

    The effect that runs when the component mounts decides once
    whether the dialog is shown; the component renders nothing
    otherwise. *)

(** [eth && (eth.isMetaMask || (Array.isArray(eth.providers) &&
    eth.providers.some((p) => p && p.isMetaMask)))] *)
Definition hasMetaMask (win : Window) : bool :=
  match ethereum win with
  | Some eth =>
      isMetaMask (eth_self eth)
      || match eth_providers eth with
         | Some providers => existsb flagged_MetaMask providers
         | None => false
         end
  | None => false
  end.

Definition PhantomWarning_show (win : Window) : bool :=
  hasSolana win && negb (hasMetaMask win).

(** A host with Phantom and one unbranded EVM sub-provider. *)
Definition host_phantom_and_other : Window :=
  {| ethereum := Some {| eth_self := stub_without_request;
                         eth_providers := Some [Some other_wallet] |};
     solana := Some {| isPhantom := true |};
     setItem_raises := storage_accepts |}.

(** * Vocabulary of the further properties *)

(** ** The language of a regular expression *)

Inductive lang : regex -> string -> Prop :=
| lang_Eps : lang Eps ""
| lang_Class (p : ascii -> bool) (c : ascii) :
    p c = true -> lang (Class p) (String c "")
| lang_Seq (r1 r2 : regex) (s1 s2 : string) :
    lang r1 s1 -> lang r2 s2 -> lang (Seq r1 r2) (s1 ++ s2)
| lang_Alt_l (r1 r2 : regex) (s : string) :
    lang r1 s -> lang (Alt r1 r2) s
| lang_Alt_r (r1 r2 : regex) (s : string) :
    lang r2 s -> lang (Alt r1 r2) s
| lang_Star_nil (r : regex) : lang (Star r) ""
| lang_Star_cons (r : regex) (s1 s2 : string) :
    lang r s1 -> lang (Star r) s2 -> lang (Star r) (s1 ++ s2).

(** Every character of [s] satisfies [p]. *)
Fixpoint all_chars (p : ascii -> bool) (s : string) : bool :=
  match s with
  | EmptyString => true
  | String c s' => p c && all_chars p s'
  end.

(** Any hexadecimal digit, in either case. *)
Definition any_hex_digit (c : ascii) : bool :=
  in_range "0" "9" c || in_range "a" "f" c || in_range "A" "F" c.

(** [n] zeros. *)
Fixpoint zero_string (n : nat) : string :=
  match n with
  | O => ""
  | S n' => String "0" (zero_string n')
  end.

(** ** Events *)

(** The requests of a sequence of events, pauses left out. *)
Fixpoint requests (evs : list Event) : list Request :=
  match evs with
  | [] => []
  | EvRequest r :: rest => r :: requests rest
  | EvDelay _ :: rest => requests rest
  end.

(** A transfer as both send operations build it. *)
Definition well_formed_transfer (account : option string) (tx : Transaction) : Prop :=
  tx_from tx = account /\
  isValidAddress (tx_to tx) = true /\
  isPlaceholder (tx_to tx) = false /\
  tx_value tx = "0x16345785d8a0000" /\
  tx_gas tx = "0x5208".

(** The transaction [sendPayment] builds for a recipient. *)
Definition payment_transaction (account : option string) (recipient : string)
    : Transaction :=
  {| tx_from := account;
     tx_to := validate_recipient recipient;
     tx_value := amountWei;
     tx_gas := GAS_LIMIT |}.

(** The record [sendPayment] returns after a submission that
    succeeded. *)
Definition payment_success (txHash : string) (displayed : Q) (includePlatformFee : bool)
    : PaymentResult :=
  {| pay_success := true;
     pay_txHash := Some txHash;
     pay_error := None;
     pay_platformFee :=
       if includePlatformFee then Some (calculatePlatformFee displayed) else None;
     pay_netAmount :=
       if includePlatformFee
       then Some (displayed - calculatePlatformFee displayed)%Q
       else None |}.

(** ** The session *)

(** The in-memory address, when there is one, is the persisted one. *)
Definition persisted (s : State) : Prop :=
  forall account, connectedAccount s = Some account ->
    localStorage s !! STORAGE_KEY = Some account.

(** An operation that leaves the in-memory and the persisted address
    alone, whatever it returns. *)
Definition read_only {A} (m : M A) : Prop :=
  forall s s' r, m s = (s', r) -> session_unchanged s s'.

(** An operation keeps [persisted]. *)
Definition keeps_persisted {A} (m : M A) : Prop :=
  forall s s' r, persisted s -> m s = (s', r) -> persisted s'.

(** The run from [s] to [s'] was granted an account and had its write
    to [localStorage] refused: the account is in memory only. *)
Definition prompted_write_refused (win : Window) (s s' : State) : Prop :=
  exists account0 refusal,
    prompted_account win s = Some account0 /\
    prompted_write win s account0 = Some refusal /\
    session_in_memory_only s s' account0.

Definition silent_write_refused (win : Window) (s s' : State) : Prop :=
  exists account0 refusal,
    silent_account win s = Some account0 /\
    silent_write win s account0 = Some refusal /\
    session_in_memory_only s s' account0.

(** * Properties *)

(** ** Running the monad *)

Ltac run :=
  unfold bind, try_catch, lift, ret, throw, get_connectedAccount,
    set_connectedAccount, localStorage_setItem, localStorage_removeItem, delay;
  simpl.

Lemma bind_ok {A B} (m : M A) (k : A -> M B) (s s' : State) (a : A) :
  m s = (s', Ok a) -> bind m k s = k a s'.
Proof. intros H. unfold bind. now rewrite H. Qed.

Lemma bind_throw {A B} (m : M A) (k : A -> M B) (s s' : State) (e : Thrown) :
  m s = (s', Throw e) -> bind m k s = (s', Throw e).
Proof. intros H. unfold bind. now rewrite H. Qed.

Lemma request_run (p : Provider) (r : Request) (s : State) :
  has_request p = true ->
  request p r s = (log (EvRequest r) s, respond p (trace s) r).
Proof. intros H. unfold request. now rewrite H. Qed.

Lemma request_without_function (p : Provider) (r : Request) (s : State) :
  has_request p = false ->
  request p r s = (s, Throw (new_Error "ethereum.request is not a function")).
Proof. intros H. unfold request. now rewrite H. Qed.

Lemma log_trace (ev : Event) (s : State) : trace (log ev s) = trace s ++ [ev].
Proof. reflexivity. Qed.

Lemma code_is_spec (e : Thrown) (n : Z) : code_is e n = true <-> code e = Some n.
Proof.
  unfold code_is. destruct (code e) as [c|]; [|split; discriminate].
  rewrite Z.eqb_eq. split; congruence.
Qed.

Lemma getProvider_installed (win : Window) (p : Provider) :
  getProvider win = Ok p -> isWalletInstalled win = true.
Proof.
  unfold getProvider, isWalletInstalled.
  destruct (ethereum win); [reflexivity|].
  destruct (hasSolana win); discriminate.
Qed.

(** ** The handshake, step by step *)

Lemma switch_or_add_run (p : Provider) (s : State) :
  has_request p = true ->
  switch_or_add p s =
    match respond p (trace s) switch_request with
    | Ok _ => (log (EvRequest switch_request) s, Ok tt)
    | Throw e =>
        if code_is e 4902
        then (log (EvRequest add_request) (log (EvRequest switch_request) s),
              respond p (trace s ++ [EvRequest switch_request]) add_request)
        else (log (EvRequest switch_request) s, Throw e)
    end.
Proof.
  intros H. unfold switch_or_add, try_catch.
  rewrite request_run by assumption. fold switch_request.
  destruct (respond p (trace s) switch_request) as [[]|e]; [reflexivity|].
  destruct (code_is e 4902); [|reflexivity].
  rewrite request_run by assumption. reflexivity.
Qed.

Lemma switch_or_add_no_function (p : Provider) (s : State) :
  has_request p = false ->
  switch_or_add p s = (s, Throw (new_Error "ethereum.request is not a function")).
Proof.
  intros H. unfold switch_or_add, try_catch.
  rewrite request_without_function by assumption. reflexivity.
Qed.

Lemma switch_or_add_quiet (p : Provider) : quiet (switch_or_add p).
Proof.
  intros s s' r. destruct (has_request p) eqn:Hreq.
  - rewrite switch_or_add_run by assumption.
    destruct (respond p (trace s) switch_request) as [[]|e].
    + intros [= <- <-]. repeat split. now exists [EvRequest switch_request].
    + destruct (code_is e 4902); intros [= <- <-]; repeat split.
      * exists [EvRequest switch_request; EvRequest add_request].
        simpl. now rewrite <- app_assoc.
      * now exists [EvRequest switch_request].
  - rewrite switch_or_add_no_function by assumption.
    intros [= <- <-]. repeat split. exists []. now rewrite app_nil_r.
Qed.

Lemma ensureMonadNetwork_quiet (win : Window) : quiet (ensureMonadNetwork win).
Proof.
  intros s s' r. unfold ensureMonadNetwork.
  destruct (isWalletInstalled win); simpl.
  - run. destruct (getProvider win) as [p|e].
    + apply switch_or_add_quiet.
    + intros [= <- <-]. repeat split. exists []. now rewrite app_nil_r.
  - run. intros [= <- <-]. repeat split. exists []. now rewrite app_nil_r.
Qed.

(** When the handshake succeeds on a host with a wallet, the
    resolved provider has a [request] function. *)
Lemma ensureMonadNetwork_ok_request (win : Window) (p : Provider) (s s1 : State) :
  ensureMonadNetwork win s = (s1, Ok tt) ->
  getProvider win = Ok p ->
  has_request p = true.
Proof.
  intros Hrun Hp. unfold ensureMonadNetwork in Hrun.
  rewrite (getProvider_installed _ _ Hp) in Hrun. simpl in Hrun.
  unfold bind, lift in Hrun. rewrite Hp in Hrun.
  destruct (has_request p) eqn:Hreq; [reflexivity|].
  rewrite switch_or_add_no_function in Hrun by assumption. discriminate.
Qed.

(** ** The bulk loops *)

Lemma extend_extend (s : State) (evs1 evs2 : list Event) :
  extend (extend s evs1) evs2 = extend s (evs1 ++ evs2).
Proof. unfold extend. simpl. now rewrite <- app_assoc. Qed.

Lemma extend_nil (s : State) : extend s [] = s.
Proof. destruct s. unfold extend. simpl. now rewrite app_nil_r. Qed.

Lemma last_cons {A} (a d : A) (l : list A) : List.last (a :: l) d = List.last l a.
Proof.
  revert a d. induction l as [|b l IH]; intros a d; [reflexivity|].
  change (List.last (a :: b :: l) d) with (List.last (b :: l) d).
  now rewrite (IH b d), (IH b a).
Qed.

Lemma send_one_run (p : Provider) (r : Recipient) (t : Totals) (s : State) :
  has_request p = true ->
  send_one p r t s =
    (extend s [EvRequest (transfer_request (connectedAccount s) r); EvDelay 1000],
     Ok (totals_after t (respond p (trace s) (transfer_request (connectedAccount s) r)))).
Proof.
  intros H. unfold send_one. run.
  rewrite request_run by assumption. fold (transfer_request (connectedAccount s) r).
  destruct (respond p (trace s) (transfer_request (connectedAccount s) r));
    simpl; unfold log, extend; simpl; now rewrite <- app_assoc.
Qed.

Lemma send_loop_run (p : Provider) (rs : list Recipient) :
  has_request p = true ->
  forall (t : Totals) (s : State),
    send_loop p rs t s =
      (extend s (submission_events (connectedAccount s) rs),
       Ok {| lastTxHash :=
               List.last (hashes (outcomes p (connectedAccount s) rs (trace s))) (lastTxHash t);
             totalNetAmount := accumulate_hardcoded rs (totalNetAmount t);
             failedTransactions :=
               (failedTransactions t
                + failures (outcomes p (connectedAccount s) rs (trace s)))%nat |}).
Proof.
  intros H. induction rs as [|r rest IH]; intros t s.
  - simpl. unfold ret, failures. simpl. rewrite extend_nil, Nat.add_0_r.
    now destruct t.
  - change (send_loop p (r :: rest) t s)
      with (bind (send_one p r t) (fun t' => send_loop p rest t') s).
    unfold bind. rewrite send_one_run by assumption.
    rewrite IH, extend_extend.
    cbn -[List.last hashes failures outcomes totals_after].
    change (outcomes p (connectedAccount s) (r :: rest) (trace s))
      with (respond p (trace s) (transfer_request (connectedAccount s) r)
              :: outcomes p (connectedAccount s) rest
                   (trace s ++ [EvRequest (transfer_request (connectedAccount s) r);
                                EvDelay 1000])).
    fold (transfer_request (connectedAccount s) r).
    set (answer := respond p (trace s) (transfer_request (connectedAccount s) r)).
    f_equal. destruct answer as [h|e]; cbn [totals_after hashes lastTxHash
      totalNetAmount failedTransactions].
    + rewrite last_cons. reflexivity.
    + unfold failures. simpl. f_equal. f_equal. lia.
Qed.

Lemma validate_entry_amount (r : Recipient) : amount (validate_entry r) = amount r.
Proof.
  unfold validate_entry.
  now destruct (isPlaceholder (address r) || negb (isValidAddress (address r))).
Qed.

Lemma TEST_ADDRESS_valid : isValidAddress TEST_ADDRESS = true.
Proof. vm_compute. reflexivity. Qed.

(** Substitution never leaves an invalid address behind. *)
Lemma validate_recipient_valid (recipient : string) :
  isValidAddress (validate_recipient recipient) = true.
Proof.
  unfold validate_recipient.
  destruct (isPlaceholder recipient); simpl; [apply TEST_ADDRESS_valid|].
  destruct (isValidAddress recipient) eqn:E; simpl;
    [assumption | apply TEST_ADDRESS_valid].
Qed.

Lemma validate_entry_address (r : Recipient) :
  address (validate_entry r) = validate_recipient (address r).
Proof.
  unfold validate_entry, validate_recipient.
  now destruct (isPlaceholder (address r) || negb (isValidAddress (address r))).
Qed.

Lemma positive_not_le_0 (a : Q) : (0 < a)%Q -> Qle_bool a 0 = false.
Proof.
  intros H. destruct (Qle_bool a 0) eqn:E; [|reflexivity].
  apply Qle_bool_iff in E. exfalso. apply (Qlt_not_le _ _ H E).
Qed.

Lemma prevalidate_pass (recipients : list Recipient) (s : State) :
  Forall (fun r => (0 < amount r)%Q) recipients ->
  prevalidate (List.map validate_entry recipients) s = (s, Ok tt).
Proof.
  induction 1 as [|r rest Hr _ IH]; [reflexivity|].
  simpl. rewrite validate_entry_address, validate_recipient_valid. simpl.
  rewrite validate_entry_amount, (positive_not_le_0 _ Hr). exact IH.
Qed.

Lemma prevalidate_reject (recipients : list Recipient) (s : State) :
  Exists (fun r => (amount r <= 0)%Q) recipients ->
  prevalidate (List.map validate_entry recipients) s
    = (s, Throw (new_Error "Amount must be greater than 0")).
Proof.
  induction recipients as [|r rest IH]; intros H.
  - inversion H.
  - simpl. rewrite validate_entry_address, validate_recipient_valid. simpl.
    rewrite validate_entry_amount.
    destruct (Qle_bool (amount r) 0) eqn:E; [reflexivity|].
    apply IH. inversion H as [? ? Hle|]; subst; [|assumption].
    apply Qle_bool_iff in Hle. congruence.
Qed.


Lemma outcomes_length (p : Provider) (account : option string)
    (rs : list Recipient) (t : list Event) :
  List.length (outcomes p account rs t) = List.length rs.
Proof.
  revert t. induction rs as [|r rest IH]; intros t; [reflexivity|].
  simpl. f_equal. apply IH.
Qed.

Lemma truthy_Some (account : string) : account <> "" -> truthy (Some account) = true.
Proof.
  intros H. simpl. destruct (String.eqb account "") eqn:E; [|reflexivity].
  apply String.eqb_eq in E. contradiction.
Qed.

(** The whole of [sendBulkPayment] once every guard has passed. *)
Lemma sendBulkPayment_run (win : Window) (p : Provider) (s s1 : State)
    (account : string) (recipients : list Recipient) (includePlatformFee : bool) :
  recipients <> [] ->
  connectedAccount s = Some account ->
  account <> "" ->
  ensureMonadNetwork win s = (s1, Ok tt) ->
  getProvider win = Ok p ->
  Forall (fun r => (0 < amount r)%Q) recipients ->
  let validated := List.map validate_entry recipients in
  let answers := outcomes p (Some account) validated (trace s1) in
  sendBulkPayment win recipients includePlatformFee s =
    (extend s1 (submission_events (Some account) validated),
     Ok {| bulk_success := Nat.ltb (failures answers) (List.length recipients);
           bulk_txHash := Some (List.last (hashes answers) "");
           bulk_error := None;
           bulk_totalPlatformFee :=
             if includePlatformFee
             then Some (fold_left (fun sum r => (sum + calculatePlatformFee (amount r))%Q)
                                  recipients 0%Q)
             else None;
           bulk_totalNetAmount :=
             if includePlatformFee then Some (accumulate_hardcoded validated 0%float) else None;
           bulk_failedTransactions :=
             if Nat.ltb 0 (failures answers) then Some (failures answers) else None |}).
Proof.
  intros Hne Hacc Hnonempty Hensure Hp Hpos validated answers.
  pose proof (ensureMonadNetwork_ok_request _ _ _ _ Hensure Hp) as Hreq.
  destruct (ensureMonadNetwork_quiet win _ _ _ Hensure) as (Hacc1 & _ & _).
  rewrite Hacc in Hacc1.
  unfold sendBulkPayment, try_catch, sendBulkPayment_body.
  erewrite bind_ok by exact Hensure.
  destruct recipients as [|r0 rest]; [contradiction|].
  change (Nat.eqb (List.length (r0 :: rest)) 0) with false. cbv iota.
  erewrite bind_ok by (unfold get_connectedAccount; rewrite Hacc1; reflexivity).
  rewrite (truthy_Some _ Hnonempty). cbn [negb]. cbv zeta.
  erewrite bind_ok by (apply prevalidate_pass; exact Hpos).
  erewrite bind_ok by (unfold lift; rewrite Hp; reflexivity).
  erewrite bind_ok by (apply send_loop_run; exact Hreq).
  unfold ret. rewrite Hacc1. simpl Nat.add.
  cbn [lastTxHash totalNetAmount failedTransactions].
  destruct includePlatformFee; reflexivity.
Qed.

(** ** Bulk transfers *)

(** C1, as the code has it.  For every non-empty recipient list, with
    an active session, a network handshake that succeeded, a provider
    that resolves and all amounts above zero, [sendBulkPayment]
    submits exactly one transfer per recipient, in order, each followed
    by the pause, whatever the earlier submissions answered; the
    outcome counts the submissions that failed, its success flag is
    true exactly when that count is below the number of recipients, its
    hash is the hash of the last submission that succeeded (the empty
    string when none did), and the failure count is left out when it is
    zero. *)
Theorem sendBulkPayment_isolates_failures
    (win : Window) (p : Provider) (s s1 : State) (account : string)
    (recipients : list Recipient) (includePlatformFee : bool) :
  recipients <> [] ->
  connectedAccount s = Some account ->
  account <> "" ->
  ensureMonadNetwork win s = (s1, Ok tt) ->
  getProvider win = Ok p ->
  Forall (fun r => (0 < amount r)%Q) recipients ->
  let validated := List.map validate_entry recipients in
  let answers := outcomes p (Some account) validated (trace s1) in
  exists s2 result,
    sendBulkPayment win recipients includePlatformFee s = (s2, Ok result) /\
    trace s2 = trace s1 ++ submission_events (Some account) validated /\
    List.length answers = List.length recipients /\
    bulk_success result = Nat.ltb (failures answers) (List.length recipients) /\
    bulk_txHash result = Some (List.last (hashes answers) "") /\
    bulk_failedTransactions result
      = (if Nat.eqb (failures answers) 0 then None else Some (failures answers)) /\
    bulk_error result = None.
Proof.
  intros Hne Hacc Hnonempty Hensure Hp Hpos validated answers.
  pose proof (sendBulkPayment_run win p s s1 account recipients includePlatformFee
                Hne Hacc Hnonempty Hensure Hp Hpos) as Hrun.
  cbv zeta in Hrun. fold validated answers in Hrun.
  eexists _, _. split; [exact Hrun|]. cbn [bulk_success bulk_txHash
    bulk_failedTransactions bulk_error]. repeat split.
  - unfold answers, validated. now rewrite outcomes_length, length_map.
  - now destruct (failures answers).
Qed.

Lemma sendBulkPayment_isolates_failures_witness :
  exists s2 result,
    sendBulkPayment (host metamask_second_fails) three_recipients true (connected_as alice)
      = (s2, Ok result) /\
    transfers (trace s2) = List.map (bulk_transaction (Some alice)) three_recipients /\
    bulk_success result = true /\
    bulk_txHash result = Some "0xccc" /\
    bulk_failedTransactions result = Some 1%nat.
Proof.
  destruct (sendBulkPayment_isolates_failures
              (host metamask_second_fails) metamask_second_fails
              (connected_as alice)
              (extend (connected_as alice) [EvRequest switch_request])
              alice three_recipients true)
    as (s2 & result & Hrun & Htrace & _ & Hsuccess & Hhash & Hfailed & _).
  - discriminate.
  - vm_compute. reflexivity.
  - discriminate.
  - vm_compute. reflexivity.
  - reflexivity.
  - repeat constructor.
  - exists s2, result. split; [exact Hrun|]. split; [|split; [|split]].
    + rewrite Htrace. vm_compute. reflexivity.
    + rewrite Hsuccess. vm_compute. reflexivity.
    + rewrite Hhash. vm_compute. reflexivity.
    + rewrite Hfailed. vm_compute. reflexivity.
Defined.

(** C1 as stated fails on a host without an injected EVM object: the
    handshake returns at once, the guards on the list, the session and
    the amounts pass, and provider resolution then throws, so nothing
    is submitted and the outcome is a failure although no submission
    failed. *)
Lemma sendBulkPayment_without_wallet :
  let s := connected_as alice in
  let recipients := [ {| address := bob; amount := 20 |} ] in
  recipients <> [] /\
  truthy (connectedAccount s) = true /\
  ensureMonadNetwork host_without_wallet s = (s, Ok tt) /\
  Forall (fun r => (0 < amount r)%Q) recipients /\
  exists s2 result,
    sendBulkPayment host_without_wallet recipients false s = (s2, Ok result) /\
    trace s2 = [] /\
    bulk_success result = false /\
    bulk_txHash result = None.
Proof.
  cbv zeta. split; [discriminate|]. split; [vm_compute; reflexivity|].
  split; [reflexivity|]. split; [repeat constructor|].
  eexists _, _. split; [vm_compute; reflexivity|]. repeat split.
Qed.

(** C5.  For every recipient list with an entry whose amount is zero
    or less, on every host and in every state, [sendBulkPayment]
    returns a failure record and the events it issued contain no
    transfer: the batch fails before any submission. *)
Theorem sendBulkPayment_rejects_invalid_amount
    (win : Window) (recipients : list Recipient) (includePlatformFee : bool) (s : State) :
  Exists (fun r => (amount r <= 0)%Q) recipients ->
  exists s' result evs,
    sendBulkPayment win recipients includePlatformFee s = (s', Ok result) /\
    bulk_success result = false /\
    bulk_txHash result = None /\
    trace s' = trace s ++ evs /\
    transfers evs = [].
Proof.
  intros Hbad. unfold sendBulkPayment, try_catch.
  assert (Hbody : exists s' e evs,
             sendBulkPayment_body win recipients includePlatformFee s = (s', Throw e) /\
             trace s' = trace s ++ evs /\ transfers evs = []).
  { unfold sendBulkPayment_body.
    destruct (ensureMonadNetwork win s) as [s1 [[]|e]] eqn:Hensure;
      destruct (ensureMonadNetwork_quiet win _ _ _ Hensure) as (_ & _ & evs & Ht & Hq).
    - erewrite bind_ok by exact Hensure.
      destruct (Nat.eqb (List.length recipients) 0).
      { eexists _, _, evs. split; [reflexivity|]. now split. }
      erewrite bind_ok by reflexivity.
      destruct (truthy (connectedAccount s1)); cbn [negb].
      + cbv zeta. erewrite bind_throw by (apply prevalidate_reject; exact Hbad).
        eexists _, _, evs. split; [reflexivity|]. now split.
      + eexists _, _, evs. split; [reflexivity|]. now split.
    - erewrite bind_throw by exact Hensure.
      eexists _, _, evs. split; [reflexivity|]. now split. }
  destruct Hbody as (s' & e & evs & Hrun & Ht & Hq). rewrite Hrun.
  exists s', (bulk_failure e), evs. repeat split; assumption.
Qed.

Lemma sendBulkPayment_rejects_invalid_amount_witness :
  exists s' result evs,
    sendBulkPayment (host metamask)
      [ {| address := alice; amount := 10 |}; {| address := bob; amount := 0 |} ]
      true (connected_as alice) = (s', Ok result) /\
    bulk_success result = false /\
    bulk_txHash result = None /\
    trace s' = trace (connected_as alice) ++ evs /\
    transfers evs = [].
Proof.
  apply (sendBulkPayment_rejects_invalid_amount (host metamask)
           [ {| address := alice; amount := 10 |}; {| address := bob; amount := 0 |} ]
           true (connected_as alice)).
  apply Exists_cons_tl, Exists_cons_hd. simpl. discriminate.
Defined.



(** The running total is not the product: three additions of 0.1
    give 0.30000000000000004 and eight give 0.7999999999999999. *)
Example hardcoded_total_3 : hardcoded_total 3 = 0.30000000000000004%float.
Proof. vm_compute. reflexivity. Qed.

Example hardcoded_total_8 : hardcoded_total 8 = 0.7999999999999999%float.
Proof. vm_compute. reflexivity. Qed.


(** ** The network handshake *)

Lemma log_log (ev1 ev2 : Event) (s : State) :
  log ev2 (log ev1 s) = extend s [ev1; ev2].
Proof. unfold log, extend. simpl. now rewrite <- app_assoc. Qed.

(** C2, as the code has it.  For every resolved provider whose
    chain-switch request fails: when the error code is 4902,
    [ensureMonadNetwork] issues exactly one add-chain request after the
    switch, carrying the hexadecimal chain id, the chain name, the
    native currency, the RPC URL and the first block-explorer URL
    only, does not retry the switch, and returns what the add-chain
    request returns (success when it succeeds, its failure when it
    fails); for any other code the switch failure is propagated
    unchanged and nothing more is requested. *)
Theorem ensureMonadNetwork_switch_failure
    (win : Window) (p : Provider) (s : State) (e : Thrown) :
  getProvider win = Ok p ->
  has_request p = true ->
  respond p (trace s) switch_request = Throw e ->
  ADD_CHAIN_PARAMS =
    {| ac_chainId := "0x279F";
       ac_chainName := "Monad Testnet";
       ac_nativeCurrency := {| nc_name := "Monad"; nc_symbol := "MON"; nc_decimals := 18 |};
       ac_rpcUrls := [ "https://testnet-rpc.monad.xyz" ];
       ac_blockExplorerUrls := [ "https://testnet.monadexplorer.com/" ] |} /\
  ensureMonadNetwork win s =
    if code_is e 4902
    then (extend s [EvRequest switch_request; EvRequest add_request],
          respond p (trace s ++ [EvRequest switch_request]) add_request)
    else (extend s [EvRequest switch_request], Throw e).
Proof.
  intros Hp Hreq Hswitch. split; [reflexivity|].
  unfold ensureMonadNetwork. rewrite (getProvider_installed _ _ Hp). cbn [negb].
  erewrite bind_ok by (unfold lift; rewrite Hp; reflexivity).
  rewrite switch_or_add_run by assumption. rewrite Hswitch.
  destruct (code_is e 4902); [|reflexivity]. now rewrite log_log.
Qed.

Lemma ensureMonadNetwork_switch_failure_witness :
  ensureMonadNetwork (host metamask_new_chain) disconnected =
    (extend disconnected [EvRequest switch_request; EvRequest add_request], Ok tt).
Proof.
  destruct (ensureMonadNetwork_switch_failure (host metamask_new_chain)
              metamask_new_chain disconnected unrecognized_chain) as [_ Hrun].
  - reflexivity.
  - reflexivity.
  - reflexivity.
  - exact Hrun.
Defined.

(** C2 as stated fails twice.  After a switch failure with code 4902
    the add-chain request carries one explorer URL where the chain
    description has two; and when that request fails, the handshake
    fails with it. *)
Lemma ensureMonadNetwork_adds_first_explorer_only :
  code unrecognized_chain = Some 4902 /\
  respond metamask_new_chain (trace disconnected) switch_request = Throw unrecognized_chain /\
  trace (fst (ensureMonadNetwork (host metamask_new_chain) disconnected))
    = [EvRequest switch_request; EvRequest (wallet_addEthereumChain ADD_CHAIN_PARAMS)] /\
  ac_blockExplorerUrls ADD_CHAIN_PARAMS = [ "https://testnet.monadexplorer.com/" ] /\
  explorers MONAD_CONFIG = [ "https://testnet.monadexplorer.com/";
                             "https://monad-testnet.socialscan.io/" ] /\
  ADD_CHAIN_PARAMS <> FULL_CHAIN_PARAMS /\
  respond metamask_add_rejected (trace disconnected) switch_request = Throw unrecognized_chain /\
  snd (ensureMonadNetwork (host metamask_add_rejected) disconnected) = Throw user_rejected.
Proof.
  repeat split. discriminate.
Qed.

(** ** Single transfers *)

Lemma amountWei_value : amountWei = "0x16345785d8a0000".
Proof. vm_compute. reflexivity. Qed.

(** The substitution, by cases: a recipient is kept exactly when it
    is a valid address and not a placeholder. *)
Lemma validate_recipient_cases (recipient : string) :
  validate_recipient recipient =
    if isValidAddress recipient && negb (isPlaceholder recipient)
    then recipient else TEST_ADDRESS.
Proof.
  unfold validate_recipient.
  now destruct (isPlaceholder recipient), (isValidAddress recipient).
Qed.

(** C3, as the code has it.  For every call to [sendPayment] with an
    amount above zero, an active session, a handshake that succeeded
    and a provider that resolves, exactly one transaction is submitted
    after the handshake; it carries the fixed on-chain amount (0.1 MON
    in wei, whatever the displayed amount) and the fixed gas limit, and
    it is addressed to the given recipient when that recipient passes
    address validation and is not a placeholder address (zeros followed
    by one hexadecimal digit), otherwise to the fixed test address.
    The outcome succeeds exactly when that submission does. *)
Theorem sendPayment_transaction
    (win : Window) (p : Provider) (s s1 : State) (account recipient : string)
    (displayed : Q) (includePlatformFee : bool) :
  (0 < displayed)%Q ->
  connectedAccount s = Some account ->
  account <> "" ->
  ensureMonadNetwork win s = (s1, Ok tt) ->
  getProvider win = Ok p ->
  let tx := {| tx_from := Some account;
               tx_to := if isValidAddress recipient && negb (isPlaceholder recipient)
                        then recipient else TEST_ADDRESS;
               tx_value := "0x16345785d8a0000";
               tx_gas := "0x5208" |} in
  exists s2 result,
    sendPayment win recipient displayed includePlatformFee s = (s2, Ok result) /\
    trace s2 = trace s1 ++ [EvRequest (eth_sendTransaction tx)] /\
    pay_success result = negb (is_Throw (respond p (trace s1) (eth_sendTransaction tx))) /\
    pay_txHash result =
      match respond p (trace s1) (eth_sendTransaction tx) with
      | Ok txHash => Some txHash
      | Throw _ => None
      end.
Proof.
  intros Hpos Hacc Hnonempty Hensure Hp tx.
  pose proof (ensureMonadNetwork_ok_request _ _ _ _ Hensure Hp) as Hreq.
  destruct (ensureMonadNetwork_quiet win _ _ _ Hensure) as (Hacc1 & _ & _).
  rewrite Hacc in Hacc1.
  unfold sendPayment, try_catch, sendPayment_body.
  erewrite bind_ok by exact Hensure. cbv zeta.
  rewrite validate_recipient_valid. cbn [negb].
  rewrite (positive_not_le_0 _ Hpos).
  erewrite bind_ok by (unfold get_connectedAccount; rewrite Hacc1; reflexivity).
  rewrite (truthy_Some _ Hnonempty). cbn [negb].
  erewrite bind_ok by (unfold lift; rewrite Hp; reflexivity).
  erewrite bind_ok by (unfold get_connectedAccount; rewrite Hacc1; reflexivity).
  unfold bind. rewrite request_run by assumption.
  rewrite validate_recipient_cases, amountWei_value. unfold GAS_LIMIT. fold tx.
  destruct (respond p (trace s1) (eth_sendTransaction tx)) as [h|e];
    eexists _, _; (split; [reflexivity|]); repeat split.
Qed.

Lemma sendPayment_transaction_witness :
  exists s2 result,
    sendPayment (host metamask) bob 5 true (connected_as alice) = (s2, Ok result) /\
    transfers (trace s2) = [ {| tx_from := Some alice; tx_to := bob;
                                tx_value := "0x16345785d8a0000"; tx_gas := "0x5208" |} ] /\
    pay_success result = true.
Proof.
  destruct (sendPayment_transaction (host metamask) metamask (connected_as alice)
              (extend (connected_as alice) [EvRequest switch_request])
              alice bob 5 true)
    as (s2 & result & Hrun & Htrace & Hsuccess & _).
  - reflexivity.
  - vm_compute. reflexivity.
  - discriminate.
  - vm_compute. reflexivity.
  - reflexivity.
  - exists s2, result. split; [exact Hrun|]. split.
    + rewrite Htrace. vm_compute. reflexivity.
    + rewrite Hsuccess. vm_compute. reflexivity.
Defined.

(** C3 as stated fails on a placeholder address: it passes address
    validation, and the transaction goes to the test address. *)
Lemma sendPayment_replaces_placeholder :
  isValidAddress placeholder1 = true /\
  TEST_ADDRESS <> placeholder1 /\
  exists s2 result,
    sendPayment (host metamask) placeholder1 5 false (connected_as alice)
      = (s2, Ok result) /\
    pay_success result = true /\
    List.map tx_to (transfers (trace s2)) = [ TEST_ADDRESS ].
Proof.
  split; [vm_compute; reflexivity|]. split; [discriminate|].
  eexists _, _. split; [vm_compute; reflexivity|]. split; reflexivity.
Qed.

(** ** The connection session *)

Lemma not_installed_no_provider (win : Window) :
  isWalletInstalled win = false -> exists e, getProvider win = Throw e.
Proof.
  unfold isWalletInstalled, getProvider.
  destruct (ethereum win); [discriminate|].
  destruct (hasSolana win); eauto.
Qed.

Lemma request_session (p : Provider) (r : Request) (s s' : State)
    (answer : Result (Reply r)) :
  request p r s = (s', answer) ->
  connectedAccount s' = connectedAccount s /\ localStorage s' = localStorage s.
Proof.
  unfold request. destruct (has_request p); intros [= <- _]; now split.
Qed.

(** What [connect_body] leaves behind, whatever it returns: the
    address is recorded in memory as soon as an account is granted, and
    persisted right after unless the host refuses the write, which
    ends the call. *)
Lemma connect_body_session (win : Window) (s s' : State) (r : Result Connection) :
  connect_body win s = (s', r) ->
  match prompted_account win s with
  | Some account0 =>
      match prompted_write win s account0 with
      | None => session_set s s' account0
      | Some refusal =>
          session_in_memory_only s s' account0 /\ r = Throw refusal /\
          trace s' = trace s ++ [EvRequest eth_requestAccounts]
      end
  | None => session_unchanged s s'
  end.
Proof.
  unfold connect_body, prompted_account, prompted_write.
  destruct (isWalletInstalled win) eqn:Hinst; cbn [negb].
  2:{ destruct (not_installed_no_provider _ Hinst) as [e ->].
      intros [= <- _]. now split. }
  destruct (getProvider win) as [p|e].
  2:{ intros [= <- _]. now split. }
  erewrite bind_ok by reflexivity.
  destruct (has_request p) eqn:Hreq.
  2:{ erewrite bind_throw by (apply request_without_function; exact Hreq).
      intros [= <- _]. now split. }
  unfold bind at 1. rewrite request_run by assumption.
  destruct (respond p (trace s) eth_requestAccounts) as [[[|account0 others]|]|e];
    cbn [granted_account]; try (intros [= <- _]; now split).
  unfold bind at 1. unfold set_connectedAccount.
  unfold bind at 1. unfold localStorage_setItem. cbn [trace localStorage log].
  destruct (setItem_raises win (trace s ++ [EvRequest eth_requestAccounts])
              (localStorage s) STORAGE_KEY account0) as [refusal|].
  { intros [= <- <-]. repeat split. }
  unfold bind at 1.
  match goal with
  | |- context [switch_or_add p ?s0] =>
      destruct (switch_or_add p s0) as [s2 [[]|e]] eqn:Hswitch;
      destruct (switch_or_add_quiet p _ _ _ Hswitch) as (Ha & Hl & _);
      simpl in Ha, Hl
  end.
  - unfold bind.
    destruct (request p (eth_getBalance account0 "latest") s2) as [s3 answer] eqn:Hbal.
    destruct (request_session _ _ _ _ _ Hbal) as [Ha3 Hl3].
    destruct answer; intros [= <- _]; split; congruence.
  - intros [= <- _]. now split.
Qed.





(** The three kinds of failure, on concrete hosts. *)
Example connectWallet_no_accounts :
  connectWallet (host metamask_locked) disconnected
    = (extend disconnected [EvRequest eth_requestAccounts],
       Throw (new_Error "No accounts found")).
Proof. vm_compute. reflexivity. Qed.

Example connectWallet_storage_full :
  exists s',
    connectWallet (host_storage_full metamask) disconnected
      = (s', Throw (new_Error "The quota has been exceeded.")) /\
    connectedAccount s' = Some alice /\
    localStorage s' !! STORAGE_KEY = None /\
    trace s' = [EvRequest eth_requestAccounts].
Proof. eexists. split; [vm_compute; reflexivity|]. repeat split. Qed.

Lemma reconnect_body_run (win : Window) (s : State) :
  exists s' r,
    reconnect_body win s = (s', r) /\
    match silent_account win s with
    | Some account0 =>
        match silent_write win s account0 with
        | None =>
            session_set s s' account0 /\
            r = match silent_balance win s account0 with
                | Ok balanceHex =>
                    Ok (Some {| conn_address := account0;
                                conn_balance := balance_of_hex balanceHex |})
                | Throw e => Throw e
                end
        | Some refusal =>
            session_in_memory_only s s' account0 /\ r = Throw refusal
        end
    | None =>
        session_unchanged s s' /\ (r = Ok None \/ exists e, r = Throw e)
    end.
Proof.
  unfold reconnect_body, silent_account, silent_balance, silent_write.
  destruct (isWalletInstalled win) eqn:Hinst; cbn [negb].
  2:{ destruct (not_installed_no_provider _ Hinst) as [e ->].
      eexists _, _. split; [reflexivity|]. split; [now split|now left]. }
  destruct (getProvider win) as [p|e].
  2:{ eexists _, _. split; [reflexivity|]. split; [now split|right; eauto]. }
  erewrite bind_ok by reflexivity.
  destruct (has_request p) eqn:Hreq.
  2:{ erewrite bind_throw by (apply request_without_function; exact Hreq).
      eexists _, _. split; [reflexivity|]. split; [now split|right; eauto]. }
  unfold bind at 1. rewrite request_run by assumption.
  destruct (respond p (trace s) eth_accounts) as [[[|account0 others]|]|e];
    cbn [granted_account];
    try (eexists _, _; split; [reflexivity|]; split; [now split|]; (now left) || (right; eauto)).
  unfold bind at 1. unfold set_connectedAccount.
  unfold bind at 1. unfold localStorage_setItem. cbn [trace localStorage log].
  destruct (setItem_raises win (trace s ++ [EvRequest eth_accounts])
              (localStorage s) STORAGE_KEY account0) as [refusal|].
  { eexists _, _. split; [reflexivity|]. repeat split. }
  unfold bind. rewrite request_run by assumption. cbn [trace].
  destruct (respond p (trace s ++ [EvRequest eth_accounts]) (eth_getBalance account0 "latest"));
    eexists _, _; (split; [reflexivity|]); split; try reflexivity; now split.
Qed.

(** C7, as the code has it.  [reconnectWallet] never raises.  When no
    provider resolves, the account query fails or returns no account,
    it returns [None] and the connection state is as before.  When the
    query returns at least one account, the in-memory address is set
    to the first one.  If the write to [localStorage] is refused, the
    call returns [None] with that address in memory and the persisted
    address as before; otherwise the address is persisted, and the call
    returns it with its balance when the balance query succeeds and
    [None] (with the state already set) when it fails. *)
Theorem reconnectWallet_outcome (win : Window) (s : State) :
  exists s' r,
    reconnectWallet win s = (s', Ok r) /\
    match silent_account win s with
    | Some account0 =>
        match silent_write win s account0 with
        | None =>
            session_set s s' account0 /\
            r = match silent_balance win s account0 with
                | Ok balanceHex =>
                    Some {| conn_address := account0;
                            conn_balance := balance_of_hex balanceHex |}
                | Throw _ => None
                end
        | Some _ => session_in_memory_only s s' account0 /\ r = None
        end
    | None => session_unchanged s s' /\ r = None
    end.
Proof.
  destruct (reconnect_body_run win s) as (s' & r & Hbody & Hspec).
  unfold reconnectWallet, try_catch. rewrite Hbody.
  destruct (silent_account win s) as [account0|].
  - destruct (silent_write win s account0) as [refusal|].
    + destruct Hspec as [Hmem ->]. eexists _, _. split; [reflexivity|]. now split.
    + destruct Hspec as [Hset ->].
      destruct (silent_balance win s account0); eexists _, _;
        (split; [reflexivity|]); now split.
  - destruct Hspec as [Hsame [->|[e ->]]]; eexists _, _;
      (split; [reflexivity|]); now split.
Qed.

(** C7 as stated fails when the balance query fails: the call
    returns [None], and the session is recorded all the same. *)
Lemma reconnectWallet_none_after_account :
  exists s',
    reconnectWallet (host metamask_no_balance) disconnected = (s', Ok None) /\
    connectedAccount disconnected = None /\
    localStorage disconnected !! STORAGE_KEY = None /\
    connectedAccount s' = Some alice /\
    localStorage s' !! STORAGE_KEY = Some alice.
Proof.
  eexists. split; [vm_compute; reflexivity|]. repeat split.
Qed.

(** The two cases of the specification's example, and a full store. *)
Example reconnectWallet_zero_accounts :
  reconnectWallet (host metamask_locked) disconnected
    = (extend disconnected [EvRequest eth_accounts], Ok None).
Proof. vm_compute. reflexivity. Qed.

Example reconnectWallet_one_account :
  exists s',
    reconnectWallet (host metamask) disconnected
      = (s', Ok (Some {| conn_address := alice;
                         conn_balance := balance_of_hex "0xde0b6b3a7640000" |})) /\
    connectedAccount s' = Some alice /\
    localStorage s' !! STORAGE_KEY = Some alice.
Proof. eexists. split; [vm_compute; reflexivity|]. split; reflexivity. Qed.

Example reconnectWallet_storage_full :
  exists s',
    reconnectWallet (host_storage_full metamask) disconnected = (s', Ok None) /\
    connectedAccount s' = Some alice /\
    localStorage s' !! STORAGE_KEY = None /\
    trace s' = [EvRequest eth_accounts].
Proof. eexists. split; [vm_compute; reflexivity|]. repeat split. Qed.

Example balance_of_one_MON : balance_of_hex "0xde0b6b3a7640000" = 1%float.
Proof. vm_compute. reflexivity. Qed.

(** ** Provider resolution *)

Lemma find_first {A} (f : A -> bool) (l : list A) (i : nat) (x : A) :
  l !! i = Some x ->
  f x = true ->
  (forall j y, (j < i)%nat -> l !! j = Some y -> f y = false) ->
  List.find f l = Some x.
Proof.
  revert i. induction l as [|a l IH]; intros i Hi Hx Hbefore; [discriminate|].
  destruct i as [|i]; simpl in *.
  - injection Hi as ->. now rewrite Hx.
  - rewrite (Hbefore 0%nat a) by (lia || reflexivity).
    apply (IH i); [assumption..|].
    intros j y Hj Hy. apply (Hbefore (S j) y); [lia|assumption].
Qed.

Lemma find_nowhere {A} (f : A -> bool) (l : list A) :
  Forall (fun y => f y = false) l -> List.find f l = None.
Proof.
  induction 1 as [|a l Ha _ IH]; [reflexivity|]. simpl. now rewrite Ha.
Qed.

(** C8, as the code has it.  On every host whose EVM object exposes a
    non-empty sequence of sub-providers: the first sub-provider
    flagged as MetaMask is returned when there is one; when none is
    flagged, the sub-provider at the head of the sequence is returned
    if it exposes [request], and otherwise resolution goes on with the
    EVM object itself; later sub-providers are not considered. *)
Theorem getProvider_sub_providers
    (win : Window) (eth : Ethereum) (first : option Provider)
    (others : list (option Provider)) :
  ethereum win = Some eth ->
  eth_providers eth = Some (first :: others) ->
  (forall i preferred,
      (first :: others) !! i = Some (Some preferred) ->
      isMetaMask preferred = true ->
      (forall j q, (j < i)%nat -> (first :: others) !! j = Some q ->
                   flagged_MetaMask q = false) ->
      getProvider win = Ok preferred) /\
  (Forall (fun q => flagged_MetaMask q = false) (first :: others) ->
   getProvider win =
     match first with
     | Some f => if has_request f then Ok f else resolve_self win eth
     | None => resolve_self win eth
     end).
Proof.
  intros Heth Hproviders. unfold getProvider. rewrite Heth, Hproviders.
  cbv beta iota zeta. split.
  - intros i preferred Hi Hflag Hbefore.
    now rewrite (find_first flagged_MetaMask _ i (Some preferred) Hi Hflag Hbefore).
  - intros Hnone. now rewrite (find_nowhere _ _ Hnone).
Qed.

Lemma getProvider_sub_providers_witness :
  getProvider (host_with_providers other_wallet [Some other_wallet; Some metamask])
    = Ok metamask.
Proof.
  destruct (getProvider_sub_providers
              (host_with_providers other_wallet [Some other_wallet; Some metamask])
              {| eth_self := other_wallet;
                 eth_providers := Some [Some other_wallet; Some metamask] |}
              (Some other_wallet) [Some metamask]) as [Hpreferred _].
  - reflexivity.
  - reflexivity.
  - apply (Hpreferred 1%nat metamask).
    + reflexivity.
    + reflexivity.
    + intros j q Hj Hq. destruct j as [|j]; [|lia].
      injection Hq as <-. reflexivity.
Defined.

(** C8 as stated fails when the head of the sequence has no
    [request] and a later sub-provider has one: the later one is the
    first sub-provider with a working request operation, and it is not
    returned. *)
Lemma getProvider_ignores_later_sub_providers :
  let providers := [Some stub_without_request; Some other_wallet] in
  let win := host_with_providers stub_without_request providers in
  Forall (fun q => flagged_MetaMask q = false) providers /\
  List.find (fun q => match q with Some q' => has_request q' | None => false end) providers
    = Some (Some other_wallet) /\
  getProvider win = Throw (new_Error NO_USABLE_MESSAGE) /\
  getProvider win <> Ok other_wallet.
Proof.
  cbv zeta. split; [repeat constructor|]. split; [reflexivity|].
  split; [reflexivity|discriminate].
Qed.

(** The hosts of the specification's examples. *)
Example getProvider_phantom_only :
  getProvider host_phantom_only = Throw (new_Error PHANTOM_ONLY_MESSAGE).
Proof. reflexivity. Qed.

Example getProvider_flagged_first :
  getProvider (host_with_providers other_wallet [Some metamask; Some other_wallet])
    = Ok metamask.
Proof. reflexivity. Qed.

Example getProvider_unflagged_head :
  getProvider (host_with_providers stub_without_request [Some other_wallet; None])
    = Ok other_wallet.
Proof. reflexivity. Qed.

(** ** Transaction details *)

Lemma getTransactionDetails_run (win : Window) (now : Z) (txHash : string) (s : State) :
  exists s',
    getTransactionDetails win now txHash s =
      (s', Ok match getProvider win with
              | Ok p =>
                  if has_request p then
                    match tx_answer p s txHash, receipt_answer p s txHash with
                    | Ok tx, Ok receipt =>
                        {| td_hash := txHash;
                           td_success :=
                             match receipt ≫= status with
                             | Some st => String.eqb st "0x1"
                             | None => false
                             end;
                           td_timestamp := now;
                           td_gasUsed := or_zero (receipt ≫= gasUsed);
                           td_gasPrice := or_zero (tx ≫= gasPrice) |}
                    | _, _ => optimistic_details now txHash
                    end
                  else optimistic_details now txHash
              | Throw _ => optimistic_details now txHash
              end).
Proof.
  unfold getTransactionDetails, try_catch, tx_answer, receipt_answer.
  destruct (getProvider win) as [p|e].
  2:{ eexists. reflexivity. }
  erewrite bind_ok by reflexivity.
  destruct (has_request p) eqn:Hreq.
  2:{ erewrite bind_throw by (apply request_without_function; exact Hreq).
      eexists. reflexivity. }
  unfold bind at 1. rewrite request_run by assumption.
  destruct (respond p (trace s) (eth_getTransactionByHash txHash)) as [tx|e].
  2:{ eexists. reflexivity. }
  unfold bind. rewrite request_run by assumption. rewrite log_trace.
  destruct (respond p (trace s ++ [EvRequest (eth_getTransactionByHash txHash)])
              (eth_getTransactionReceipt txHash)) as [receipt|e];
    eexists; reflexivity.
Qed.

(** C9.  For every transaction hash, on every host and in every
    state, [getTransactionDetails] returns a summary for that hash and
    never propagates an error.  When the transaction fetch or the
    receipt fetch fails, the summary asserts success with both gas
    figures zero.  When both succeed, its success field is true exactly
    when the receipt's status is the string 0x1. *)
Theorem getTransactionDetails_best_effort
    (win : Window) (now : Z) (txHash : string) (s : State) :
  exists s' details,
    getTransactionDetails win now txHash s = (s', Ok details) /\
    td_hash details = txHash /\
    forall p, getProvider win = Ok p -> has_request p = true ->
      (is_Throw (tx_answer p s txHash) || is_Throw (receipt_answer p s txHash) = true ->
       td_success details = true /\
       td_gasUsed details = "0x0" /\
       td_gasPrice details = "0x0") /\
      (forall tx receipt,
          tx_answer p s txHash = Ok tx ->
          receipt_answer p s txHash = Ok receipt ->
          (td_success details = true <-> receipt ≫= status = Some "0x1")).
Proof.
  destruct (getTransactionDetails_run win now txHash s) as [s' Hrun].
  eexists _, _. split; [exact Hrun|]. split.
  - destruct (getProvider win) as [p|e]; [|reflexivity].
    destruct (has_request p); [|reflexivity].
    now destruct (tx_answer p s txHash), (receipt_answer p s txHash).
  - intros p Hp Hreq. rewrite Hp, Hreq. split.
    + intros Hfail.
      destruct (tx_answer p s txHash), (receipt_answer p s txHash);
        try discriminate; repeat split.
    + intros tx receipt -> ->. cbn [td_success].
      destruct (receipt ≫= status) as [st|]; [|split; discriminate].
      rewrite String.eqb_eq. split; congruence.
Qed.

Lemma getTransactionDetails_best_effort_witness :
  exists s' details,
    getTransactionDetails (host metamask_no_receipt) 1700000000000 "0xaaa" disconnected
      = (s', Ok details) /\
    details = optimistic_details 1700000000000 "0xaaa".
Proof.
  destruct (getTransactionDetails_best_effort (host metamask_no_receipt)
              1700000000000 "0xaaa" disconnected)
    as (s' & details & Hrun & Hhash & Hcases).
  exists s', details. split; [exact Hrun|].
  destruct (Hcases metamask_no_receipt) as [Hfail _].
  - reflexivity.
  - reflexivity.
  - vm_compute in Hrun. injection Hrun as _ <-. reflexivity.
Defined.

Example getTransactionDetails_mined :
  snd (getTransactionDetails (host metamask) 7 "0xaaa" disconnected)
    = Ok {| td_hash := "0xaaa"; td_success := true; td_timestamp := 7;
            td_gasUsed := "0x5208"; td_gasPrice := "0x3b9aca00" |}.
Proof. reflexivity. Qed.

Example getTransactionDetails_reverted :
  snd (getTransactionDetails (host metamask_reverted) 7 "0xaaa" disconnected)
    = Ok {| td_hash := "0xaaa"; td_success := false; td_timestamp := 7;
            td_gasUsed := "0x5208"; td_gasPrice := "0x3b9aca00" |}.
Proof. reflexivity. Qed.

(** ** Address validation *)

Example isValidAddress_accepts : isValidAddress TEST_ADDRESS = true.
Proof. reflexivity. Qed.

Example isValidAddress_empty : isValidAddress "" = false.
Proof. reflexivity. Qed.

Example isValidAddress_missing_prefix :
  isValidAddress "70c573979F61710D3284120261B562e524ad3763" = false.
Proof. reflexivity. Qed.

Example isValidAddress_wrong_length :
  isValidAddress "0x70c573979F61710D3284120261B562e524ad37" = false.
Proof. reflexivity. Qed.

Example isValidAddress_not_hexadecimal :
  isValidAddress "0x70c573979F61710D3284120261B562e524ad376g" = false.
Proof. reflexivity. Qed.

Example isPlaceholder_upper_case : isPlaceholder "0X000A" = true.
Proof. reflexivity. Qed.

Example isPlaceholder_needs_a_zero : isPlaceholder "0x1" = false.
Proof. reflexivity. Qed.

(** ** Fee arithmetic *)

Lemma holds_on_spec (P : N -> bool) (d : nat) (start : N) :
  holds_on P d start = true ->
  forall n, (start <= n < start + 2 ^ N.of_nat d)%N -> P n = true.
Proof.
  revert start. induction d as [|d IH]; intros start H n Hn.
  - simpl in *. assert (n = start) by lia. now subst.
  - cbn [holds_on] in H. apply andb_true_iff in H as [H1 H2].
    rewrite Nat2N.inj_succ, N.pow_succ_r' in Hn.
    destruct (N.lt_ge_cases n (start + 2 ^ N.of_nat d)).
    + apply (IH start H1). lia.
    + apply (IH _ H2). lia.
Qed.





(** Nor does it hold at [Infinity]: the fee is [Infinity] and the net
    amount is [NaN]. *)
Example fee_and_net_at_infinity :
  Binary64.calculatePlatformFee infinity = infinity /\
  Binary64.calculateNetAmount infinity = nan /\
  Binary64.partitions infinity = false.
Proof. vm_compute. repeat split. Qed.

(** The formulas themselves partition every amount: over the
    rationals, where nothing is rounded, the identity is exact. *)
Lemma fee_and_net_partition_unrounded (a : Q) :
  (calculatePlatformFee a + calculateNetAmount a == a)%Q.
Proof. unfold calculateNetAmount, calculatePlatformFee. cbv zeta. ring. Qed.

Example whole_1000 : Binary64.whole 1000 = 1000%float.
Proof. vm_compute. reflexivity. Qed.

Example cents_1999 : Binary64.cents 1999 = 19.99%float.
Proof. vm_compute. reflexivity. Qed.

Example platformFee_1000 : (calculatePlatformFee 1000 == 5)%Q.
Proof. reflexivity. Qed.

Example netAmount_1000 : (calculateNetAmount 1000 == 995)%Q.
Proof. reflexivity. Qed.

Example platformFee_1000_double : Binary64.calculatePlatformFee 1000 = 5%float.
Proof. vm_compute. reflexivity. Qed.

Example netAmount_1000_double : Binary64.calculateNetAmount 1000 = 995%float.
Proof. vm_compute. reflexivity. Qed.

Example calculateVATAmount_120 : Binary64.calculateVATAmount 120 20 = 20%float.
Proof. vm_compute. reflexivity. Qed.

(** * Further properties *)

(** ** The matcher decides the language *)

Lemma append_empty_inv (s1 s2 : string) :
  (s1 ++ s2)%string = "" -> s1 = "" /\ s2 = "".
Proof. destruct s1; [now split|discriminate]. Qed.

Lemma nullable_lang (r : regex) : nullable r = true <-> lang r "".
Proof.
  split.
  - induction r; simpl; intros H; try discriminate.
    + constructor.
    + apply andb_true_iff in H as [H1 H2].
      change "" with ("" ++ "")%string. constructor; auto.
    + apply orb_true_iff in H as [H|H]; [apply lang_Alt_l|apply lang_Alt_r]; auto.
    + constructor.
  - intros H. remember "" as s eqn:Hs.
    induction H; simpl; try discriminate; try reflexivity.
    + apply append_empty_inv in Hs as [-> ->]. rewrite IHlang1, IHlang2; auto.
    + rewrite IHlang; auto.
    + rewrite IHlang, orb_true_r; auto.
Qed.

Lemma lang_deriv_intro (r : regex) (s0 : string) :
  lang r s0 -> forall c s, s0 = String c s -> lang (deriv c r) s.
Proof.
  induction 1 as [|p c0 Hp|r1 r2 s1 s2 H1 IH1 H2 IH2|r1 r2 s0 H IH|r1 r2 s0 H IH
                 |r|r s1 s2 H1 IH1 H2 IH2]; intros c s Hs; simpl.
  - discriminate.
  - injection Hs as -> <-. rewrite Hp. constructor.
  - destruct s1 as [|c1 s1'].
    + simpl in Hs. apply nullable_lang in H1. rewrite H1.
      apply lang_Alt_r. now apply IH2.
    + simpl in Hs. injection Hs as -> <-.
      destruct (nullable r1); [apply lang_Alt_l|]; constructor; auto.
  - apply lang_Alt_l. now apply IH.
  - apply lang_Alt_r. now apply IH.
  - discriminate.
  - destruct s1 as [|c1 s1'].
    + simpl in Hs. now apply IH2.
    + simpl in Hs. injection Hs as -> <-. constructor; auto.
Qed.

Lemma lang_deriv_elim (r : regex) :
  forall c s, lang (deriv c r) s -> lang r (String c s).
Proof.
  induction r as [| |p|r1 IH1 r2 IH2|r1 IH1 r2 IH2|r IH]; intros c s H; simpl in H.
  - inversion H.
  - inversion H.
  - destruct (p c) eqn:Hp; inversion H; subst. now constructor.
  - destruct (nullable r1) eqn:Hn.
    + inversion H as [| |? ? s1 s2 Ha Hb| ? ? ? Ha | ? ? ? Ha | |]; subst.
      * inversion Ha as [| |? ? s1 s2 Hc Hd| | | |]; subst.
        change (String c (s1 ++ s2)) with (String c s1 ++ s2)%string.
        constructor; auto.
      * change (String c s) with ("" ++ String c s)%string.
        constructor; [now apply nullable_lang|auto].
    + inversion H as [| |? ? s1 s2 Ha Hb| | | |]; subst.
      change (String c (s1 ++ s2)) with (String c s1 ++ s2)%string.
      constructor; auto.
  - inversion H; subst; [apply lang_Alt_l|apply lang_Alt_r]; auto.
  - inversion H as [| |? ? s1 s2 Ha Hb| | | |]; subst.
    change (String c (s1 ++ s2)) with (String c s1 ++ s2)%string.
    constructor; auto.
Qed.

Lemma lang_Seq_Void_l (r : regex) (s : string) : ~ lang (Seq Void r) s.
Proof. intros H. inversion H as [| |? ? ? ? Ha| | | |]; subst. inversion Ha. Qed.

Lemma lang_Seq_Void_r (r : regex) (s : string) : ~ lang (Seq r Void) s.
Proof. intros H. inversion H as [| |? ? ? ? Ha Hb| | | |]; subst. inversion Hb. Qed.

Lemma lang_Seq_Eps_l (r : regex) (s : string) : lang (Seq Eps r) s <-> lang r s.
Proof.
  split; intros H.
  - inversion H as [| |? ? ? ? Ha Hb| | | |]; subst. inversion Ha; subst. exact Hb.
  - change s with ("" ++ s)%string. constructor; [constructor|exact H].
Qed.

Lemma lang_Alt_iff (r1 r2 : regex) (s : string) :
  lang (Alt r1 r2) s <-> lang r1 s \/ lang r2 s.
Proof.
  split; intros H.
  - inversion H; subst; auto.
  - destruct H; [apply lang_Alt_l|apply lang_Alt_r]; auto.
Qed.

Lemma lang_Seq_iff (r1 r2 : regex) (s : string) :
  lang (Seq r1 r2) s <-> exists s1 s2, s = (s1 ++ s2)%string /\ lang r1 s1 /\ lang r2 s2.
Proof.
  split; intros H.
  - inversion H; subst; eauto.
  - destruct H as (s1 & s2 & -> & H1 & H2). now constructor.
Qed.

Lemma lang_Void (s : string) : ~ lang Void s.
Proof. intros H. inversion H. Qed.

Lemma lang_Seq_Void_l_iff (r : regex) (s : string) : lang Void s <-> lang (Seq Void r) s.
Proof.
  split; intros H; exfalso; [eapply lang_Void|eapply lang_Seq_Void_l]; eassumption.
Qed.

Lemma lang_Seq_Void_r_iff (r : regex) (s : string) : lang Void s <-> lang (Seq r Void) s.
Proof.
  split; intros H; exfalso; [eapply lang_Void|eapply lang_Seq_Void_r]; eassumption.
Qed.

Lemma lang_Alt_Void_l (r : regex) (s : string) : lang r s <-> lang (Alt Void r) s.
Proof.
  rewrite lang_Alt_iff. split; [auto|]. intros [H|H]; [|exact H].
  exfalso. eapply lang_Void; eassumption.
Qed.

Lemma lang_Alt_Void_r (r : regex) (s : string) : lang r s <-> lang (Alt r Void) s.
Proof.
  rewrite lang_Alt_iff. split; [auto|]. intros [H|H]; [exact H|].
  exfalso. eapply lang_Void; eassumption.
Qed.

Lemma simp_lang (r : regex) : forall s, lang (simp r) s <-> lang r s.
Proof.
  induction r as [| |p|r1 IH1 r2 IH2|r1 IH1 r2 IH2|r IH]; intros s;
    try reflexivity.
  - transitivity (lang (Seq (simp r1) (simp r2)) s).
    + simpl. destruct (simp r1) eqn:E1; destruct (simp r2) eqn:E2;
        first [ reflexivity
              | apply lang_Seq_Void_l_iff
              | apply lang_Seq_Void_r_iff
              | symmetry; apply lang_Seq_Eps_l ].
    + rewrite !lang_Seq_iff. now setoid_rewrite IH1; setoid_rewrite IH2.
  - transitivity (lang (Alt (simp r1) (simp r2)) s).
    + simpl. destruct (simp r1) eqn:E1; destruct (simp r2) eqn:E2;
        first [ reflexivity
              | apply lang_Alt_Void_l
              | apply lang_Alt_Void_r ].
    + rewrite !lang_Alt_iff. now rewrite IH1, IH2.
Qed.

Lemma matches_lang (s : string) : forall r, matches r s = true <-> lang r s.
Proof.
  induction s as [|c s IH]; intros r; simpl.
  - apply nullable_lang.
  - rewrite IH, simp_lang. split.
    + apply lang_deriv_elim.
    + intros H. now apply (lang_deriv_intro _ _ H).
Qed.

Lemma lang_Class_iff (p : ascii -> bool) (s : string) :
  lang (Class p) s <-> exists c, s = String c "" /\ p c = true.
Proof.
  split; intros H.
  - inversion H; subst; eauto.
  - destruct H as (c & -> & Hp). now constructor.
Qed.

Lemma lang_Eps_iff (s : string) : lang Eps s <-> s = "".
Proof.
  split; intros H; [now inversion H|subst; constructor].
Qed.

Lemma lang_Class_Seq (p : ascii -> bool) (r : regex) (s : string) :
  lang (Seq (Class p) r) s <-> exists c s', s = String c s' /\ p c = true /\ lang r s'.
Proof.
  rewrite lang_Seq_iff. split.
  - intros (s1 & s2 & -> & H1 & H2). apply lang_Class_iff in H1 as (c & -> & Hp).
    exists c, s2. now repeat split.
  - intros (c & s' & -> & Hp & Hr). exists (String c ""), s'.
    repeat split; [now apply lang_Class_iff; eauto|assumption].
Qed.

Lemma lang_Repeat_Class (p : ascii -> bool) (n : nat) :
  forall s, lang (Repeat n (Class p)) s <-> String.length s = n /\ all_chars p s = true.
Proof.
  induction n as [|n IH]; intros s; simpl.
  - rewrite lang_Eps_iff. destruct s; simpl; split; easy.
  - rewrite lang_Class_Seq. split.
    + intros (c & s' & -> & Hp & Hr). apply IH in Hr as [<- Hall].
      simpl. now rewrite Hp, Hall.
    + intros [Hlen Hall]. destruct s as [|c s']; [discriminate|].
      simpl in Hlen, Hall. apply andb_true_iff in Hall as [Hp Hall].
      exists c, s'. repeat split; [assumption|]. apply IH. split; [lia|assumption].
Qed.

Lemma Ascii_eqb_true (a c : ascii) : Ascii.eqb a c = true <-> c = a.
Proof. rewrite Ascii.eqb_eq. split; congruence. Qed.

(** ** Address validation *)

Lemma isValidAddress_iff (s : string) :
  isValidAddress s = true <->
  exists h, s = String "0" (String "x" h) /\
            String.length h = 40%nat /\
            all_chars hex_class h = true.
Proof.
  unfold isValidAddress. destruct (String.eqb s "") eqn:Hempty.
  - apply String.eqb_eq in Hempty. subst. split; [discriminate|].
    intros (h & H & _). discriminate.
  - rewrite matches_lang. unfold address_regex, Lit.
    rewrite lang_Class_Seq. split.
    + intros (c & s' & -> & Hc & Hrest).
      apply lang_Class_Seq in Hrest as (c' & h & -> & Hc' & Hh).
      apply Ascii_eqb_true in Hc, Hc'. subst.
      exists h. split; [reflexivity|]. now apply lang_Repeat_Class.
    + intros (h & -> & Hlen & Hall).
      exists "0"%char, (String "x" h). repeat split.
      apply lang_Class_Seq. exists "x"%char, h. repeat split.
      now apply lang_Repeat_Class.
Qed.

(** X1.  [isValidAddress] accepts exactly the strings made of ["0x"]
    and forty characters among [0-9], [a-f] and [A-F]; so every
    accepted string has forty-two characters, and the empty string is
    rejected. *)
Theorem isValidAddress_spec (s : string) :
  (isValidAddress s = true <->
   exists h, s = String "0" (String "x" h) /\
             String.length h = 40%nat /\
             all_chars hex_class h = true) /\
  (isValidAddress s = true -> String.length s = 42%nat) /\
  isValidAddress "" = false.
Proof.
  split; [apply isValidAddress_iff|]. split; [|reflexivity].
  intros H. apply isValidAddress_iff in H as (h & -> & Hlen & _).
  simpl. now rewrite Hlen.
Qed.

Lemma case_fold_zero (c : ascii) :
  Ascii.eqb "0" (to_lower c) || Ascii.eqb "0" (to_upper c) = Ascii.eqb "0" c.
Proof. destruct c as [[] [] [] [] [] [] [] []]; reflexivity. Qed.

Lemma case_fold_x (c : ascii) :
  Ascii.eqb "x" (to_lower c) || Ascii.eqb "x" (to_upper c)
  = Ascii.eqb "x" c || Ascii.eqb "X" c.
Proof. destruct c as [[] [] [] [] [] [] [] []]; reflexivity. Qed.

Lemma case_fold_hex (c : ascii) :
  lower_hex_class (to_lower c) || lower_hex_class (to_upper c) = any_hex_digit c.
Proof. destruct c as [[] [] [] [] [] [] [] []]; reflexivity. Qed.

Lemma all_chars_fold_zero (z : string) :
  all_chars (fun c => Ascii.eqb "0" (to_lower c) || Ascii.eqb "0" (to_upper c)) z
  = all_chars (Ascii.eqb "0") z.
Proof.
  induction z as [|c z IH]; [reflexivity|].
  cbn [all_chars]. now rewrite case_fold_zero, IH.
Qed.

Lemma lang_Star_Class (p : ascii -> bool) (s : string) :
  lang (Star (Class p)) s <-> all_chars p s = true.
Proof.
  split.
  - intros H. remember (Star (Class p)) as r eqn:Hr.
    induction H as [| | | | | |r0 s1 s2 H1 _ H2 IH2]; try discriminate; [reflexivity|].
    injection Hr as ->. apply lang_Class_iff in H1 as (c & -> & Hp).
    simpl. rewrite Hp. now apply IH2.
  - induction s as [|c s IH]; simpl; intros H; [constructor|].
    apply andb_true_iff in H as [Hp Hall].
    change (String c s) with (String c "" ++ s)%string.
    constructor; [now constructor|auto].
Qed.

Lemma length_append (s1 s2 : string) :
  String.length (s1 ++ s2) = (String.length s1 + String.length s2)%nat.
Proof. induction s1 as [|c s1 IH]; simpl; [reflexivity|now rewrite IH]. Qed.

Lemma all_chars_zero_string (n : nat) : all_chars (Ascii.eqb "0") (zero_string n) = true.
Proof. induction n as [|n IH]; [reflexivity|]. cbn [zero_string all_chars]. now rewrite IH. Qed.

Lemma isPlaceholder_iff (s : string) :
  isPlaceholder s = true <->
  exists x zeros d,
    s = String "0" (String x (zeros ++ String d "")) /\
    (x = "x"%char \/ x = "X"%char) /\
    zeros <> "" /\
    all_chars (Ascii.eqb "0") zeros = true /\
    any_hex_digit d = true.
Proof.
  unfold isPlaceholder. rewrite matches_lang.
  unfold placeholder_regex, LitI, ClassI, Plus.
  rewrite lang_Class_Seq. split.
  - intros (c0 & s0 & -> & Hc0 & H).
    apply lang_Class_Seq in H as (x & s1 & -> & Hx & H).
    apply lang_Seq_iff in H as (z & t & -> & Hz & Ht).
    apply lang_Class_Seq in Hz as (z0 & z' & -> & Hz0 & Hz').
    apply lang_Class_iff in Ht as (d & -> & Hd).
    rewrite case_fold_zero in Hc0, Hz0. apply Ascii_eqb_true in Hc0. subst c0.
    rewrite case_fold_x in Hx. rewrite case_fold_hex in Hd.
    exists x, (String z0 z'), d. repeat split.
    + apply orb_true_iff in Hx as [Hx|Hx]; apply Ascii_eqb_true in Hx; auto.
    + discriminate.
    + cbn [all_chars]. rewrite Hz0.
      apply lang_Star_Class in Hz'. now rewrite all_chars_fold_zero in Hz'.
    + assumption.
  - intros (x & zeros & d & -> & Hx & Hne & Hzeros & Hd).
    exists "0"%char, (String x (zeros ++ String d "")). repeat split.
    apply lang_Class_Seq. exists x, (zeros ++ String d "")%string. repeat split.
    { rewrite case_fold_x. destruct Hx as [->| ->]; reflexivity. }
    constructor.
    + destruct zeros as [|z0 z']; [contradiction|].
      cbn [all_chars] in Hzeros. apply andb_true_iff in Hzeros as [Hz0 Hz'].
      apply lang_Class_Seq. exists z0, z'. repeat split.
      * now rewrite case_fold_zero.
      * apply lang_Star_Class. now rewrite all_chars_fold_zero.
    + apply lang_Class_iff. exists d. split; [reflexivity|].
      now rewrite case_fold_hex.
Qed.

(** X2.  [isPlaceholder] accepts exactly the strings made of a zero,
    an [x] in either case, one or more zeros, and one hexadecimal digit
    in either case; so it accepts strings of any length from four on,
    and not only strings of the length of an address. *)
Theorem isPlaceholder_spec (s : string) :
  (isPlaceholder s = true <->
   exists x zeros d,
     s = String "0" (String x (zeros ++ String d "")) /\
     (x = "x"%char \/ x = "X"%char) /\
     zeros <> "" /\
     all_chars (Ascii.eqb "0") zeros = true /\
     any_hex_digit d = true) /\
  (isPlaceholder s = true -> (4 <= String.length s)%nat) /\
  (forall n, isPlaceholder (String "0" (String "x" (zero_string (S n) ++ "1"))) = true).
Proof.
  split; [apply isPlaceholder_iff|]. split.
  - intros H. apply isPlaceholder_iff in H as (x & zeros & d & -> & _ & Hne & _).
    destruct zeros as [|z zeros]; [contradiction|].
    cbn [String.length String.append]. rewrite length_append. simpl. lia.
  - intros n. apply isPlaceholder_iff.
    exists "x"%char, (zero_string (S n)), "1"%char.
    split; [reflexivity|]. split; [now left|]. split; [discriminate|].
    split; [apply all_chars_zero_string|reflexivity].
Qed.

Lemma TEST_ADDRESS_not_placeholder : isPlaceholder TEST_ADDRESS = false.
Proof. vm_compute. reflexivity. Qed.

(** X3.  The testing-mode substitution of a recipient entry always
    yields a valid address that is not a placeholder, keeps the
    displayed amount, and substituting twice is substituting once; the
    single send substitutes in the same way. *)
Theorem validate_entry_idempotent (entry : Recipient) :
  let validated := validate_entry entry in
  isValidAddress (address validated) = true /\
  isPlaceholder (address validated) = false /\
  amount validated = amount entry /\
  validate_entry validated = validated /\
  address validated = validate_recipient (address entry).
Proof.
  cbv zeta.
  assert (Ha : address (validate_entry entry) = validate_recipient (address entry)).
  { unfold validate_entry, validate_recipient.
    now destruct (isPlaceholder (address entry) || negb (isValidAddress (address entry))). }
  assert (Hv : isValidAddress (validate_recipient (address entry)) = true).
  { unfold validate_recipient.
    destruct (isPlaceholder (address entry)); simpl; [apply TEST_ADDRESS_valid|].
    destruct (isValidAddress (address entry)) eqn:E; simpl;
      [assumption|apply TEST_ADDRESS_valid]. }
  assert (Hp : isPlaceholder (validate_recipient (address entry)) = false).
  { unfold validate_recipient.
    destruct (isPlaceholder (address entry)) eqn:E; simpl;
      [apply TEST_ADDRESS_not_placeholder|].
    destruct (isValidAddress (address entry)); simpl;
      [assumption|apply TEST_ADDRESS_not_placeholder]. }
  rewrite Ha. repeat split; try assumption.
  - unfold validate_entry.
    now destruct (isPlaceholder (address entry) || negb (isValidAddress (address entry))).
  - unfold validate_entry at 1. now rewrite Ha, Hp, Hv.
Qed.

Lemma all_zeros_string (z : string) :
  all_chars (Ascii.eqb "0") z = true -> z = zero_string (String.length z).
Proof.
  induction z as [|c z IH]; [reflexivity|].
  cbn [all_chars String.length zero_string]. intros H.
  apply andb_true_iff in H as [Hc Hz]. apply Ascii_eqb_true in Hc.
  subst c. now rewrite <- IH.
Qed.

Lemma length_zero_string (n : nat) : String.length (zero_string n) = n.
Proof. induction n as [|n IH]; simpl; [reflexivity|now rewrite IH]. Qed.

(** X4.  A valid address is replaced by the test address exactly when
    it is ["0x"], thirty-nine zeros and one hexadecimal digit: the
    sixteen lowest addresses, in either spelling of their last
    digit. *)
Theorem replaced_valid_addresses (recipient : string) :
  isValidAddress recipient = true ->
  (validate_recipient recipient <> recipient <->
   exists d, any_hex_digit d = true /\
             recipient = String "0" (String "x" (zero_string 39 ++ String d ""))).
Proof.
  intros Hvalid.
  assert (Hcases : validate_recipient recipient <> recipient
                   <-> isPlaceholder recipient = true).
  { unfold validate_recipient. rewrite Hvalid. simpl. rewrite orb_false_r.
    destruct (isPlaceholder recipient) eqn:Hp; split; try easy.
    intros _ H. rewrite <- H, TEST_ADDRESS_not_placeholder in Hp. discriminate. }
  rewrite Hcases, isPlaceholder_iff. split.
  - intros (x & zeros & d & -> & Hx & Hne & Hzeros & Hd).
    apply isValidAddress_iff in Hvalid as (h & Hh & Hlen & _).
    injection Hh as -> <-. rewrite length_append in Hlen. simpl in Hlen.
    exists d. split; [assumption|].
    rewrite (all_zeros_string _ Hzeros).
    replace (String.length zeros) with 39%nat by lia. reflexivity.
  - intros (d & Hd & ->).
    exists "x"%char, (zero_string 39), d.
    split; [reflexivity|]. split; [now left|]. split; [discriminate|].
    split; [reflexivity|assumption].
Qed.

Lemma replaced_valid_addresses_witness :
  validate_recipient placeholder1 <> placeholder1 <->
  exists d, any_hex_digit d = true /\
            placeholder1 = String "0" (String "x" (zero_string 39 ++ String d "")).
Proof.
  apply (replaced_valid_addresses placeholder1). vm_compute. reflexivity.
Defined.

(** ** Display helpers *)

Lemma substring_all (s : string) : String.substring 0 (String.length s) s = s.
Proof. induction s as [|c s IH]; simpl; [reflexivity|now rewrite IH]. Qed.

Lemma substring_append (s : string) :
  forall n m1 m2, (n + m1 + m2 <= String.length s)%nat ->
    String.substring n (m1 + m2) s
    = (String.substring n m1 s ++ String.substring (n + m1) m2 s)%string.
Proof.
  induction s as [|c s IH]; intros n m1 m2 Hlen; simpl in Hlen.
  - assert (n = 0 /\ m1 = 0 /\ m2 = 0)%nat as (-> & -> & ->) by lia. reflexivity.
  - destruct n as [|n].
    + destruct m1 as [|m1].
      * reflexivity.
      * change (String.substring 0 (S m1 + m2) (String c s))
          with (String c (String.substring 0 (m1 + m2) s)).
        change (String.substring 0 (S m1) (String c s))
          with (String c (String.substring 0 m1 s)).
        change (String.substring (0 + S m1) m2 (String c s))
          with (String.substring (0 + m1) m2 s).
        rewrite (IH 0%nat m1 m2) by (simpl; lia). reflexivity.
    + cbn [Nat.add String.substring]. apply IH. lia.
Qed.

Lemma substring_length (s : string) :
  forall n m, (n + m <= String.length s)%nat ->
    String.length (String.substring n m s) = m.
Proof.
  induction s as [|c s IH]; intros n m Hlen; simpl in Hlen.
  - assert (n = 0 /\ m = 0)%nat as (-> & ->) by lia. reflexivity.
  - destruct n as [|n]; [destruct m as [|m]|]; cbn [String.substring String.length].
    + reflexivity.
    + f_equal. apply IH. simpl. lia.
    + apply IH. lia.
Qed.

(** X5.  For an address of ten characters or more (every valid
    address has forty-two), [formatAddress] keeps the first six and the
    last four characters and replaces what lies between by three dots;
    the result has thirteen characters.  The empty string stays
    empty. *)
Theorem formatAddress_shape (address : string) :
  (10 <= String.length address)%nat ->
  exists first middle last : string,
    address = (first ++ middle ++ last)%string /\
    String.length first = 6%nat /\
    String.length last = 4%nat /\
    formatAddress address = (first ++ "..." ++ last)%string /\
    String.length (formatAddress address) = 13%nat /\
    formatAddress "" = "".
Proof.
  intros Hlen.
  set (n := String.length address) in *.
  exists (String.substring 0 6 address),
         (String.substring 6 (n - 10) address),
         (String.substring (n - 4) 4 address).
  assert (H6 : String.length (String.substring 0 6 address) = 6%nat)
    by (apply substring_length; fold n; lia).
  assert (H4 : String.length (String.substring (n - 4) 4 address) = 4%nat)
    by (apply substring_length; fold n; lia).
  assert (Hfmt : formatAddress address
                 = (String.substring 0 6 address ++ "..."
                    ++ String.substring (n - 4) 4 address)%string).
  { unfold formatAddress, substring_from. fold n.
    destruct (String.eqb address "") eqn:E.
    - apply String.eqb_eq in E. unfold n in Hlen. rewrite E in Hlen.
      simpl in Hlen. lia.
    - replace (n - (n - 4))%nat with 4%nat by lia. reflexivity. }
  split; [|split; [exact H6|split; [exact H4|split; [exact Hfmt|split; [|reflexivity]]]]].
  - rewrite <- (substring_all address) at 1. fold n.
    replace n with (6 + ((n - 10) + 4))%nat at 1 by lia.
    rewrite (substring_append address 0 6 ((n - 10) + 4)) by (fold n; lia).
    f_equal. cbn [Nat.add].
    rewrite (substring_append address 6 (n - 10) 4) by (fold n; lia).
    f_equal. f_equal. lia.
  - rewrite Hfmt, !length_append, H6, H4. reflexivity.
Qed.

Lemma formatAddress_shape_witness :
  exists first middle last : string,
    TEST_ADDRESS = (first ++ middle ++ last)%string /\
    String.length first = 6%nat /\
    String.length last = 4%nat /\
    formatAddress TEST_ADDRESS = (first ++ "..." ++ last)%string /\
    String.length (formatAddress TEST_ADDRESS) = 13%nat /\
    formatAddress "" = "".
Proof.
  apply (formatAddress_shape TEST_ADDRESS). vm_compute. repeat constructor.
Defined.

Example formatAddress_test_address : formatAddress TEST_ADDRESS = "0x70c5...3763".
Proof. reflexivity. Qed.

Example formatAddress_short : formatAddress "abc" = "abc...abc".
Proof. reflexivity. Qed.

(** ** Fees and VAT *)

Lemma calculatePlatformFee_value (a : Q) : (calculatePlatformFee a == a * (1 # 200))%Q.
Proof. unfold calculatePlatformFee. simpl. field. Qed.

(** X6.  For every amount that is not negative, the platform fee and
    the net amount are both between zero and the amount: the fee never
    exceeds what is paid and the net is never negative. *)
Theorem fee_within_amount (a : Q) :
  (0 <= a)%Q ->
  (0 <= calculatePlatformFee a)%Q /\ (calculatePlatformFee a <= a)%Q /\
  (0 <= calculateNetAmount a)%Q /\ (calculateNetAmount a <= a)%Q.
Proof.
  intros Ha. unfold calculateNetAmount. cbv zeta.
  pose proof (calculatePlatformFee_value a) as Hfee.
  repeat split; lra.
Qed.

Lemma fee_within_amount_witness :
  (0 <= calculatePlatformFee 1000)%Q /\ (calculatePlatformFee 1000 <= 1000)%Q /\
  (0 <= calculateNetAmount 1000)%Q /\ (calculateNetAmount 1000 <= 1000)%Q.
Proof. apply (fee_within_amount 1000). discriminate. Defined.

Lemma refund_checked :
  holds_on (fun n => Binary64.refund_within (Binary64.cents n)) 20 0 = true.
Proof. vm_compute. reflexivity. Qed.

(** X7.  In the arithmetic of the source, for every VAT amount in
    cents up to a million ([0.00, 0.01, ..., 10000.00]) the VAT refund
    at the default percentage is between zero and the VAT amount. *)
Theorem vat_refund_within_vat (n : N) :
  (n <= 1000000)%N ->
  let vatAmount := Binary64.cents n in
  let refund := Binary64.calculateVATRefund vatAmount Binary64.vatRefundPercentage in
  PrimFloat.leb 0 refund = true /\ PrimFloat.leb refund vatAmount = true.
Proof.
  intros Hn. cbv zeta. apply andb_true_iff.
  apply (holds_on_spec (fun n => Binary64.refund_within (Binary64.cents n))
           20 0 refund_checked n).
  change (2 ^ N.of_nat 20)%N with 1048576%N. lia.
Qed.

Lemma vat_refund_within_vat_witness :
  let vatAmount := Binary64.cents 2000 in
  let refund := Binary64.calculateVATRefund vatAmount Binary64.vatRefundPercentage in
  PrimFloat.leb 0 refund = true /\ PrimFloat.leb refund vatAmount = true.
Proof. apply (vat_refund_within_vat 2000). lia. Defined.

(** The bound is not one of every amount: a VAT amount whose gross
    refund overflows has no refund at all. *)
Example calculateVATRefund_overflow :
  Binary64.calculateVATRefund 1e308 100 = nan.
Proof. vm_compute. reflexivity. Qed.

Example calculateVATRefund_20 :
  Binary64.calculateVATRefund 20 Binary64.vatRefundPercentage = 16.915%float.
Proof. vm_compute. reflexivity. Qed.

(** ** Operations that leave the session alone *)

Lemma session_unchanged_refl (s : State) : session_unchanged s s.
Proof. now split. Qed.

Lemma session_unchanged_trans (s1 s2 s3 : State) :
  session_unchanged s1 s2 -> session_unchanged s2 s3 -> session_unchanged s1 s3.
Proof. intros [H1 H2] [H3 H4]. split; congruence. Qed.

Lemma read_only_ret {A} (a : A) : read_only (ret a).
Proof. intros s s' r [= <- _]. apply session_unchanged_refl. Qed.

Lemma read_only_throw {A} (e : Thrown) : read_only (@throw A e).
Proof. intros s s' r [= <- _]. apply session_unchanged_refl. Qed.

Lemma read_only_lift {A} (x : Result A) : read_only (lift x).
Proof. intros s s' r [= <- _]. apply session_unchanged_refl. Qed.

Lemma read_only_get : read_only get_connectedAccount.
Proof. intros s s' r [= <- _]. apply session_unchanged_refl. Qed.

Lemma read_only_request (p : Provider) (req : Request) : read_only (request p req).
Proof. intros s s' r H. exact (request_session _ _ _ _ _ H). Qed.

Lemma read_only_delay (ms : Z) : read_only (delay ms).
Proof. intros s s' r [= <- _]. now split. Qed.

Lemma read_only_bind {A B} (m : M A) (k : A -> M B) :
  read_only m -> (forall a, read_only (k a)) -> read_only (bind m k).
Proof.
  intros Hm Hk s s' r. unfold bind.
  destruct (m s) as [s1 [a|e]] eqn:E.
  - intros H. eapply session_unchanged_trans; [exact (Hm _ _ _ E)|exact (Hk _ _ _ _ H)].
  - intros [= <- _]. exact (Hm _ _ _ E).
Qed.

Lemma read_only_try_catch {A} (m : M A) (h : Thrown -> M A) :
  read_only m -> (forall e, read_only (h e)) -> read_only (try_catch m h).
Proof.
  intros Hm Hh s s' r. unfold try_catch.
  destruct (m s) as [s1 [a|e]] eqn:E.
  - intros [= <- _]. exact (Hm _ _ _ E).
  - intros H. eapply session_unchanged_trans; [exact (Hm _ _ _ E)|exact (Hh _ _ _ _ H)].
Qed.

Lemma read_only_ensureMonadNetwork (win : Window) : read_only (ensureMonadNetwork win).
Proof.
  intros s s' r H. destruct (ensureMonadNetwork_quiet win _ _ _ H) as (Ha & Hl & _).
  now split.
Qed.

Lemma read_only_prevalidate (rs : list Recipient) : read_only (prevalidate rs).
Proof.
  induction rs as [|r rest IH]; simpl.
  - apply read_only_ret.
  - destruct (negb (isValidAddress (address r))); [apply read_only_throw|].
    destruct (Qle_bool (amount r) 0); [apply read_only_throw|exact IH].
Qed.

Lemma read_only_send_loop (p : Provider) (rs : list Recipient) :
  forall t, read_only (send_loop p rs t).
Proof.
  induction rs as [|r rest IH]; intros t; simpl.
  - apply read_only_ret.
  - apply read_only_bind; [|intros t'; apply IH].
    unfold send_one. apply read_only_bind.
    + apply read_only_try_catch.
      * apply read_only_bind; [apply read_only_get|]. intros account.
        apply read_only_bind; [apply read_only_request|]. intros h. apply read_only_ret.
      * intros e. apply read_only_ret.
    + intros t2. apply read_only_bind; [apply read_only_delay|].
      intros _. apply read_only_ret.
Qed.

Lemma read_only_sendPayment (win : Window) (recipient : string) (displayed : Q)
    (includePlatformFee : bool) :
  read_only (sendPayment win recipient displayed includePlatformFee).
Proof.
  unfold sendPayment, sendPayment_body.
  apply read_only_try_catch; [|intros e; apply read_only_ret].
  apply read_only_bind; [apply read_only_ensureMonadNetwork|]. intros _. cbv zeta.
  destruct (negb (isValidAddress (validate_recipient recipient))); [apply read_only_throw|].
  destruct (Qle_bool displayed 0); [apply read_only_throw|].
  apply read_only_bind; [apply read_only_get|]. intros account.
  destruct (negb (truthy account)); [apply read_only_throw|].
  apply read_only_bind; [apply read_only_lift|]. intros p.
  apply read_only_bind; [apply read_only_get|]. intros account'.
  apply read_only_bind; [apply read_only_request|]. intros h. apply read_only_ret.
Qed.

Lemma read_only_sendBulkPayment (win : Window) (recipients : list Recipient)
    (includePlatformFee : bool) :
  read_only (sendBulkPayment win recipients includePlatformFee).
Proof.
  unfold sendBulkPayment, sendBulkPayment_body.
  apply read_only_try_catch; [|intros e; apply read_only_ret].
  apply read_only_bind; [apply read_only_ensureMonadNetwork|]. intros _.
  destruct (Nat.eqb (List.length recipients) 0); [apply read_only_throw|].
  apply read_only_bind; [apply read_only_get|]. intros account.
  destruct (negb (truthy account)); [apply read_only_throw|]. cbv zeta.
  apply read_only_bind; [apply read_only_prevalidate|]. intros _.
  apply read_only_bind; [apply read_only_lift|]. intros p.
  apply read_only_bind; [apply read_only_send_loop|]. intros t. apply read_only_ret.
Qed.

Lemma read_only_getTransactionDetails (win : Window) (now : Z) (txHash : string) :
  read_only (getTransactionDetails win now txHash).
Proof.
  unfold getTransactionDetails.
  apply read_only_try_catch; [|intros e; apply read_only_ret].
  apply read_only_bind; [apply read_only_lift|]. intros p.
  apply read_only_bind; [apply read_only_request|]. intros tx.
  apply read_only_bind; [apply read_only_request|]. intros receipt. apply read_only_ret.
Qed.

Lemma read_only_getAccountBalance (win : Window) : read_only (getAccountBalance win).
Proof.
  unfold getAccountBalance.
  apply read_only_bind; [apply read_only_get|]. intros [connected|];
    [|apply read_only_throw].
  destruct (String.eqb connected ""); [apply read_only_throw|].
  apply read_only_bind; [apply read_only_lift|]. intros p.
  apply read_only_bind; [apply read_only_request|]. intros h. apply read_only_ret.
Qed.

Lemma read_only_keeps_persisted {A} (m : M A) : read_only m -> keeps_persisted m.
Proof.
  intros Hm s s' r Hp Hrun account Hacc.
  destruct (Hm _ _ _ Hrun) as [Ha Hl]. rewrite Hl. apply Hp. congruence.
Qed.

(** ** The session and its persisted copy *)

Lemma session_set_persisted (s s' : State) (account0 : string) :
  session_set s s' account0 -> persisted s'.
Proof.
  intros [Ha Hl] account Hacc. rewrite Hl.
  rewrite Ha in Hacc. injection Hacc as <-. apply lookup_insert_eq.
Qed.

Lemma session_unchanged_persisted (s s' : State) :
  session_unchanged s s' -> persisted s -> persisted s'.
Proof.
  intros [Ha Hl] Hp account Hacc. rewrite Hl. apply Hp. congruence.
Qed.

Lemma connectWallet_persisted (win : Window) (s s' : State) (r : Result Connection) :
  persisted s -> connectWallet win s = (s', r) ->
  persisted s' \/ prompted_write_refused win s s'.
Proof.
  intros Hp. unfold connectWallet, try_catch.
  destruct (connect_body win s) as [s0 r0] eqn:Hbody.
  pose proof (connect_body_session _ _ _ _ Hbody) as Hs.
  intros Hrun. assert (s' = s0) as -> by (destruct r0; now injection Hrun).
  unfold prompted_write_refused.
  destruct (prompted_account win s) as [account0|] eqn:Hgranted.
  - destruct (prompted_write win s account0) as [refusal|] eqn:Hwrite.
    + right. exists account0, refusal. destruct Hs as (Hs & _).
      split; [reflexivity|]. split; [exact Hwrite|exact Hs].
    + left. exact (session_set_persisted _ _ _ Hs).
  - left. exact (session_unchanged_persisted _ _ Hs Hp).
Qed.

Lemma reconnectWallet_persisted (win : Window) (s s' : State)
    (r : Result (option Connection)) :
  persisted s -> reconnectWallet win s = (s', r) ->
  persisted s' \/ silent_write_refused win s s'.
Proof.
  intros Hp. unfold reconnectWallet, try_catch.
  destruct (reconnect_body_run win s) as (s0 & r0 & Hbody & Hspec).
  rewrite Hbody.
  intros Hrun. assert (s' = s0) as -> by (destruct r0; now injection Hrun).
  unfold silent_write_refused.
  destruct (silent_account win s) as [account0|] eqn:Hgranted.
  - destruct (silent_write win s account0) as [refusal|] eqn:Hwrite.
    + right. exists account0, refusal. destruct Hspec as (Hs & _).
      split; [reflexivity|]. split; [exact Hwrite|exact Hs].
    + left. exact (session_set_persisted _ _ _ (proj1 Hspec)).
  - left. exact (session_unchanged_persisted _ _ (proj1 Hspec) Hp).
Qed.

(** X8.  At module load and after every operation of the module, an
    in-memory address is also the persisted address, with one
    exception.  Loading establishes it; [disconnectWallet], the two
    send operations, the handshake and the two queries keep it, whether
    they succeed or fail; [connectWallet] and [reconnectWallet] keep it
    unless the write of the granted account to [localStorage] is
    refused, in which case that account is in memory and the persisted
    address is as before.  On a host whose store accepts every write
    they keep it in every run. *)
Theorem session_is_persisted (win : Window) :
  (forall storage, persisted (init storage)) /\
  (forall s s' r, persisted s -> connectWallet win s = (s', r) ->
     persisted s' \/ prompted_write_refused win s s') /\
  (forall s s' r, persisted s -> reconnectWallet win s = (s', r) ->
     persisted s' \/ silent_write_refused win s s') /\
  (accepts_writes win ->
     keeps_persisted (connectWallet win) /\ keeps_persisted (reconnectWallet win)) /\
  keeps_persisted disconnectWallet /\
  keeps_persisted (ensureMonadNetwork win) /\
  (forall recipient displayed fee,
      keeps_persisted (sendPayment win recipient displayed fee)) /\
  (forall recipients fee, keeps_persisted (sendBulkPayment win recipients fee)) /\
  (forall now txHash, keeps_persisted (getTransactionDetails win now txHash)) /\
  keeps_persisted (getAccountBalance win).
Proof.
  split; [|split; [|split; [|split; [|split; [|split; [|split; [|split; [|split]]]]]]]].
  - intros storage account. unfold init. simpl.
    destruct (truthy (storage !! STORAGE_KEY)); [auto|discriminate].
  - apply connectWallet_persisted.
  - apply reconnectWallet_persisted.
  - intros Haccepts. split; intros s s' r Hp Hrun.
    + destruct (connectWallet_persisted _ _ _ _ Hp Hrun)
        as [H|(account0 & refusal & _ & Hrefused & _)]; [exact H|].
      unfold prompted_write in Hrefused. now rewrite Haccepts in Hrefused.
    + destruct (reconnectWallet_persisted _ _ _ _ Hp Hrun)
        as [H|(account0 & refusal & _ & Hrefused & _)]; [exact H|].
      unfold silent_write in Hrefused. now rewrite Haccepts in Hrefused.
  - intros s s' r _ [= <- _] account Hacc. discriminate.
  - apply read_only_keeps_persisted, read_only_ensureMonadNetwork.
  - intros. apply read_only_keeps_persisted, read_only_sendPayment.
  - intros. apply read_only_keeps_persisted, read_only_sendBulkPayment.
  - intros. apply read_only_keeps_persisted, read_only_getTransactionDetails.
  - apply read_only_keeps_persisted, read_only_getAccountBalance.
Qed.

Lemma host_accepts_writes (p : Provider) : accepts_writes (host p).
Proof. intros t contents k v. reflexivity. Qed.

Lemma disconnected_persisted : persisted disconnected.
Proof. intros account Hacc. discriminate. Qed.

Lemma session_is_persisted_witness :
  persisted (fst (connectWallet (host metamask) disconnected)) /\
  persisted (fst (reconnectWallet (host metamask) disconnected)).
Proof.
  destruct (session_is_persisted (host metamask)) as (_ & _ & _ & Hkeeps & _).
  destruct (Hkeeps (host_accepts_writes metamask)) as [Hconnect Hreconnect].
  split.
  - apply (Hconnect disconnected _ (snd (connectWallet (host metamask) disconnected))
             disconnected_persisted).
    vm_compute. reflexivity.
  - apply (Hreconnect disconnected _ (snd (reconnectWallet (host metamask) disconnected))
             disconnected_persisted).
    vm_compute. reflexivity.
Defined.

(** The exception, on a host whose store is full. *)
Example full_store_breaks_persisted :
  persisted disconnected /\
  connectedAccount (fst (connectWallet (host_storage_full metamask) disconnected))
    = Some alice /\
  localStorage (fst (connectWallet (host_storage_full metamask) disconnected))
    !! STORAGE_KEY = None.
Proof. split; [exact disconnected_persisted|]. split; vm_compute; reflexivity. Qed.

Lemma hydrate_persisted (s : State) (account : string) :
  persisted s -> connectedAccount s = Some account -> account <> "" ->
  connectedAccount (init (localStorage s)) = Some account.
Proof.
  intros Hp Ha Hne. unfold init. simpl. rewrite (Hp account Ha).
  now rewrite (truthy_Some _ Hne).
Qed.

(** A successful [connect_body], step by step. *)
Lemma connect_body_ok (win : Window) (s s' : State) (c : Connection) :
  connect_body win s = (s', Ok c) ->
  prompted_account win s = Some (conn_address c) /\
  prompted_write win s (conn_address c) = None /\
  exists handshake,
    trace s' = trace s ++ [EvRequest eth_requestAccounts] ++ handshake
                 ++ [EvRequest (eth_getBalance (conn_address c) "latest")] /\
    (handshake = [EvRequest switch_request] \/
     handshake = [EvRequest switch_request; EvRequest add_request]).
Proof.
  unfold connect_body, prompted_account, prompted_write.
  destruct (isWalletInstalled win); cbn [negb]; [|discriminate].
  destruct (getProvider win) as [p|e]; [|discriminate].
  erewrite bind_ok by reflexivity.
  destruct (has_request p) eqn:Hreq.
  2:{ erewrite bind_throw by (apply request_without_function; exact Hreq).
      discriminate. }
  unfold bind at 1. rewrite request_run by assumption.
  destruct (respond p (trace s) eth_requestAccounts) as [[[|account0 others]|]|e];
    try discriminate.
  cbn [granted_account]. run. unfold localStorage_setItem. cbn [trace localStorage log].
  destruct (setItem_raises win (trace s ++ [EvRequest eth_requestAccounts])
              (localStorage s) STORAGE_KEY account0) eqn:Hwrite; [discriminate|].
  rewrite switch_or_add_run by assumption. cbn [trace].
  destruct (respond p (trace s ++ [EvRequest eth_requestAccounts]) switch_request)
    as [[]|e].
  - rewrite request_run by assumption. cbn [log trace].
    destruct (respond p _ (eth_getBalance account0 "latest")); [|discriminate].
    intros [= <- <-]. split; [reflexivity|]. split; [exact Hwrite|].
    exists [EvRequest switch_request]. split; [|now left].
    unfold log. simpl. now rewrite <- !app_assoc.
  - destruct (code_is e 4902); [|discriminate].
    cbn [log trace].
    destruct (respond p _ add_request) as [[]|e']; [|discriminate].
    rewrite request_run by assumption. cbn [log trace].
    destruct (respond p _ (eth_getBalance account0 "latest")); [|discriminate].
    intros [= <- <-]. split; [reflexivity|]. split; [exact Hwrite|].
    exists [EvRequest switch_request; EvRequest add_request]. split; [|now right].
    unfold log. simpl. now rewrite <- !app_assoc.
Qed.



(** X10.  A session survives a reload of the page: after a successful
    [connectWallet] or [reconnectWallet] that returned a non-empty
    address, loading the module again from the storage it left restores
    that address. *)
Theorem session_survives_reload (win : Window) (s s' : State) (c : Connection) :
  connectWallet win s = (s', Ok c) \/ reconnectWallet win s = (s', Ok (Some c)) ->
  conn_address c <> "" ->
  connectedAccount s' = Some (conn_address c) /\
  connectedAccount (init (localStorage s')) = Some (conn_address c) /\
  isWalletConnected (init (localStorage s')) = true.
Proof.
  intros Hrun Hne.
  assert (Hset : session_set s s' (conn_address c)).
  { destruct Hrun as [Hrun|Hrun].
    - unfold connectWallet, try_catch in Hrun.
      destruct (connect_body win s) as [s0 [c0|e]] eqn:Hbody; [|discriminate].
      injection Hrun as -> ->.
      destruct (connect_body_ok _ _ _ _ Hbody) as (Hgranted & Hwrite & _).
      pose proof (connect_body_session _ _ _ _ Hbody) as Hs.
      now rewrite Hgranted, Hwrite in Hs.
    - destruct (reconnect_body_run win s) as (s0 & r0 & Hbody & Hspec).
      unfold reconnectWallet, try_catch in Hrun. rewrite Hbody in Hrun.
      destruct r0 as [r0|e]; [|discriminate].
      injection Hrun as -> ->.
      destruct (silent_account win s) as [account0|].
      + destruct (silent_write win s account0) as [refusal|].
        * destruct Hspec as [_ Hr]. discriminate.
        * destruct Hspec as [Hs Hr].
          destruct (silent_balance win s account0); [|discriminate].
          injection Hr as Hc. rewrite Hc. exact Hs.
      + destruct Hspec as [_ [Hr|[e Hr]]]; discriminate. }
  pose proof (session_set_persisted _ _ _ Hset) as Hp.
  destruct Hset as [Ha _].
  pose proof (hydrate_persisted _ _ Hp Ha Hne) as Hh.
  split; [exact Ha|]. split; [exact Hh|]. unfold isWalletConnected. now rewrite Hh.
Qed.

Lemma session_survives_reload_witness :
  connectedAccount (init (localStorage (fst (connectWallet (host metamask) disconnected))))
    = Some alice.
Proof.
  destruct (session_survives_reload (host metamask) disconnected
              (fst (connectWallet (host metamask) disconnected))
              {| conn_address := alice;
                 conn_balance := balance_of_hex "0xde0b6b3a7640000" |})
    as (_ & Hreload & _).
  - left. vm_compute. reflexivity.
  - discriminate.
  - exact Hreload.
Defined.

(** X11.  [disconnectWallet] always succeeds and asks the wallet
    nothing; afterwards no address is in memory, the persisted address
    is gone while every other stored key is as before, and a reload
    starts disconnected. *)
Theorem disconnectWallet_clears (s : State) :
  exists s',
    disconnectWallet s = (s', Ok tt) /\
    isWalletConnected s' = false /\
    localStorage s' !! STORAGE_KEY = None /\
    (forall k, k <> STORAGE_KEY -> localStorage s' !! k = localStorage s !! k) /\
    trace s' = trace s /\
    isWalletConnected (init (localStorage s')) = false /\
    disconnectWallet s' = (s', Ok tt).
Proof.
  eexists. split; [reflexivity|]. cbn [fst].
  split; [reflexivity|]. split; [apply lookup_delete_eq|].
  split; [intros k Hk; now apply lookup_delete_ne|]. split; [reflexivity|]. split.
  - unfold init, isWalletConnected. cbn [connectedAccount localStorage].
    now rewrite lookup_delete_eq.
  - unfold disconnectWallet. run. f_equal. f_equal.
    apply delete_delete_eq || apply delete_idemp.
Qed.

(** ** Hosts without a wallet *)

(** X12.  On a host without an injected EVM object no operation asks
    anything of any wallet or changes the state: [connectWallet] raises
    the install message, [reconnectWallet] returns [None], the
    handshake returns at once, the transaction query answers
    optimistically, both send operations return a failure record and
    the balance query raises. *)
Theorem without_wallet_nothing_is_asked (win : Window) (s : State) :
  isWalletInstalled win = false ->
  connectWallet win s
    = (s, Throw (new_Error "Please install MetaMask or another Web3 wallet to continue.")) /\
  reconnectWallet win s = (s, Ok None) /\
  ensureMonadNetwork win s = (s, Ok tt) /\
  (forall now txHash,
      getTransactionDetails win now txHash s = (s, Ok (optimistic_details now txHash))) /\
  (forall recipient displayed fee,
      exists result,
        sendPayment win recipient displayed fee s = (s, Ok result) /\
        pay_success result = false) /\
  (forall recipients fee,
      exists result,
        sendBulkPayment win recipients fee s = (s, Ok result) /\
        bulk_success result = false) /\
  exists e, getAccountBalance win s = (s, Throw e).
Proof.
  intros Hinst. destruct (not_installed_no_provider _ Hinst) as [e0 Hp].
  assert (Hensure : ensureMonadNetwork win s = (s, Ok tt))
    by (unfold ensureMonadNetwork; now rewrite Hinst).
  split; [|split; [|split; [exact Hensure|split; [|split; [|split]]]]].
  - unfold connectWallet, try_catch, connect_body. now rewrite Hinst.
  - unfold reconnectWallet, try_catch, reconnect_body. now rewrite Hinst.
  - intros now txHash. unfold getTransactionDetails, try_catch, bind, lift.
    now rewrite Hp.
  - intros recipient displayed fee.
    unfold sendPayment, try_catch, sendPayment_body.
    erewrite bind_ok by exact Hensure. cbv zeta.
    rewrite validate_recipient_valid. cbn [negb].
    destruct (Qle_bool displayed 0); [eexists; split; reflexivity|].
    erewrite bind_ok by reflexivity.
    destruct (truthy (connectedAccount s)); cbn [negb];
      [|eexists; split; reflexivity].
    erewrite bind_throw by (unfold lift; rewrite Hp; reflexivity).
    eexists; split; reflexivity.
  - intros recipients fee.
    unfold sendBulkPayment, try_catch, sendBulkPayment_body.
    erewrite bind_ok by exact Hensure.
    destruct (Nat.eqb (List.length recipients) 0); [eexists; split; reflexivity|].
    erewrite bind_ok by reflexivity.
    destruct (truthy (connectedAccount s)); cbn [negb];
      [|eexists; split; reflexivity].
    cbv zeta.
    destruct (prevalidate (List.map validate_entry recipients) s) as [s1 [[]|e]] eqn:Hpre.
    + assert (s1 = s) as ->.
      { revert Hpre. generalize (List.map validate_entry recipients).
        intros l. induction l as [|r rest IH]; simpl.
        - now intros [= ->].
        - destruct (negb (isValidAddress (address r))); [discriminate|].
          destruct (Qle_bool (amount r) 0); [discriminate|exact IH]. }
      erewrite bind_ok by exact Hpre.
      erewrite bind_throw by (unfold lift; rewrite Hp; reflexivity).
      eexists; split; reflexivity.
    + assert (s1 = s) as ->.
      { revert Hpre. generalize (List.map validate_entry recipients).
        intros l. induction l as [|r rest IH]; simpl.
        - discriminate.
        - destruct (negb (isValidAddress (address r))); [now intros [= ->]|].
          destruct (Qle_bool (amount r) 0); [now intros [= ->]|exact IH]. }
      erewrite bind_throw by exact Hpre.
      eexists; split; reflexivity.
  - unfold getAccountBalance. unfold bind at 1. unfold get_connectedAccount.
    destruct (connectedAccount s) as [connected|]; [|eexists; reflexivity].
    destruct (String.eqb connected ""); [eexists; reflexivity|].
    erewrite bind_throw by (unfold lift; rewrite Hp; reflexivity).
    eexists; reflexivity.
Qed.

Lemma without_wallet_nothing_is_asked_witness :
  reconnectWallet host_phantom_only (connected_as alice) = (connected_as alice, Ok None) /\
  ensureMonadNetwork host_phantom_only (connected_as alice) = (connected_as alice, Ok tt).
Proof.
  destruct (without_wallet_nothing_is_asked host_phantom_only (connected_as alice))
    as (_ & Hreconnect & Hensure & _).
  - reflexivity.
  - split; [exact Hreconnect|exact Hensure].
Defined.

(** ** What each operation asks of the wallet *)

(** X13.  The handshake asks for the chain switch at most once and
    for adding the chain at most once, after the switch; it asks
    nothing else and leaves the session alone.  It only succeeds
    without asking when no EVM object is injected. *)
Theorem ensureMonadNetwork_requests (win : Window) (s s' : State) (r : Result unit) :
  ensureMonadNetwork win s = (s', r) ->
  session_unchanged s s' /\
  (trace s' = trace s \/
   trace s' = trace s ++ [EvRequest switch_request] \/
   trace s' = trace s ++ [EvRequest switch_request; EvRequest add_request]) /\
  (trace s' = trace s -> r = Ok tt -> isWalletInstalled win = false).
Proof.
  intros Hrun. split; [exact (read_only_ensureMonadNetwork _ _ _ _ Hrun)|].
  revert Hrun. unfold ensureMonadNetwork.
  destruct (isWalletInstalled win); cbn [negb].
  2:{ intros [= <- <-]. split; [now left|reflexivity]. }
  unfold bind, lift. destruct (getProvider win) as [p|e].
  2:{ intros [= <- <-]. split; [now left|discriminate]. }
  destruct (has_request p) eqn:Hreq.
  2:{ rewrite switch_or_add_no_function by assumption.
      intros [= <- <-]. split; [now left|discriminate]. }
  rewrite switch_or_add_run by assumption.
  assert (Hgrow : forall evs, evs <> [] -> trace s ++ evs <> trace s).
  { intros evs Hne H. apply Hne.
    rewrite <- (app_nil_r (trace s)) in H at 2. now apply app_inv_head in H. }
  destruct (respond p (trace s) switch_request) as [[]|e].
  - intros [= <- <-]. split; [right; now left|].
    intros H. exfalso. revert H. now apply Hgrow.
  - destruct (code_is e 4902); intros [= <- <-].
    + split; [right; right; rewrite log_log; reflexivity|].
      intros H. exfalso. revert H. rewrite log_log. now apply Hgrow.
    + split; [right; now left|].
      intros H. exfalso. revert H. now apply Hgrow.
Qed.

Lemma ensureMonadNetwork_requests_witness :
  trace (fst (ensureMonadNetwork (host metamask) disconnected))
    = trace disconnected \/
  trace (fst (ensureMonadNetwork (host metamask) disconnected))
    = trace disconnected ++ [EvRequest switch_request] \/
  trace (fst (ensureMonadNetwork (host metamask) disconnected))
    = trace disconnected ++ [EvRequest switch_request; EvRequest add_request].
Proof.
  destruct (ensureMonadNetwork_requests (host metamask) disconnected
              (fst (ensureMonadNetwork (host metamask) disconnected)) (Ok tt))
    as (_ & Htrace & _).
  - reflexivity.
  - exact Htrace.
Defined.

(** X14.  [reconnectWallet] never prompts: it asks for the accounts
    with the non-prompting query at most once and then for the balance
    of the first account at most once; it never asks for a chain
    switch, for adding a chain or for a transfer. *)
Theorem reconnectWallet_requests (win : Window) (s s' : State)
    (r : Result (option Connection)) :
  reconnectWallet win s = (s', r) ->
  trace s' = trace s \/
  trace s' = trace s ++ [EvRequest eth_accounts] \/
  exists account0,
    silent_account win s = Some account0 /\
    trace s' = trace s ++ [EvRequest eth_accounts;
                           EvRequest (eth_getBalance account0 "latest")].
Proof.
  unfold reconnectWallet, try_catch, reconnect_body, silent_account.
  destruct (isWalletInstalled win); cbn [negb].
  2:{ intros [= <- _]. now left. }
  unfold bind at 1. unfold lift.
  destruct (getProvider win) as [p|e].
  2:{ intros [= <- _]. now left. }
  destruct (has_request p) eqn:Hreq.
  2:{ erewrite bind_throw by (apply request_without_function; exact Hreq).
      intros [= <- _]. now left. }
  unfold bind at 1. rewrite request_run by assumption.
  destruct (respond p (trace s) eth_accounts) as [[[|account0 others]|]|e];
    try (intros [= <- _]; right; now left).
  run.
  destruct (setItem_raises win (trace s ++ [EvRequest eth_accounts])
              (localStorage s) STORAGE_KEY account0).
  { intros [= <- _]. right. now left. }
  rewrite request_run by assumption.
  destruct (respond p _ (eth_getBalance account0 "latest"));
    intros [= <- _]; right; right; exists account0;
    (split; [reflexivity|]); unfold log; simpl; now rewrite <- app_assoc.
Qed.

Lemma reconnectWallet_requests_witness :
  requests (trace (fst (reconnectWallet (host metamask) disconnected)))
    = [eth_accounts; eth_getBalance alice "latest"].
Proof.
  destruct (reconnectWallet_requests (host metamask) disconnected
              (fst (reconnectWallet (host metamask) disconnected))
              (snd (reconnectWallet (host metamask) disconnected)))
    as [H|[H|(account0 & _ & H)]].
  - reflexivity.
  - reflexivity.
  - reflexivity.
  - reflexivity.
Defined.

(** X15.  [getTransactionDetails] asks for the transaction and then
    for the receipt of the given hash, each at most once and nothing
    else, and leaves the session alone. *)
Theorem getTransactionDetails_requests (win : Window) (now : Z) (txHash : string)
    (s s' : State) (r : Result TransactionDetails) :
  getTransactionDetails win now txHash s = (s', r) ->
  session_unchanged s s' /\
  (trace s' = trace s \/
   trace s' = trace s ++ [EvRequest (eth_getTransactionByHash txHash)] \/
   trace s' = trace s ++ [EvRequest (eth_getTransactionByHash txHash);
                          EvRequest (eth_getTransactionReceipt txHash)]).
Proof.
  intros Hrun. split; [exact (read_only_getTransactionDetails _ _ _ _ _ _ Hrun)|].
  revert Hrun. unfold getTransactionDetails, try_catch.
  unfold bind at 1. unfold lift.
  destruct (getProvider win) as [p|e].
  2:{ intros [= <- _]. now left. }
  destruct (has_request p) eqn:Hreq.
  2:{ erewrite bind_throw by (apply request_without_function; exact Hreq).
      intros [= <- _]. now left. }
  unfold bind at 1. rewrite request_run by assumption.
  destruct (respond p (trace s) (eth_getTransactionByHash txHash)) as [tx|e].
  2:{ intros [= <- _]. right. now left. }
  unfold bind. rewrite request_run by assumption.
  destruct (respond p _ (eth_getTransactionReceipt txHash));
    intros [= <- _]; right; right; unfold log; simpl; now rewrite <- app_assoc.
Qed.

Lemma getTransactionDetails_requests_witness :
  session_unchanged disconnected
    (fst (getTransactionDetails (host metamask) 7 "0xaaa" disconnected)).
Proof.
  destruct (getTransactionDetails_requests (host metamask) 7 "0xaaa" disconnected
              (fst (getTransactionDetails (host metamask) 7 "0xaaa" disconnected))
              (snd (getTransactionDetails (host metamask) 7 "0xaaa" disconnected)))
    as [Hsame _].
  - reflexivity.
  - exact Hsame.
Defined.

(** X16.  When [getAccountBalance] returns, there is a session, the
    wallet was asked once for the balance of the connected address and
    for nothing else, the session is as before, and the report lists
    MON with the balance the wallet answered (its hexadecimal answer
    read as a number and divided by [1e18]) and USDC with zero.  When
    it raises, the session is as before too, and without a session it
    raises before asking anything. *)
Theorem getAccountBalance_outcome (win : Window) (s s' : State)
    (r : Result AccountBalance) :
  getAccountBalance win s = (s', r) ->
  session_unchanged s s' /\
  match r with
  | Ok balance =>
      exists connected p balanceHex,
        connectedAccount s = Some connected /\
        connected <> "" /\
        getProvider win = Ok p /\
        respond p (trace s) (eth_getBalance connected "latest") = Ok balanceHex /\
        trace s' = trace s ++ [EvRequest (eth_getBalance connected "latest")] /\
        mon balance = balance_of_hex balanceHex /\
        totalCoins balance = 2 /\
        assets balance =
          [ {| assetId := "MON"; asset_amount := balance_of_hex balanceHex;
               asset_name := "Monad"; asset_symbol := "MON" |};
            {| assetId := "USDC"; asset_amount := 0%float;
               asset_name := "USD Coin"; asset_symbol := "USDC" |} ]
  | Throw e =>
      truthy (connectedAccount s) = false ->
      s' = s /\ e = new_Error "No wallet connected"
  end.
Proof.
  intros Hrun. split; [exact (read_only_getAccountBalance _ _ _ _ Hrun)|].
  revert Hrun. unfold getAccountBalance.
  unfold bind at 1. unfold get_connectedAccount.
  destruct (connectedAccount s) as [connected|] eqn:Hacc.
  2:{ intros [= <- <-]. now split. }
  cbn [truthy]. destruct (String.eqb connected "") eqn:Hempty.
  { intros [= <- <-]. now split. }
  unfold bind at 1. unfold lift.
  destruct (getProvider win) as [p|e].
  2:{ intros [= <- <-]. discriminate. }
  destruct (has_request p) eqn:Hreq.
  2:{ erewrite bind_throw by (apply request_without_function; exact Hreq).
      intros [= <- <-]. discriminate. }
  unfold bind. rewrite request_run by assumption.
  destruct (respond p (trace s) (eth_getBalance connected "latest"))
    as [balanceHex|e] eqn:Hanswer;
    intros [= <- <-]; [|discriminate].
  exists connected, p, balanceHex. split; [reflexivity|]. split.
  - intros ->. discriminate.
  - repeat split. exact Hanswer.
Qed.

Lemma getAccountBalance_outcome_witness :
  exists balance,
    snd (getAccountBalance (host metamask) (connected_as alice)) = Ok balance /\
    respond metamask (trace (connected_as alice)) (eth_getBalance alice "latest")
      = Ok "0xde0b6b3a7640000" /\
    mon balance = 1%float /\
    List.map asset_amount (assets balance) = [1%float; 0%float] /\
    trace (fst (getAccountBalance (host metamask) (connected_as alice)))
      = trace (connected_as alice) ++ [EvRequest (eth_getBalance alice "latest")].
Proof.
  destruct (getAccountBalance_outcome (host metamask) (connected_as alice)
              (fst (getAccountBalance (host metamask) (connected_as alice)))
              (snd (getAccountBalance (host metamask) (connected_as alice))))
    as (_ & Hreport).
  - vm_compute. reflexivity.
  - destruct (snd (getAccountBalance (host metamask) (connected_as alice)))
      as [balance|e] eqn:Hresult; [|vm_compute in Hresult; discriminate].
    destruct Hreport
      as (connected & p & balanceHex & Hacc & _ & Hp & Hanswer & Htrace & Hmon & _ & Hassets).
    injection Hacc as <-. injection Hp as <-.
    assert (balanceHex = "0xde0b6b3a7640000") as ->
      by (vm_compute in Hanswer; now injection Hanswer).
    exists balance. split; [reflexivity|]. split; [vm_compute; reflexivity|].
    split; [rewrite Hmon; vm_compute; reflexivity|].
    split; [rewrite Hassets; vm_compute; reflexivity|exact Htrace].
Defined.

(** ** Which provider is resolved *)

Lemma find_flagged_None (providers : list (option Provider)) :
  List.find flagged_MetaMask providers <> Some None.
Proof.
  intros H. apply List.find_some in H as [_ H]. discriminate.
Qed.

(** X17.  A provider that [getProvider] returns is an object of the
    host: the EVM object itself or one of its sub-providers; and it is
    flagged as MetaMask or exposes [request]. *)
Theorem getProvider_sound (win : Window) (p : Provider) :
  getProvider win = Ok p ->
  (isMetaMask p = true \/ has_request p = true) /\
  exists eth,
    ethereum win = Some eth /\
    (p = eth_self eth \/
     exists providers, eth_providers eth = Some providers /\ In (Some p) providers).
Proof.
  unfold getProvider. destruct (ethereum win) as [eth|].
  2:{ destruct (hasSolana win); discriminate. }
  assert (Hself : resolve_self win eth = Ok p ->
                  (isMetaMask p = true \/ has_request p = true) /\ p = eth_self eth).
  { unfold resolve_self.
    destruct (isMetaMask (eth_self eth)) eqn:Hm.
    - intros [= <-]. auto.
    - destruct (has_request (eth_self eth)) eqn:Hr; [|discriminate].
      destruct (hasSolana win); [discriminate|]. intros [= <-]. auto. }
  assert (Hfinish : resolve_self win eth = Ok p ->
                    (isMetaMask p = true \/ has_request p = true) /\
                    exists eth0, Some eth = Some eth0 /\
                      (p = eth_self eth0 \/
                       exists providers, eth_providers eth0 = Some providers /\
                                         In (Some p) providers)).
  { intros H. destruct (Hself H) as [H1 H2]. split; [exact H1|]. exists eth. auto. }
  destruct (eth_providers eth) as [[|first others]|] eqn:Hproviders; try exact Hfinish.
  destruct (List.find flagged_MetaMask (first :: others)) as [[preferred|]|] eqn:Hfind.
  - intros [= <-]. apply List.find_some in Hfind as [Hin Hflag].
    split; [left; exact Hflag|]. exists eth. split; [reflexivity|].
    right. exists (first :: others). now split.
  - exfalso. exact (find_flagged_None _ Hfind).
  - destruct first as [f|]; [|exact Hfinish].
    destruct (has_request f) eqn:Hr; [|exact Hfinish].
    intros [= <-]. split; [now right|]. exists eth. split; [reflexivity|].
    right. exists (Some f :: others). split; [exact Hproviders|now left].
Qed.

Lemma getProvider_sound_witness :
  isMetaMask metamask = true \/ has_request metamask = true.
Proof.
  destruct (getProvider_sound
              (host_with_providers other_wallet [Some metamask; Some other_wallet])
              metamask) as [H _].
  - reflexivity.
  - exact H.
Defined.

Lemma find_flagged_existsb (providers : list (option Provider)) :
  List.find flagged_MetaMask providers = None ->
  existsb flagged_MetaMask providers = false.
Proof.
  induction providers as [|q rest IH]; [reflexivity|]. simpl.
  destruct (flagged_MetaMask q); [discriminate|exact IH].
Qed.

Lemma existsb_flagged_In (providers : list (option Provider)) (p : Provider) :
  existsb flagged_MetaMask providers = false ->
  In (Some p) providers -> isMetaMask p = false.
Proof.
  intros Hnone Hin. destruct (isMetaMask p) eqn:Hp; [|reflexivity].
  assert (existsb flagged_MetaMask providers = true)
    by (apply existsb_exists; exists (Some p); now split).
  congruence.
Qed.

(** X18.  Whenever [getProvider] fails with one of its two Phantom
    messages, the Phantom warning dialog is shown on that host. *)
Theorem phantom_failures_are_warned (win : Window) (e : Thrown) :
  getProvider win = Throw e ->
  message e = PHANTOM_ONLY_MESSAGE \/ message e = PHANTOM_DEFAULT_MESSAGE ->
  PhantomWarning_show win = true.
Proof.
  unfold getProvider, PhantomWarning_show, hasMetaMask.
  destruct (ethereum win) as [eth|].
  2:{ destruct (hasSolana win); intros [= <-]; [reflexivity|].
      intros [H|H]; discriminate. }
  assert (Hself : resolve_self win eth = Throw e ->
                  message e = PHANTOM_ONLY_MESSAGE \/ message e = PHANTOM_DEFAULT_MESSAGE ->
                  hasSolana win = true /\ isMetaMask (eth_self eth) = false).
  { unfold resolve_self.
    destruct (isMetaMask (eth_self eth)); [discriminate|].
    destruct (has_request (eth_self eth)).
    - destruct (hasSolana win); [now split|discriminate].
    - intros [= <-] [H|H]; discriminate. }
  destruct (eth_providers eth) as [[|first others]|] eqn:Hproviders.
  - intros H1 H2. destruct (Hself H1 H2) as [-> ->]. reflexivity.
  - destruct (List.find flagged_MetaMask (first :: others)) as [[preferred|]|] eqn:Hfind.
    + discriminate.
    + exfalso. exact (find_flagged_None _ Hfind).
    + apply find_flagged_existsb in Hfind. rewrite Hfind.
      destruct first as [f|].
      * destruct (has_request f); [discriminate|].
        intros H1 H2. destruct (Hself H1 H2) as [-> ->]. reflexivity.
      * intros H1 H2. destruct (Hself H1 H2) as [-> ->]. reflexivity.
  - intros H1 H2. destruct (Hself H1 H2) as [-> ->]. reflexivity.
Qed.

Lemma phantom_failures_are_warned_witness : PhantomWarning_show host_phantom_only = true.
Proof.
  apply (phantom_failures_are_warned host_phantom_only (new_Error PHANTOM_ONLY_MESSAGE)).
  - reflexivity.
  - left. reflexivity.
Defined.

(** X19.  On a host where the Phantom warning dialog is shown, a
    provider that [getProvider] still returns is the sub-provider at
    the head of the sequence: it is not flagged as MetaMask and exposes
    [request]; the EVM object itself is never returned. *)
Theorem warned_hosts_resolve_unflagged (win : Window) (p : Provider) :
  PhantomWarning_show win = true ->
  getProvider win = Ok p ->
  isMetaMask p = false /\
  has_request p = true /\
  exists eth others,
    ethereum win = Some eth /\ eth_providers eth = Some (Some p :: others).
Proof.
  unfold PhantomWarning_show, hasMetaMask, getProvider.
  intros Hshow. apply andb_true_iff in Hshow as [Hsol Hmm].
  apply negb_true_iff in Hmm.
  destruct (ethereum win) as [eth|]; [|rewrite Hsol; discriminate].
  apply orb_false_iff in Hmm as [Hself Hproviders].
  assert (Hnever : resolve_self win eth <> Ok p).
  { unfold resolve_self. rewrite Hself, Hsol.
    destruct (has_request (eth_self eth)); discriminate. }
  destruct (eth_providers eth) as [[|first others]|] eqn:Hps;
    try (intros H; now apply Hnever in H).
  destruct (List.find flagged_MetaMask (first :: others)) as [[preferred|]|] eqn:Hfind.
  - apply List.find_some in Hfind as [Hin Hflag].
    assert (existsb flagged_MetaMask (first :: others) = true)
      by (apply existsb_exists; exists (Some preferred); now split).
    congruence.
  - exfalso. exact (find_flagged_None _ Hfind).
  - destruct first as [f|]; [|intros H; now apply Hnever in H].
    destruct (has_request f) eqn:Hr; [|intros H; now apply Hnever in H].
    intros [= <-]. split.
    + apply (existsb_flagged_In _ _ Hproviders). now left.
    + split; [exact Hr|]. exists eth, others. split; [reflexivity|exact Hps].
Qed.

Lemma warned_hosts_resolve_unflagged_witness :
  isMetaMask other_wallet = false /\ has_request other_wallet = true.
Proof.
  destruct (warned_hosts_resolve_unflagged host_phantom_and_other other_wallet)
    as (Hflag & Hreq & _).
  - reflexivity.
  - reflexivity.
  - split; [exact Hflag|exact Hreq].
Defined.

(** ** The send operations, path by path *)

Lemma sendPayment_cases (win : Window) (recipient : string) (displayed : Q)
    (includePlatformFee : bool) (s : State) :
  exists s1 r1,
    ensureMonadNetwork win s = (s1, r1) /\
    sendPayment win recipient displayed includePlatformFee s =
      match r1 with
      | Throw e => (s1, Ok (payment_failure e))
      | Ok _ =>
          if Qle_bool displayed 0
          then (s1, Ok (payment_failure (new_Error "Amount must be greater than 0")))
          else if truthy (connectedAccount s1) then
            match getProvider win with
            | Throw e => (s1, Ok (payment_failure e))
            | Ok p =>
                let req := eth_sendTransaction
                             (payment_transaction (connectedAccount s1) recipient) in
                (extend s1 [EvRequest req],
                 Ok match respond p (trace s1) req with
                    | Ok txHash => payment_success txHash displayed includePlatformFee
                    | Throw e => payment_failure e
                    end)
            end
          else (s1, Ok (payment_failure (new_Error "No wallet connected")))
      end.
Proof.
  destruct (ensureMonadNetwork win s) as [s1 r1] eqn:Hensure.
  exists s1, r1. split; [reflexivity|].
  unfold sendPayment, try_catch, sendPayment_body.
  destruct r1 as [[]|e].
  2:{ erewrite bind_throw by exact Hensure. reflexivity. }
  erewrite bind_ok by exact Hensure. cbv zeta.
  rewrite validate_recipient_valid. cbn [negb].
  destruct (Qle_bool displayed 0); [reflexivity|].
  erewrite bind_ok by reflexivity.
  destruct (truthy (connectedAccount s1)); cbn [negb]; [|reflexivity].
  destruct (getProvider win) as [p|e] eqn:Hp.
  2:{ erewrite bind_throw by reflexivity. reflexivity. }
  pose proof (ensureMonadNetwork_ok_request _ _ _ _ Hensure Hp) as Hreq.
  erewrite bind_ok by reflexivity.
  erewrite bind_ok by reflexivity.
  unfold bind. rewrite request_run by assumption.
  fold (payment_transaction (connectedAccount s1) recipient).
  destruct (respond p (trace s1)
              (eth_sendTransaction (payment_transaction (connectedAccount s1) recipient)));
    unfold ret, payment_success; destruct includePlatformFee; reflexivity.
Qed.

Lemma prevalidate_state (rs : list Recipient) (s s' : State) (r : Result unit) :
  prevalidate rs s = (s', r) -> s' = s.
Proof.
  induction rs as [|x rest IH]; simpl.
  - now intros [= <- _].
  - destruct (negb (isValidAddress (address x))); [now intros [= <- _]|].
    destruct (Qle_bool (amount x) 0); [now intros [= <- _]|exact IH].
Qed.

Lemma sendBulkPayment_cases (win : Window) (recipients : list Recipient)
    (includePlatformFee : bool) (s : State) :
  exists s1 r1,
    ensureMonadNetwork win s = (s1, r1) /\
    sendBulkPayment win recipients includePlatformFee s =
      match r1 with
      | Throw e => (s1, Ok (bulk_failure e))
      | Ok _ =>
          if Nat.eqb (List.length recipients) 0
          then (s1, Ok (bulk_failure (new_Error "No recipients provided")))
          else if truthy (connectedAccount s1) then
            let validated := List.map validate_entry recipients in
            match snd (prevalidate validated s1) with
            | Throw e => (s1, Ok (bulk_failure e))
            | Ok _ =>
                match getProvider win with
                | Throw e => (s1, Ok (bulk_failure e))
                | Ok p =>
                    let answers := outcomes p (connectedAccount s1) validated (trace s1) in
                    (extend s1 (submission_events (connectedAccount s1) validated),
                     Ok {| bulk_success :=
                             Nat.ltb (failures answers) (List.length recipients);
                           bulk_txHash := Some (List.last (hashes answers) "");
                           bulk_error := None;
                           bulk_totalPlatformFee :=
                             if includePlatformFee
                             then Some (sum_platform_fees recipients) else None;
                           bulk_totalNetAmount :=
                             if includePlatformFee
                             then Some (accumulate_hardcoded validated 0%float) else None;
                           bulk_failedTransactions :=
                             if Nat.ltb 0 (failures answers)
                             then Some (failures answers) else None |})
                end
            end
          else (s1, Ok (bulk_failure (new_Error "No wallet connected")))
      end.
Proof.
  destruct (ensureMonadNetwork win s) as [s1 r1] eqn:Hensure.
  exists s1, r1. split; [reflexivity|].
  unfold sendBulkPayment, try_catch, sendBulkPayment_body.
  destruct r1 as [[]|e].
  2:{ erewrite bind_throw by exact Hensure. reflexivity. }
  erewrite bind_ok by exact Hensure.
  destruct (Nat.eqb (List.length recipients) 0); [reflexivity|].
  erewrite bind_ok by reflexivity.
  destruct (truthy (connectedAccount s1)); cbn [negb]; [|reflexivity].
  cbv zeta.
  destruct (prevalidate (List.map validate_entry recipients) s1) as [s2 [[]|e]] eqn:Hpre;
    pose proof (prevalidate_state _ _ _ _ Hpre) as ->; cbn [snd].
  2:{ erewrite bind_throw by exact Hpre. reflexivity. }
  erewrite bind_ok by exact Hpre.
  destruct (getProvider win) as [p|e] eqn:Hp.
  2:{ erewrite bind_throw by reflexivity. reflexivity. }
  pose proof (ensureMonadNetwork_ok_request _ _ _ _ Hensure Hp) as Hreq.
  erewrite bind_ok by reflexivity.
  erewrite bind_ok by (apply send_loop_run; exact Hreq).
  unfold ret, sum_platform_fees. cbn [lastTxHash totalNetAmount failedTransactions].
  simpl Nat.add. destruct includePlatformFee; reflexivity.
Qed.

Lemma transfers_app (evs1 evs2 : list Event) :
  transfers (evs1 ++ evs2) = transfers evs1 ++ transfers evs2.
Proof.
  induction evs1 as [|ev evs1 IH]; [reflexivity|].
  destruct ev as [[]|]; simpl; now rewrite IH.
Qed.

Lemma transfers_submission_events (account : option string) (rs : list Recipient) :
  transfers (submission_events account rs) = List.map (bulk_transaction account) rs.
Proof.
  induction rs as [|r rest IH]; [reflexivity|]. simpl. now rewrite IH.
Qed.

Lemma requests_app (evs1 evs2 : list Event) :
  requests (evs1 ++ evs2) = requests evs1 ++ requests evs2.
Proof.
  induction evs1 as [|ev evs1 IH]; [reflexivity|].
  destruct ev; simpl; now rewrite IH.
Qed.

Lemma payment_transaction_well_formed (account : option string) (recipient : string) :
  well_formed_transfer account (payment_transaction account recipient).
Proof.
  unfold well_formed_transfer, payment_transaction. cbn [tx_from tx_to tx_value tx_gas].
  split; [reflexivity|]. split; [apply validate_recipient_valid|]. split.
  - unfold validate_recipient.
    destruct (isPlaceholder recipient) eqn:E; simpl;
      [apply TEST_ADDRESS_not_placeholder|].
    destruct (isValidAddress recipient); simpl;
      [assumption|apply TEST_ADDRESS_not_placeholder].
  - split; [apply amountWei_value|reflexivity].
Qed.

Lemma bulk_transaction_validated (account : option string) (r : Recipient) :
  bulk_transaction account (validate_entry r) = payment_transaction account (address r).
Proof.
  unfold bulk_transaction, payment_transaction. now rewrite validate_entry_address.
Qed.

(** X20.  On every host and in every state [sendPayment] returns an
    outcome record and never raises; it leaves the session alone; it
    submits no transfer or exactly one, and the one it submits is from
    the connected address to a valid, non-placeholder address with the
    fixed amount and gas limit.  A successful outcome means the
    transfer was submitted: it carries the hash, no error, and the fee
    and net of the displayed amount exactly when the fee is enabled; a
    failed outcome carries an error and neither hash nor fee
    figures. *)
Theorem sendPayment_dispatch (win : Window) (recipient : string) (displayed : Q)
    (includePlatformFee : bool) (s : State) :
  exists s' result evs,
    sendPayment win recipient displayed includePlatformFee s = (s', Ok result) /\
    session_unchanged s s' /\
    trace s' = trace s ++ evs /\
    (transfers evs = [] \/
     transfers evs = [payment_transaction (connectedAccount s) recipient]) /\
    Forall (well_formed_transfer (connectedAccount s)) (transfers evs) /\
    if pay_success result
    then transfers evs = [payment_transaction (connectedAccount s) recipient] /\
         (exists txHash,
             result = payment_success txHash displayed includePlatformFee)
    else exists e, result = payment_failure e.
Proof.
  destruct (sendPayment_cases win recipient displayed includePlatformFee s)
    as (s1 & r1 & Hensure & Hrun).
  destruct (ensureMonadNetwork_quiet win _ _ _ Hensure) as (Ha & Hl & evs & Ht & Hq).
  assert (Hquiet : forall e,
             exists s' result evs0,
               (s1, Ok (payment_failure e)) = (s', Ok result) /\
               session_unchanged s s' /\
               trace s' = trace s ++ evs0 /\
               (transfers evs0 = [] \/
                transfers evs0 = [payment_transaction (connectedAccount s) recipient]) /\
               Forall (well_formed_transfer (connectedAccount s)) (transfers evs0) /\
               if pay_success result
               then transfers evs0 = [payment_transaction (connectedAccount s) recipient] /\
                    (exists txHash,
                        result = payment_success txHash displayed includePlatformFee)
               else exists e0, result = payment_failure e0).
  { intros e. exists s1, (payment_failure e), evs.
    split; [reflexivity|]. split; [now split|]. split; [exact Ht|].
    split; [now left|]. rewrite Hq. split; [constructor|]. cbn. eauto. }
  rewrite Hrun. destruct r1 as [[]|e]; [|apply Hquiet].
  destruct (Qle_bool displayed 0); [apply Hquiet|].
  destruct (truthy (connectedAccount s1)); [|apply Hquiet].
  destruct (getProvider win) as [p|e]; [|apply Hquiet].
  cbv zeta. rewrite Ha.
  set (tx := payment_transaction (connectedAccount s) recipient).
  assert (Htx : transfers (evs ++ [EvRequest (eth_sendTransaction tx)]) = [tx])
    by (rewrite transfers_app, Hq; reflexivity).
  eexists _, _, (evs ++ [EvRequest (eth_sendTransaction tx)]).
  split; [reflexivity|]. split; [split; assumption|]. split.
  { cbn [extend trace]. rewrite Ht. now rewrite <- app_assoc. }
  split; [now right|]. rewrite Htx. split.
  { constructor; [apply payment_transaction_well_formed|constructor]. }
  destruct (respond p (trace s1) (eth_sendTransaction tx)); cbn; eauto.
Qed.

(** X21.  [sendPayment] with a displayed amount of zero or less, or
    without an active session, returns a failure record and submits no
    transfer, on every host; when the handshake succeeded the error is
    the amount message if the amount is at fault, and the session
    message otherwise. *)
Theorem sendPayment_rejects (win : Window) (recipient : string) (displayed : Q)
    (includePlatformFee : bool) (s : State) :
  (displayed <= 0)%Q \/ truthy (connectedAccount s) = false ->
  exists s' e evs,
    sendPayment win recipient displayed includePlatformFee s
      = (s', Ok (payment_failure e)) /\
    trace s' = trace s ++ evs /\
    transfers evs = [] /\
    (snd (ensureMonadNetwork win s) = Ok tt ->
     e = new_Error (if Qle_bool displayed 0 then "Amount must be greater than 0"
                    else "No wallet connected")).
Proof.
  intros Hbad.
  destruct (sendPayment_cases win recipient displayed includePlatformFee s)
    as (s1 & r1 & Hensure & Hrun).
  destruct (ensureMonadNetwork_quiet win _ _ _ Hensure) as (Ha & Hl & evs & Ht & Hq).
  rewrite Hrun, Hensure. cbn [snd]. destruct r1 as [[]|e].
  2:{ exists s1, e, evs. repeat split; try assumption. discriminate. }
  destruct (Qle_bool displayed 0) eqn:Hle.
  { eexists s1, _, evs. repeat split; assumption. }
  destruct Hbad as [Hbad|Hbad].
  { apply Qle_bool_iff in Hbad. congruence. }
  rewrite Ha, Hbad. eexists s1, _, evs. repeat split; assumption.
Qed.

Lemma sendPayment_rejects_witness :
  exists s' e evs,
    sendPayment (host metamask) bob 0 true (connected_as alice)
      = (s', Ok (payment_failure e)) /\
    trace s' = trace (connected_as alice) ++ evs /\
    transfers evs = [] /\
    (snd (ensureMonadNetwork (host metamask) (connected_as alice)) = Ok tt ->
     e = new_Error "Amount must be greater than 0").
Proof.
  apply (sendPayment_rejects (host metamask) bob 0 true (connected_as alice)).
  left. discriminate.
Defined.

Lemma bulk_transactions_well_formed (account : option string) (recipients : list Recipient) :
  Forall (well_formed_transfer account)
         (List.map (bulk_transaction account) (List.map validate_entry recipients)).
Proof.
  induction recipients as [|r rest IH]; [constructor|].
  simpl. constructor; [|exact IH].
  rewrite bulk_transaction_validated. apply payment_transaction_well_formed.
Qed.

(** X22.  On every host and in every state [sendBulkPayment] returns
    an outcome record, never raises and leaves the session alone, and
    it is all or nothing in what it submits: either the outcome carries
    an error, is a failure, and no transfer was submitted; or it carries
    no error and exactly one transfer per recipient was submitted, in
    order.  Every transfer is from the connected address to a valid,
    non-placeholder address with the fixed amount and gas limit. *)
Theorem sendBulkPayment_all_or_nothing (win : Window) (recipients : list Recipient)
    (includePlatformFee : bool) (s : State) :
  exists s' result evs,
    sendBulkPayment win recipients includePlatformFee s = (s', Ok result) /\
    session_unchanged s s' /\
    trace s' = trace s ++ evs /\
    Forall (well_formed_transfer (connectedAccount s)) (transfers evs) /\
    ((bulk_error result <> None /\ bulk_success result = false /\ transfers evs = []) \/
     (bulk_error result = None /\ recipients <> [] /\
      transfers evs = List.map (bulk_transaction (connectedAccount s))
                               (List.map validate_entry recipients))).
Proof.
  destruct (sendBulkPayment_cases win recipients includePlatformFee s)
    as (s1 & r1 & Hensure & Hrun).
  destruct (ensureMonadNetwork_quiet win _ _ _ Hensure) as (Ha & Hl & evs & Ht & Hq).
  assert (Hquiet : forall e,
             exists s' result evs0,
               (s1, Ok (bulk_failure e)) = (s', Ok result) /\
               session_unchanged s s' /\
               trace s' = trace s ++ evs0 /\
               Forall (well_formed_transfer (connectedAccount s)) (transfers evs0) /\
               ((bulk_error result <> None /\ bulk_success result = false /\
                 transfers evs0 = []) \/
                (bulk_error result = None /\ recipients <> [] /\
                 transfers evs0 = List.map (bulk_transaction (connectedAccount s))
                                           (List.map validate_entry recipients)))).
  { intros e. exists s1, (bulk_failure e), evs.
    split; [reflexivity|]. split; [now split|]. split; [exact Ht|].
    rewrite Hq. split; [constructor|]. left. cbn. repeat split. discriminate. }
  rewrite Hrun. destruct r1 as [[]|e]; [|apply Hquiet].
  destruct (Nat.eqb (List.length recipients) 0) eqn:Hlen; [apply Hquiet|].
  destruct (truthy (connectedAccount s1)); [|apply Hquiet].
  cbv zeta.
  destruct (snd (prevalidate (List.map validate_entry recipients) s1)); [|apply Hquiet].
  destruct (getProvider win) as [p|e]; [|apply Hquiet].
  rewrite Ha.
  set (validated := List.map validate_entry recipients).
  assert (Htx : transfers (evs ++ submission_events (connectedAccount s) validated)
                = List.map (bulk_transaction (connectedAccount s)) validated)
    by (rewrite transfers_app, Hq, transfers_submission_events; reflexivity).
  eexists _, _, (evs ++ submission_events (connectedAccount s) validated).
  split; [reflexivity|]. split; [split; assumption|]. split.
  { cbn [extend trace]. rewrite Ht. now rewrite <- app_assoc. }
  rewrite Htx. split; [apply bulk_transactions_well_formed|].
  right. cbn [bulk_error]. split; [reflexivity|]. split; [|reflexivity].
  intros ->. discriminate.
Qed.

(** X23.  [sendBulkPayment] with an empty recipient list, or without
    an active session, returns a failure record and submits no
    transfer, on every host; when the handshake succeeded the error is
    the empty-list message if the list is empty, and the session
    message otherwise. *)
Theorem sendBulkPayment_rejects (win : Window) (recipients : list Recipient)
    (includePlatformFee : bool) (s : State) :
  recipients = [] \/ truthy (connectedAccount s) = false ->
  exists s' e evs,
    sendBulkPayment win recipients includePlatformFee s = (s', Ok (bulk_failure e)) /\
    trace s' = trace s ++ evs /\
    transfers evs = [] /\
    (snd (ensureMonadNetwork win s) = Ok tt ->
     e = new_Error (match recipients with
                    | [] => "No recipients provided"
                    | _ :: _ => "No wallet connected"
                    end)).
Proof.
  intros Hbad.
  destruct (sendBulkPayment_cases win recipients includePlatformFee s)
    as (s1 & r1 & Hensure & Hrun).
  destruct (ensureMonadNetwork_quiet win _ _ _ Hensure) as (Ha & Hl & evs & Ht & Hq).
  rewrite Hrun, Hensure. cbn [snd]. destruct r1 as [[]|e].
  2:{ exists s1, e, evs. repeat split; try assumption. discriminate. }
  destruct recipients as [|r rest].
  { eexists s1, _, evs. repeat split; assumption. }
  destruct Hbad as [Hbad|Hbad]; [discriminate|].
  change (Nat.eqb (List.length (r :: rest)) 0) with false. cbv iota.
  rewrite Ha, Hbad. eexists s1, _, evs. repeat split; assumption.
Qed.

Lemma sendBulkPayment_rejects_witness :
  exists s' e evs,
    sendBulkPayment (host metamask) [] true (connected_as alice)
      = (s', Ok (bulk_failure e)) /\
    trace s' = trace (connected_as alice) ++ evs /\
    transfers evs = [] /\
    (snd (ensureMonadNetwork (host metamask) (connected_as alice)) = Ok tt ->
     e = new_Error "No recipients provided").
Proof.
  apply (sendBulkPayment_rejects (host metamask) [] true (connected_as alice)).
  left. reflexivity.
Defined.

Lemma failures_and_hashes (answers : list (Result string)) :
  (failures answers + List.length (hashes answers))%nat = List.length answers.
Proof.
  unfold failures. induction answers as [|[h|e] rest IH]; simpl; lia.
Qed.

(** X24.  When [sendBulkPayment] returns an outcome without an error,
    every recipient got one submission, each either accepted or
    failed; the outcome is a success exactly when at least one
    submission was accepted, its hash is then the hash of the last
    accepted one, and the failure count is the number of failed
    submissions, left out when it is zero. *)
Theorem sendBulkPayment_success_means_accepted
    (win : Window) (recipients : list Recipient) (includePlatformFee : bool)
    (s s' : State) (result : BulkResult) :
  sendBulkPayment win recipients includePlatformFee s = (s', Ok result) ->
  bulk_error result = None ->
  exists p t,
    getProvider win = Ok p /\
    let answers := outcomes p (connectedAccount s)
                            (List.map validate_entry recipients) t in
    (failures answers + List.length (hashes answers))%nat = List.length recipients /\
    (bulk_success result = true <-> hashes answers <> []) /\
    bulk_txHash result = Some (List.last (hashes answers) "") /\
    (bulk_success result = true -> In (List.last (hashes answers) "") (hashes answers)) /\
    bulk_failedTransactions result
      = (if Nat.eqb (failures answers) 0 then None else Some (failures answers)).
Proof.
  intros Hrun Hok.
  destruct (sendBulkPayment_cases win recipients includePlatformFee s)
    as (s1 & r1 & Hensure & Hcases).
  destruct (ensureMonadNetwork_quiet win _ _ _ Hensure) as (Ha & _ & _).
  rewrite Hrun in Hcases.
  destruct r1 as [[]|e]; [|injection Hcases as _ ->; discriminate].
  destruct (Nat.eqb (List.length recipients) 0);
    [injection Hcases as _ ->; discriminate|].
  destruct (truthy (connectedAccount s1));
    [|injection Hcases as _ ->; discriminate].
  cbv zeta in Hcases.
  destruct (snd (prevalidate (List.map validate_entry recipients) s1));
    [|injection Hcases as _ ->; discriminate].
  destruct (getProvider win) as [p|e]; [|injection Hcases as _ ->; discriminate].
  injection Hcases as _ ->. rewrite Ha.
  exists p, (trace s1). split; [reflexivity|]. cbv zeta.
  set (answers := outcomes p (connectedAccount s)
                           (List.map validate_entry recipients) (trace s1)).
  assert (Hcount : (failures answers + List.length (hashes answers))%nat
                   = List.length recipients).
  { rewrite failures_and_hashes. unfold answers.
    now rewrite outcomes_length, length_map. }
  cbn [bulk_success bulk_txHash bulk_failedTransactions].
  assert (Hiff : Nat.ltb (failures answers) (List.length recipients) = true
                 <-> hashes answers <> []).
  { rewrite Nat.ltb_lt, <- Hcount.
    destruct (hashes answers) as [|h rest]; simpl; split.
    - intros H. exfalso. lia.
    - intros H. now contradiction H.
    - discriminate.
    - intros _. lia. }
  split; [exact Hcount|]. split; [exact Hiff|]. split; [reflexivity|]. split.
  - intros H. apply Hiff in H. destruct (hashes answers) as [|h rest]; [contradiction|].
    clear. revert h. induction rest as [|h' rest IH]; intros h; [now left|].
    right. apply IH.
  - now destruct (failures answers).
Qed.

Lemma sendBulkPayment_success_means_accepted_witness :
  exists p t,
    getProvider (host metamask_second_fails) = Ok p /\
    (failures (outcomes p (connectedAccount (connected_as alice))
                        (List.map validate_entry three_recipients) t)
     + List.length (hashes (outcomes p (connectedAccount (connected_as alice))
                                     (List.map validate_entry three_recipients) t)))%nat
    = List.length three_recipients.
Proof.
  destruct (sendBulkPayment_success_means_accepted (host metamask_second_fails)
              three_recipients true (connected_as alice)
              (fst (sendBulkPayment (host metamask_second_fails) three_recipients true
                      (connected_as alice)))
              {| bulk_success := true;
                 bulk_txHash := Some "0xccc";
                 bulk_error := None;
                 bulk_totalPlatformFee := Some (sum_platform_fees three_recipients);
                 bulk_totalNetAmount :=
                   Some (accumulate_hardcoded (List.map validate_entry three_recipients) 0%float);
                 bulk_failedTransactions := Some 1%nat |})
    as (p & t & Hp & Hcount & _).
  - vm_compute. reflexivity.
  - reflexivity.
  - exists p, t. split; [exact Hp|exact Hcount].
Defined.

(** X25.  A bulk payment to a single recipient and a single payment
    to that recipient with the same displayed amount do the same on
    chain: on every host and in every state they ask the wallet for the
    same requests, submit the same transfers, and succeed together or
    fail together; when they succeed they report the same hash. *)
Theorem single_and_bulk_agree (win : Window) (recipient : string) (displayed : Q)
    (includePlatformFee : bool) (s : State) :
  exists s1 s2 single bulk,
    sendPayment win recipient displayed includePlatformFee s = (s1, Ok single) /\
    sendBulkPayment win [ {| address := recipient; amount := displayed |} ]
                    includePlatformFee s = (s2, Ok bulk) /\
    requests (trace s1) = requests (trace s2) /\
    transfers (trace s1) = transfers (trace s2) /\
    pay_success single = bulk_success bulk /\
    (pay_success single = true -> bulk_txHash bulk = pay_txHash single).
Proof.
  destruct (sendPayment_cases win recipient displayed includePlatformFee s)
    as (s1 & r1 & Hensure & Hsingle).
  destruct (sendBulkPayment_cases win [ {| address := recipient; amount := displayed |} ]
              includePlatformFee s) as (s1' & r1' & Hensure' & Hbulk).
  rewrite Hensure in Hensure'. injection Hensure' as <- <-.
  rewrite Hsingle, Hbulk. clear Hsingle Hbulk.
  destruct r1 as [[]|e].
  2:{ eexists _, _, _, _. repeat split; discriminate. }
  change (Nat.eqb (List.length [ {| address := recipient; amount := displayed |} ]) 0)
    with false. cbv iota zeta.
  assert (Hpre : snd (prevalidate
                        (List.map validate_entry
                                  [ {| address := recipient; amount := displayed |} ]) s1)
                 = if Qle_bool displayed 0
                   then Throw (new_Error "Amount must be greater than 0")
                   else Ok tt).
  { simpl. rewrite validate_entry_address, validate_recipient_valid. simpl.
    rewrite validate_entry_amount. simpl. now destruct (Qle_bool displayed 0). }
  rewrite Hpre.
  destruct (Qle_bool displayed 0), (truthy (connectedAccount s1));
    try (eexists _, _, _, _; repeat split; discriminate).
  destruct (getProvider win) as [p|e].
  2:{ eexists _, _, _, _. repeat split; discriminate. }
  cbn [List.map submission_events flat_map outcomes app].
  rewrite bulk_transaction_validated. cbn [address].
  set (req := eth_sendTransaction (payment_transaction (connectedAccount s1) recipient)).
  eexists _, _, _, _. split; [reflexivity|]. split; [reflexivity|].
  cbn [extend trace]. rewrite !requests_app, !transfers_app.
  split; [reflexivity|]. split; [reflexivity|].
  destruct (respond p (trace s1) req); split; try reflexivity; discriminate.
Qed.

(** ** VAT refunds *)

(** X26.  [submitVATRefund] never succeeds, never raises and touches
    neither the wallet nor the session: it always returns a failure
    record without a hash.  The error is the missing-contract message
    exactly when both amounts are above zero and the VAT amount does
    not exceed the bill; otherwise it names the first check that
    failed. *)
Theorem submitVATRefund_never_succeeds
    (vatRegNo receiptNo : string) (billAmount vatAmount : Q)
    (currency documentHash : string) (s : State) :
  exists message,
    submitVATRefund vatRegNo receiptNo billAmount vatAmount currency documentHash s
      = (s, Ok {| vat_success := false; vat_txHash := None; vat_error := Some message |}) /\
    (message = VAT_NOT_DEPLOYED_MESSAGE <->
     (0 < billAmount)%Q /\ (0 < vatAmount)%Q /\ (vatAmount <= billAmount)%Q) /\
    (message = VAT_POSITIVE_MESSAGE <-> (billAmount <= 0)%Q \/ (vatAmount <= 0)%Q) /\
    (message = VAT_EXCEEDS_MESSAGE <->
     (0 < billAmount)%Q /\ (0 < vatAmount)%Q /\ (billAmount < vatAmount)%Q).
Proof.
  unfold submitVATRefund, try_catch, submitVATRefund_body.
  assert (Hlt : forall x y : Q, Qle_bool x y = false -> (y < x)%Q).
  { intros x y H. apply Qnot_le_lt. intros Hle. apply Qle_bool_iff in Hle. congruence. }
  destruct (Qle_bool billAmount 0) eqn:Hb; cbn [orb];
    [apply Qle_bool_iff in Hb|apply Hlt in Hb].
  { eexists. split; [reflexivity|]. cbn.
    unfold VAT_POSITIVE_MESSAGE, VAT_EXCEEDS_MESSAGE, VAT_NOT_DEPLOYED_MESSAGE.
    split; [|split]; split;
      solve [ intros H; discriminate H | intros _; now left
            | intros (? & ? & ?); lra | intros _; reflexivity ]. }
  destruct (Qle_bool vatAmount 0) eqn:Hv;
    [apply Qle_bool_iff in Hv|apply Hlt in Hv].
  { eexists. split; [reflexivity|]. cbn.
    unfold VAT_POSITIVE_MESSAGE, VAT_EXCEEDS_MESSAGE, VAT_NOT_DEPLOYED_MESSAGE.
    split; [|split]; split;
      solve [ intros H; discriminate H | intros _; now right
            | intros (? & ? & ?); lra | intros _; reflexivity ]. }
  destruct (Qle_bool vatAmount billAmount) eqn:Hx; cbn [negb];
    [apply Qle_bool_iff in Hx|apply Hlt in Hx];
    (eexists; split; [reflexivity|]; cbn;
     unfold VAT_POSITIVE_MESSAGE, VAT_EXCEEDS_MESSAGE, VAT_NOT_DEPLOYED_MESSAGE;
     split; [|split]; split;
       solve [ intros H; discriminate H | intros _; now repeat split
             | intros (? & ? & ?); lra | intros [?|?]; lra | intros _; reflexivity ]).
Qed.
